(** * The connection and message-routing core of [backend/server.py]

    A shallow embedding of the WebSocket side of the server:
    [ConnectionManager], the two WebSocket endpoints [websocket_dashboard]
    and [websocket_device], the command endpoints [control_pin] and
    [trigger_ota_update], and the endpoints that read and write device
    records.

    Python coroutines are embedded in a state-and-exception monad over a
    [World] (the process-wide [manager], the two Mongo collections the
    core touches, the clock, and a log of the calls made on sockets and on
    the store).  A raised exception keeps the world reached so far, as
    mutations in Python do.  What the peers and the store do is given by
    an [Env] (which sends raise, which store operations raise) and by the
    script of what [receive_text] yields.

    The handlers are given twice: whole, as the source has them, and, for
    the transition system, cut at their awaits into the steps between
    which other tasks may run; the steps of a handler put end to end are
    shown to be the handler.

    What is taken for granted:
    - [accept] and [close] do not raise;
    - a text frame stands for what [json.loads] makes of it ([frame]);
    - a store operation takes effect when it is awaited, so that nothing
      runs between a registry mutation and the store update that follows
      it in the same handler;
    - in the transition system the sends of one [broadcast_to_users] are
      taken together;
    - [uuid4] draws from a counter, the clock is read from the world. *)

From Stdlib Require Import String List ZArith Bool Arith Lia.
Import ListNotations.
Local Open Scope string_scope.
Local Open Scope list_scope.

(** ** Values *)

(** What [json.loads] returns, and what [send_json] is given. *)
#[local] Unset Elimination Schemes.
Inductive json : Type :=
| JNull
| JBool (b : bool)
| JInt (z : Z)
| JFloat (literal : string)
| JStr (s : string)
| JArr (elems : list json)
| JObj (items : list (string * json)).
#[local] Set Elimination Schemes.

(** A text frame, by what [json.loads] does on it. *)
Inductive frame : Type :=
| NotJson (text : string)
| Json (v : json).

Inductive exn : Type :=
| WebSocketDisconnect (code : Z)
| JSONDecodeError
| AttributeError
| ValidationError
| RuntimeError
| PyMongoError
| HTTPException (status_code : Z) (detail : string).

Inductive result (A : Type) : Type :=
| Ok (a : A)
| Raise (e : exn).
Arguments Ok {A} a.
Arguments Raise {A} e.

(** ** Python dictionaries

    A [dict] keeps insertion order: assigning to a present key keeps its
    place, assigning to a new key appends, [del] keeps the order of the
    others. *)
Module Dict.
Section Dict.
Variable V : Type.

Definition t := list (string * V).

Fixpoint get (d : t) (k : string) : option V :=
  match d with
  | [] => None
  | (k', v) :: rest => if k' =? k then Some v else get rest k
  end.

Definition contains (d : t) (k : string) : bool :=
  match get d k with Some _ => true | None => false end.

Fixpoint set (d : t) (k : string) (v : V) : t :=
  match d with
  | [] => [(k, v)]
  | (k', v') :: rest =>
      if k' =? k then (k', v) :: rest else (k', v') :: set rest k v
  end.

Fixpoint del (d : t) (k : string) : t :=
  match d with
  | [] => []
  | (k', v') :: rest =>
      if k' =? k then rest else (k', v') :: del rest k
  end.

Definition keys (d : t) : list string := map fst d.
Definition values (d : t) : list V := map snd d.

(** Number of entries stored under [k]. *)
Definition entries (d : t) (k : string) : nat :=
  length (filter (fun kv => fst kv =? k) d).

Definition wf (d : t) : Prop := NoDup (keys d).
End Dict.
Arguments get {V} d k.
Arguments contains {V} d k.
Arguments set {V} d k v.
Arguments del {V} d k.
Arguments keys {V} d.
Arguments values {V} d.
Arguments entries {V} d k.
Arguments wf {V} d.
End Dict.

(** [message.get(key)] and [message.get(key, default)]: only a decoded
    JSON object has the method. *)
Definition dict_get (message : json) (key : string) (default : json)
  : result json :=
  match message with
  | JObj items =>
      match Dict.get items key with
      | Some v => Ok v
      | None => Ok default
      end
  | _ => Raise AttributeError
  end.

(** [v == s] for a string literal [s]. *)
Definition eq_str (v : json) (s : string) : bool :=
  match v with
  | JStr s' => s' =? s
  | _ => false
  end.

(** ** The world *)

Definition WebSocket := nat.

(** A document of [db.devices]; of the fields of [Device] those the core
    reads or writes. *)
Record Device : Type := mkDevice {
  dev_id : string;
  dev_auth_token : string;
  dev_user_id : string;
  dev_status : string;
  dev_last_seen : option Z;
  dev_firmware_version : json
}.

(** A document of [db.sensor_data]. *)
Record SensorData : Type := mkSensorData {
  sd_id : nat;
  sd_device_id : string;
  sd_data : json;
  sd_timestamp : Z
}.

Record PinControl : Type := mkPinControl {
  pc_device_id : string;
  pc_pin : string;
  pc_value : json
}.

Record User : Type := mkUser { usr_id : string }.

(** The [$set] documents the core passes to [update_one]. *)
Inductive update : Type :=
| SetLiveness (status : string) (last_seen : Z)
| SetFirmwareVersion (version : json).

(** Calls made on sockets and write calls made on the store, oldest
    first. *)
Inductive event : Type :=
| Accept (ws : WebSocket)
| Close (ws : WebSocket) (code : Z)
| SendJson (ws : WebSocket) (message : json)
| SendFailed (ws : WebSocket) (message : json)
| UpdateOne (device_id : string) (u : update)
| InsertOne (doc : SensorData).

Record ConnectionManager : Type := mkManager {
  active_connections : Dict.t WebSocket;
  device_connections : Dict.t WebSocket
}.

Record World : Type := mkWorld {
  manager : ConnectionManager;
  db_devices : list Device;
  db_sensor_data : list SensorData;
  clock : Z;
  uuid_seed : nat;
  trace : list event
}.

(** ** The environment *)

Inductive send_error : Type :=
| SendRuntimeError
| SendDisconnect (code : Z).

Definition exn_of_send_error (e : send_error) : exn :=
  match e with
  | SendRuntimeError => RuntimeError
  | SendDisconnect code => WebSocketDisconnect code
  end.

Inductive store_op : Type := OpFind | OpUpdate | OpInsert.

Record Env : Type := mkEnv {
  send_fault : WebSocket -> option send_error;
  store_fault : store_op -> bool
}.

(** What one [await websocket.receive_text()] yields: a text frame, or
    [WebSocketDisconnect] when the peer closed (code 1000) or the
    transport was lost (code 1006). *)
Inductive recv : Type :=
| Text (f : frame)
| Disconnected (code : Z).

(** How a coroutine stands when its script is used up: it has returned,
    or it is suspended in [receive_text]. *)
Inductive task_end : Type := Returned | Pending.

(** ** The monad *)

Definition M (A : Type) : Type := World -> result A * World.

Definition ret {A} (a : A) : M A := fun w => (Ok a, w).

Definition raise {A} (e : exn) : M A := fun w => (Raise e, w).

Definition bind {A B} (m : M A) (k : A -> M B) : M B :=
  fun w =>
    match m w with
    | (Ok a, w') => k a w'
    | (Raise e, w') => (Raise e, w')
    end.

Definition lift {A} (r : result A) : M A := fun w => (r, w).

(** [try: body / except <handles>: handler]. *)
Definition try_except {A} (body : M A) (handles : exn -> bool)
  (handler : M A) : M A :=
  fun w =>
    match body w with
    | (Ok a, w') => (Ok a, w')
    | (Raise e, w') => if handles e then handler w' else (Raise e, w')
    end.

Declare Scope monad_scope.
Delimit Scope monad_scope with monad.
Notation "x <- c ;; k" := (bind c (fun x => k))
  (at level 61, c at next level, right associativity) : monad_scope.
Notation "c ;; k" := (bind c (fun _ => k))
  (at level 61, right associativity) : monad_scope.
Local Open Scope monad_scope.

Fixpoint for_each {A} (l : list A) (body : A -> M unit) : M unit :=
  match l with
  | [] => ret tt
  | x :: rest => body x ;; for_each rest body
  end.

(** ** World updates *)

Definition log (e : event) (w : World) : World :=
  mkWorld (manager w) (db_devices w) (db_sensor_data w) (clock w)
    (uuid_seed w) (trace w ++ [e]).

Definition with_manager (m : ConnectionManager) (w : World) : World :=
  mkWorld m (db_devices w) (db_sensor_data w) (clock w) (uuid_seed w)
    (trace w).

Definition with_devices (ds : list Device) (w : World) : World :=
  mkWorld (manager w) ds (db_sensor_data w) (clock w) (uuid_seed w)
    (trace w).

Definition with_sensor_data (sd : list SensorData) (w : World) : World :=
  mkWorld (manager w) (db_devices w) sd (clock w) (uuid_seed w) (trace w).

Definition with_uuid_seed (n : nat) (w : World) : World :=
  mkWorld (manager w) (db_devices w) (db_sensor_data w) (clock w) n
    (trace w).

Definition with_clock (t : Z) (w : World) : World :=
  mkWorld (manager w) (db_devices w) (db_sensor_data w) t (uuid_seed w)
    (trace w).

Definition apply_update (u : update) (d : Device) : Device :=
  match u with
  | SetLiveness status last_seen =>
      mkDevice (dev_id d) (dev_auth_token d) (dev_user_id d) status
        (Some last_seen) (dev_firmware_version d)
  | SetFirmwareVersion version =>
      mkDevice (dev_id d) (dev_auth_token d) (dev_user_id d) (dev_status d)
        (dev_last_seen d) version
  end.

(** [update_one({'id': device_id}, {'$set': ...})] changes the first
    document with that id, and none when there is none. *)
Fixpoint update_first (device_id : string) (u : update) (ds : list Device)
  : list Device :=
  match ds with
  | [] => []
  | d :: rest =>
      if dev_id d =? device_id then apply_update u d :: rest
      else d :: update_first device_id u rest
  end.

(** The persisted status of a device: that of the document
    [find_one({'id': device_id})] returns. *)
Definition device_status (ds : list Device) (device_id : string)
  : option string :=
  option_map dev_status (find (fun d => dev_id d =? device_id) ds).

(** ** Sockets, store and clock *)

Section Server.
Variable env : Env.

Definition accept (websocket : WebSocket) : M unit :=
  fun w => (Ok tt, log (Accept websocket) w).

Definition close (websocket : WebSocket) (code : Z) : M unit :=
  fun w => (Ok tt, log (Close websocket code) w).

(** [await websocket.send_json(message)]: delivers, or raises when the
    environment says this socket fails. *)
Definition send_json (websocket : WebSocket) (message : json) : M unit :=
  fun w =>
    match send_fault env websocket with
    | None => (Ok tt, log (SendJson websocket message) w)
    | Some e =>
        (Raise (exn_of_send_error e), log (SendFailed websocket message) w)
    end.

(** [await websocket.receive_text()], given what the peer does next. *)
Definition receive_text (r : recv) : M frame :=
  match r with
  | Text f => ret f
  | Disconnected code => raise (WebSocketDisconnect code)
  end.

Definition json_loads (data : frame) : M json :=
  match data with
  | NotJson _ => raise JSONDecodeError
  | Json v => ret v
  end.

(** [datetime.now(timezone.utc)] *)
Definition now : M Z := fun w => (Ok (clock w), w).

(** [uuid.uuid4()] *)
Definition uuid4 : M nat :=
  fun w => (Ok (uuid_seed w), with_uuid_seed (S (uuid_seed w)) w).

(** [await db.devices.find_one(query)] *)
Definition devices_find_one (query : Device -> bool) : M (option Device) :=
  fun w =>
    if store_fault env OpFind then (Raise PyMongoError, w)
    else (Ok (find query (db_devices w)), w).

(** [await db.devices.update_one({'id': device_id}, {'$set': u})] *)
Definition devices_update_one (device_id : string) (u : update) : M unit :=
  fun w =>
    if store_fault env OpUpdate then (Raise PyMongoError, w)
    else
      (Ok tt,
       log (UpdateOne device_id u)
         (with_devices (update_first device_id u (db_devices w)) w)).

(** [await db.sensor_data.insert_one(doc)] *)
Definition sensor_data_insert_one (doc : SensorData) : M unit :=
  fun w =>
    if store_fault env OpInsert then (Raise PyMongoError, w)
    else
      (Ok tt,
       log (InsertOne doc) (with_sensor_data (db_sensor_data w ++ [doc]) w)).

(** [SensorData(device_id=..., data=...)]: [id] and [timestamp] come from
    their default factories; [data : Dict[str, Any]] is validated. *)
Definition new_SensorData (device_id : string) (data : json)
  : M SensorData :=
  i <- uuid4 ;;
  t <- now ;;
  match data with
  | JObj _ => ret (mkSensorData i device_id data t)
  | _ => raise ValidationError
  end.

(** ** [ConnectionManager] *)

Definition set_active (d : Dict.t WebSocket) : M unit :=
  fun w =>
    (Ok tt, with_manager (mkManager d (device_connections (manager w))) w).

Definition set_devices (d : Dict.t WebSocket) : M unit :=
  fun w =>
    (Ok tt, with_manager (mkManager (active_connections (manager w)) d) w).

Definition the_manager : M ConnectionManager :=
  fun w => (Ok (manager w), w).

Definition connect (websocket : WebSocket) (client_id client_type : string)
  : M unit :=
  accept websocket ;;
  self <- the_manager ;;
  if client_type =? "device" then
    set_devices (Dict.set (device_connections self) client_id websocket)
  else
    set_active (Dict.set (active_connections self) client_id websocket).

Definition disconnect (client_id client_type : string) : M unit :=
  self <- the_manager ;;
  if client_type =? "device" then
    if Dict.contains (device_connections self) client_id then
      set_devices (Dict.del (device_connections self) client_id)
    else ret tt
  else
    if Dict.contains (active_connections self) client_id then
      set_active (Dict.del (active_connections self) client_id)
    else ret tt.

Definition send_to_device (device_id : string) (message : json) : M unit :=
  self <- the_manager ;;
  match Dict.get (device_connections self) device_id with
  | Some websocket => send_json websocket message
  | None => ret tt
  end.

Definition broadcast_to_users (message : json) : M unit :=
  self <- the_manager ;;
  for_each (Dict.values (active_connections self))
    (fun connection => send_json connection message).

(** ** Endpoints *)

Definition is_WebSocketDisconnect (e : exn) : bool :=
  match e with
  | WebSocketDisconnect _ => true
  | _ => false
  end.

(** [POST /api/control/pin], after [get_current_user] has resolved. *)
Definition control_pin (control : PinControl) (current_user : User)
  : M json :=
  device <- devices_find_one
    (fun d => (dev_id d =? pc_device_id control)
              && (dev_user_id d =? usr_id current_user)) ;;
  match device with
  | None => raise (HTTPException 404 "Device not found")
  | Some _ =>
      send_to_device (pc_device_id control)
        (JObj [("type", JStr "pin_control");
               ("pin", JStr (pc_pin control));
               ("value", pc_value control)]) ;;
      ret (JObj [("message", JStr "Command sent");
                 ("pin", JStr (pc_pin control));
                 ("value", pc_value control)])
  end.

(** The [while True] loop of [websocket_dashboard]: frames are read and
    ignored. *)
Fixpoint dashboard_loop (script : list recv) : M task_end :=
  match script with
  | [] => ret Pending
  | r :: rest => _ <- receive_text r ;; dashboard_loop rest
  end.

(** The [try] statement of [websocket_dashboard]. *)
Definition dashboard_session (user_id : string) (script : list recv)
  : M task_end :=
  try_except (dashboard_loop script) is_WebSocketDisconnect
    (disconnect user_id "user" ;; ret Returned).

Definition websocket_dashboard (websocket : WebSocket) (user_id : string)
  (script : list recv) : M task_end :=
  connect websocket user_id "user" ;;
  dashboard_session user_id script.

Definition device_status_event (device_id status : string) : json :=
  JObj [("type", JStr "device_status");
        ("device_id", JStr device_id);
        ("status", JStr status)].

Definition sensor_data_event (device_id : string) (data : json) : json :=
  JObj [("type", JStr "sensor_data");
        ("device_id", JStr device_id);
        ("data", data)].

Definition firmware_update_status_event (device_id : string)
  (status version : json) : json :=
  JObj [("type", JStr "firmware_update_status");
        ("device_id", JStr device_id);
        ("status", status);
        ("version", version)].

(** The body of the device loop after [receive_text]: decode and
    dispatch on [type]. *)
Definition handle_frame (device_id : string) (data : frame) : M unit :=
  message <- json_loads data ;;
  ty <- lift (dict_get message "type" JNull) ;;
  if eq_str ty "sensor_data" then
    payload <- lift (dict_get message "data" (JObj [])) ;;
    sensor_data <- new_SensorData device_id payload ;;
    sensor_data_insert_one sensor_data ;;
    payload' <- lift (dict_get message "data" (JObj [])) ;;
    broadcast_to_users (sensor_data_event device_id payload')
  else
    ty' <- lift (dict_get message "type" JNull) ;;
    if eq_str ty' "firmware_update_status" then
      status <- lift (dict_get message "status" JNull) ;;
      (if eq_str status "success" then
         version <- lift (dict_get message "version" JNull) ;;
         devices_update_one device_id (SetFirmwareVersion version)
       else ret tt) ;;
      status' <- lift (dict_get message "status" JNull) ;;
      version' <- lift (dict_get message "version" JNull) ;;
      broadcast_to_users
        (firmware_update_status_event device_id status' version')
    else ret tt.

(** The [while True] loop of [websocket_device]. *)
Fixpoint device_loop (device_id : string) (script : list recv)
  : M task_end :=
  match script with
  | [] => ret Pending
  | r :: rest =>
      data <- receive_text r ;;
      handle_frame device_id data ;;
      device_loop device_id rest
  end.

(** The [except WebSocketDisconnect] block of [websocket_device]. *)
Definition on_device_disconnect (device_id : string) : M task_end :=
  disconnect device_id "device" ;;
  t <- now ;;
  devices_update_one device_id (SetLiveness "offline" t) ;;
  broadcast_to_users (device_status_event device_id "offline") ;;
  ret Returned.

(** The [try] statement of [websocket_device]. *)
Definition device_session (device_id : string) (script : list recv)
  : M task_end :=
  try_except (device_loop device_id script) is_WebSocketDisconnect
    (on_device_disconnect device_id).

Definition websocket_device (websocket : WebSocket)
  (device_id auth_token : string) (script : list recv) : M task_end :=
  device <- devices_find_one
    (fun d => (dev_id d =? device_id) && (dev_auth_token d =? auth_token)) ;;
  match device with
  | None => close websocket 4001 ;; ret Returned
  | Some _ =>
      connect websocket device_id "device" ;;
      t <- now ;;
      devices_update_one device_id (SetLiveness "online" t) ;;
      broadcast_to_users (device_status_event device_id "online") ;;
      device_session device_id script
  end.

End Server.

(** ** Properties of states *)

(** A device has a channel handle in the registry exactly when its
    persisted status is [online]. *)
Definition synced (w : World) : Prop :=
  forall device_id,
    Dict.get (device_connections (manager w)) device_id <> None <->
    device_status (db_devices w) device_id = Some "online".

Definition registry_wf (w : World) : Prop :=
  Dict.wf (active_connections (manager w)) /\
  Dict.wf (device_connections (manager w)).

(** [w'] is [w] with [evs] logged after what [w] had. *)
Definition extend (evs : list event) (w : World) : World :=
  mkWorld (manager w) (db_devices w) (db_sensor_data w) (clock w)
    (uuid_seed w) (trace w ++ evs).

(** A frame is dropped when the loop goes on to the next frame from the
    same world. *)
Definition frame_dropped (env : Env) (device_id : string) (f : frame)
  : Prop :=
  forall rest w,
    device_loop env device_id (Text f :: rest) w =
    device_loop env device_id rest w.

(** An environment in which nothing fails. *)
Definition calm : Env := mkEnv (fun _ => None) (fun _ => false).

(** The part of the world the liveness invariant reads is left alone:
    the device partition and every persisted status are the same, and the
    dashboard partition stays well formed. *)
Definition quiet (w w' : World) : Prop :=
  device_connections (manager w) = device_connections (manager w') /\
  (forall device_id,
      device_status (db_devices w) device_id =
      device_status (db_devices w') device_id) /\
  (Dict.wf (active_connections (manager w)) ->
   Dict.wf (active_connections (manager w'))).

Definition keeps {A} (m : M A) : Prop := forall w, quiet w (snd (m w)).

Definition consistent (w : World) : Prop := registry_wf w /\ synced w.

(** The world once a device connection is registered and its record
    marked online: [manager.connect] then [update_one], before the
    broadcast. *)
Definition after_connect (websocket : WebSocket) (device_id : string)
  (w : World) : World :=
  log (UpdateOne device_id (SetLiveness "online" (clock w)))
    (with_devices
       (update_first device_id (SetLiveness "online" (clock w))
          (db_devices w))
       (with_manager
          (mkManager (active_connections (manager w))
             (Dict.set (device_connections (manager w)) device_id websocket))
          (log (Accept websocket) w))).

(** The world once the registry entry is removed and the record marked
    offline: [manager.disconnect] then [update_one], before the
    broadcast. *)
Definition after_disconnect (device_id : string) (w : World) : World :=
  log (UpdateOne device_id (SetLiveness "offline" (clock w)))
    (with_devices
       (update_first device_id (SetLiveness "offline" (clock w))
          (db_devices w))
       (with_manager
          (mkManager (active_connections (manager w))
             (Dict.del (device_connections (manager w)) device_id))
          w)).

(** The world once a sensor reading is stored: [uuid4] drawn, document
    appended, before the broadcast. *)
Definition after_insert (doc : SensorData) (w : World) : World :=
  log (InsertOne doc)
    (with_sensor_data (db_sensor_data w ++ [doc])
       (with_uuid_seed (S (uuid_seed w)) w)).

(** The world once [firmware_version] is set, before the broadcast. *)
Definition after_firmware_update (device_id : string) (version : json)
  (w : World) : World :=
  log (UpdateOne device_id (SetFirmwareVersion version))
    (with_devices
       (update_first device_id (SetFirmwareVersion version) (db_devices w))
       w).

(** [items.get(key)] of a decoded object. *)
Definition field (items : list (string * json)) (key : string) : json :=
  match Dict.get items key with
  | Some v => v
  | None => JNull
  end.

(** [send_json] was called on [ws] with [message], whether it delivered
    or raised. *)
Definition attempted (ws : WebSocket) (message : json) (w : World) : Prop :=
  In (SendJson ws message) (trace w) \/ In (SendFailed ws message) (trace w).

(** A broadcast that attempts every registered dashboard and does not
    raise. *)
Definition broadcast_isolates (env : Env) (message : json) (w : World)
  : Prop :=
  fst (broadcast_to_users env message w) = Ok tt /\
  forall c,
    In c (Dict.values (active_connections (manager w))) ->
    attempted c message (snd (broadcast_to_users env message w)).

(** Whether the peer hangs up somewhere in the script. *)
Definition hangs_up (script : list recv) : bool :=
  existsb (fun r => match r with Disconnected _ => true | Text _ => false end)
    script.

(** ** Sample data *)

(** Sends to [ws] raise [RuntimeError]; everything else works. *)
Definition flaky (ws : WebSocket) : Env :=
  mkEnv (fun c => if (c =? ws)%nat then Some SendRuntimeError else None)
    (fun _ => false).


Definition sample_device : Device :=
  mkDevice "dev-1" "secret" "alice" "offline" None (JStr "1.0.0").

(** One registered device, offline; dashboards of alice and bob on
    sockets 7 and 8. *)
Definition sample_world : World :=
  mkWorld (mkManager [("alice", 7); ("bob", 8)] []) [sample_device] [] 100 0
    [].

(** The same with the device connected on socket 1. *)
Definition sample_online : World :=
  mkWorld (mkManager [("alice", 7); ("bob", 8)] [("dev-1", 1)])
    [mkDevice "dev-1" "secret" "alice" "online" (Some 100%Z) (JStr "1.0.0")]
    [] 100 0 [].

Definition sample_reading : json :=
  JObj [("type", JStr "sensor_data");
        ("data", JObj [("temp", JFloat "21.5")])].

(** ** The device and firmware endpoints

    The REST endpoints that read or write [db.devices], and the two that
    read [db.firmware_versions] (a collection these endpoints never
    write, taken as given).  Each is modelled once [get_current_user] has
    resolved the caller.  Their store calls are not logged in [trace]. *)

(** The request body of [POST /api/devices]; its two fields go into the
    stored document, outside the fields [Device] models. *)
Record DeviceCreate : Type := mkDeviceCreate {
  dc_name : string;
  dc_device_type_id : string
}.

(** A document of [db.firmware_versions]. *)
Record FirmwareVersion : Type := mkFirmwareVersion {
  fw_id : string;
  fw_device_type_id : string;
  fw_version : string;
  fw_file_data : string;
  fw_file_size : Z;
  fw_is_active : bool
}.

(** [delete_one] removes the first document the query matches. *)
Fixpoint remove_first (query : Device -> bool) (ds : list Device)
  : list Device :=
  match ds with
  | [] => []
  | d :: rest => if query d then rest else d :: remove_first query rest
  end.

Section Endpoints.
Variable env : Env.
(** [str] of a drawn UUID. *)
Variable uuid_str : nat -> string.
Variable firmware_versions : list FirmwareVersion.

(** [await db.devices.insert_one(doc)] *)
Definition devices_insert_one (doc : Device) : M unit :=
  fun w =>
    if store_fault env OpInsert then (Raise PyMongoError, w)
    else (Ok tt, with_devices (db_devices w ++ [doc]) w).

(** [(await db.devices.delete_one(query)).deleted_count]; a delete is
    refused when updates are. *)
Definition devices_delete_one (query : Device -> bool) : M nat :=
  fun w =>
    if store_fault env OpUpdate then (Raise PyMongoError, w)
    else
      match find query (db_devices w) with
      | Some _ =>
          (Ok 1, with_devices (remove_first query (db_devices w)) w)
      | None => (Ok 0, w)
      end.

(** [await db.devices.find(query).to_list(1000)] *)
Definition devices_find (query : Device -> bool) : M (list Device) :=
  fun w =>
    if store_fault env OpFind then (Raise PyMongoError, w)
    else (Ok (firstn 1000 (filter query (db_devices w))), w).

(** [await db.firmware_versions.find_one(query)] *)
Definition firmware_find_one (query : FirmwareVersion -> bool)
  : M (option FirmwareVersion) :=
  fun w =>
    if store_fault env OpFind then (Raise PyMongoError, w)
    else (Ok (find query firmware_versions), w).

(** [Device(name=..., device_type_id=..., user_id=...)]: [id] and
    [auth_token] from their default factories, in that order. *)
Definition new_Device (device_data : DeviceCreate) (user_id : string)
  : M Device :=
  i <- uuid4 ;;
  t <- uuid4 ;;
  ret (mkDevice (uuid_str i) (uuid_str t) user_id "offline" None
         (JStr "1.0.0")).

(** The [Device] built from a stored document on the way out:
    [firmware_version : Optional[str]] is validated; the other fields
    modelled hold what their types admit. *)
Definition validate_Device (device : Device) : M Device :=
  match dev_firmware_version device with
  | JStr _ | JNull => ret device
  | _ => raise ValidationError
  end.

(** [POST /api/devices] *)
Definition create_device (device_data : DeviceCreate) (current_user : User)
  : M Device :=
  device <- new_Device device_data (usr_id current_user) ;;
  devices_insert_one device ;;
  ret device.

(** [GET /api/devices], before the response model is applied. *)
Definition get_devices (current_user : User) : M (list Device) :=
  devices_find (fun d => dev_user_id d =? usr_id current_user).

(** [GET /api/devices/{device_id}] *)
Definition get_device (device_id : string) (current_user : User)
  : M Device :=
  device <- devices_find_one env
    (fun d => (dev_id d =? device_id)
              && (dev_user_id d =? usr_id current_user)) ;;
  match device with
  | None => raise (HTTPException 404 "Device not found")
  | Some d => validate_Device d
  end.

(** [DELETE /api/devices/{device_id}] *)
Definition delete_device (device_id : string) (current_user : User)
  : M json :=
  deleted_count <- devices_delete_one
    (fun d => (dev_id d =? device_id)
              && (dev_user_id d =? usr_id current_user)) ;;
  if (deleted_count =? 0)%nat then
    raise (HTTPException 404 "Device not found")
  else ret (JObj [("message", JStr "Device deleted")]).


Definition ota_update_command (firmware_id : string) (f : FirmwareVersion)
  : json :=
  JObj [("type", JStr "ota_update");
        ("firmware_id", JStr firmware_id);
        ("version", JStr (fw_version f));
        ("file_data", JStr (fw_file_data f));
        ("file_size", JInt (fw_file_size f))].

(** [POST /api/firmware/ota/{device_id}/{firmware_id}] *)
Definition trigger_ota_update (device_id firmware_id : string)
  (current_user : User) : M json :=
  device <- devices_find_one env
    (fun d => (dev_id d =? device_id)
              && (dev_user_id d =? usr_id current_user)) ;;
  match device with
  | None => raise (HTTPException 404 "Device not found")
  | Some _ =>
      firmware <- firmware_find_one (fun f => fw_id f =? firmware_id) ;;
      match firmware with
      | None => raise (HTTPException 404 "Firmware not found")
      | Some f =>
          send_to_device env device_id (ota_update_command firmware_id f) ;;
          ret (JObj [("message", JStr "OTA update triggered");
                     ("version", JStr (fw_version f))])
      end
  end.

End Endpoints.

(** ** Relations between the world before and after *)

(** Whatever ran changed the world from [w] to [snd (m w)] within [R]. *)
Definition along (R : World -> World -> Prop) {A} (m : M A) : Prop :=
  forall w, R w (snd (m w)).

(** What identifies a device record and who may use it. *)
Definition identity_of (d : Device) : string * string * string :=
  (dev_id d, dev_auth_token d, dev_user_id d).

(** Only the device [device_id] is concerned: the dashboard partition,
    the registry entry and the record of every other device are the
    same, and the records are the same ones, with the ids, tokens and
    owners they had. *)
Definition confined (device_id : string) (w w' : World) : Prop :=
  active_connections (manager w') = active_connections (manager w) /\
  map identity_of (db_devices w') = map identity_of (db_devices w) /\
  forall other,
    other <> device_id ->
    Dict.get (device_connections (manager w')) other =
    Dict.get (device_connections (manager w)) other /\
    find (fun d => dev_id d =? other) (db_devices w') =
    find (fun d => dev_id d =? other) (db_devices w).

(** A frame the handler gets through without raising, sends and store
    permitting: an object whose [data], when its [type] is
    [sensor_data], is an object or is absent. *)
Definition acceptable (f : frame) : bool :=
  match f with
  | Json (JObj items) =>
      if eq_str (field items "type") "sensor_data" then
        match Dict.get items "data" with
        | Some (JObj _) | None => true
        | Some _ => false
        end
      else true
  | _ => false
  end.

(** Nothing fails in [env]. *)
Definition faultless (env : Env) : Prop :=
  (forall ws, send_fault env ws = None) /\
  (forall op, store_fault env op = false).

(** Rendering of a drawn UUID used in examples. *)
Definition sample_uuid_str (n : nat) : string :=
  match n with
  | 0 => "uuid-0"
  | 1 => "uuid-1"
  | 2 => "uuid-2"
  | _ => "uuid-n"
  end.

Definition sample_firmware : FirmwareVersion :=
  mkFirmwareVersion "fw-1" "esp32" "1.1.0" "AAEC" 3 true.

(** Nothing changed but the log, which grew. *)
Definition only_logged (w w' : World) : Prop :=
  exists evs, w' = extend evs w.

(** The partition [connect] and [disconnect] work on for a client
    type: the device partition for ["device"], the dashboard partition
    for anything else. *)
Definition partition (client_type : string) (m : ConnectionManager)
  : Dict.t WebSocket :=
  if client_type =? "device" then device_connections m
  else active_connections m.

Definition pin_control_command (control : PinControl) : json :=
  JObj [("type", JStr "pin_control");
        ("pin", JStr (pc_pin control));
        ("value", pc_value control)].

(** ** The server as a transition system

    The handlers run as tasks of one event loop: a task runs alone until
    it awaits, and another may run then.  A task is here at one of the
    awaits of its handler, with the locals it goes on with, and a step
    takes one task from the await it is suspended in to its next one.
    The operation awaited is issued by the step that reaches it and takes
    effect there: [find_one] answers from the records of that moment, and
    the [update_one] that follows a registry mutation belongs to the step
    of the mutation.  Tasks interleave at every await but those inside one
    [broadcast_to_users], whose sends are taken together: what the
    iteration over the dashboard partition does when a dashboard connects
    or disconnects between two sends is left out.  A task with nothing
    left but its [return] is taken as ended.  The endpoints that only read
    are not steps.  A step is given the environment it runs in. *)

(** [manager.connect] after its [await websocket.accept()]. *)
Definition register (websocket : WebSocket) (client_id client_type : string)
  : M unit :=
  self <- the_manager ;;
  if client_type =? "device" then
    set_devices (Dict.set (device_connections self) client_id websocket)
  else
    set_active (Dict.set (active_connections self) client_id websocket).

(** The await a task of [websocket_device] is suspended in. *)
Inductive device_pc : Type :=
| AtFindOne (device : option Device)
    (** [db.devices.find_one], which answers [device] *)
| AtAccept
    (** [websocket.accept], inside [manager.connect] *)
| AtUpdateOnline
    (** [db.devices.update_one] with status [online] *)
| AtReceiveText
    (** [websocket.receive_text] *)
| AtInsertOne (message : json)
    (** [db.sensor_data.insert_one], handling [message] *)
| AtUpdateFirmware (message : json)
    (** [db.devices.update_one] with the version, handling [message] *)
| AtUpdateOffline.
    (** [db.devices.update_one] with status [offline] *)

(** The await a task of [websocket_dashboard] is suspended in. *)
Inductive dashboard_pc : Type :=
| DashAtAccept
| DashAtReceiveText.

(** The await a task of [control_pin] or of [trigger_ota_update] is
    suspended in. *)
Inductive request_pc : Type :=
| PinAtFindOne (control : PinControl) (device : option Device)
| OtaAtFindDevice (device_id firmware_id : string) (device : option Device)
| OtaAtFindFirmware (device_id firmware_id : string)
    (firmware : option FirmwareVersion).

(** How a handler stands once its task is at [at_], or ended. *)
Definition task_end_of {A} (at_ : option A) : task_end :=
  match at_ with
  | None => Returned
  | Some _ => Pending
  end.

Section Segments.
Variable env : Env.

(** The [except WebSocketDisconnect] block of [websocket_device], up to
    its [update_one]. *)
Definition device_cleanup (device_id : string) : M (option device_pc) :=
  disconnect device_id "device" ;;
  t <- now ;;
  devices_update_one env device_id (SetLiveness "offline" t) ;;
  ret (Some AtUpdateOffline).

(** A stretch of the [try] body of [websocket_device]. *)
Definition in_try (device_id : string) (body : M (option device_pc))
  : M (option device_pc) :=
  try_except body is_WebSocketDisconnect (device_cleanup device_id).

(** [websocket_device] from its start. *)
Definition device_knock (device_id auth_token : string)
  : M (option device_pc) :=
  device <- devices_find_one env
    (fun d => (dev_id d =? device_id) && (dev_auth_token d =? auth_token)) ;;
  ret (Some (AtFindOne device)).

(** [websocket_device] from the await [pc] to the next one. *)
Definition device_resume (websocket : WebSocket) (device_id : string)
  (pc : device_pc) : M (option device_pc) :=
  match pc with
  | AtFindOne None => close websocket 4001 ;; ret None
  | AtFindOne (Some _) => accept websocket ;; ret (Some AtAccept)
  | AtAccept =>
      register websocket device_id "device" ;;
      t <- now ;;
      devices_update_one env device_id (SetLiveness "online" t) ;;
      ret (Some AtUpdateOnline)
  | AtUpdateOnline =>
      broadcast_to_users env (device_status_event device_id "online") ;;
      ret (Some AtReceiveText)
  | AtReceiveText => ret (Some AtReceiveText)
  | AtInsertOne message =>
      in_try device_id
        (payload <- lift (dict_get message "data" (JObj [])) ;;
         broadcast_to_users env (sensor_data_event device_id payload) ;;
         ret (Some AtReceiveText))
  | AtUpdateFirmware message =>
      in_try device_id
        (status <- lift (dict_get message "status" JNull) ;;
         version <- lift (dict_get message "version" JNull) ;;
         broadcast_to_users env
           (firmware_update_status_event device_id status version) ;;
         ret (Some AtReceiveText))
  | AtUpdateOffline =>
      broadcast_to_users env (device_status_event device_id "offline") ;;
      ret None
  end.

(** [websocket_device] from [receive_text], which yields [r], to the next
    await. *)
Definition device_deliver (device_id : string) (r : recv)
  : M (option device_pc) :=
  in_try device_id
    (data <- receive_text r ;;
     message <- json_loads data ;;
     ty <- lift (dict_get message "type" JNull) ;;
     if eq_str ty "sensor_data" then
       payload <- lift (dict_get message "data" (JObj [])) ;;
       sensor_data <- new_SensorData device_id payload ;;
       sensor_data_insert_one env sensor_data ;;
       ret (Some (AtInsertOne message))
     else
       ty' <- lift (dict_get message "type" JNull) ;;
       if eq_str ty' "firmware_update_status" then
         status <- lift (dict_get message "status" JNull) ;;
         if eq_str status "success" then
           version <- lift (dict_get message "version" JNull) ;;
           devices_update_one env device_id (SetFirmwareVersion version) ;;
           ret (Some (AtUpdateFirmware message))
         else
           status' <- lift (dict_get message "status" JNull) ;;
           version' <- lift (dict_get message "version" JNull) ;;
           broadcast_to_users env
             (firmware_update_status_event device_id status' version') ;;
           ret (Some AtReceiveText)
       else ret (Some AtReceiveText)).

(** [websocket_dashboard] from its start. *)
Definition dashboard_open (websocket : WebSocket) : M (option dashboard_pc) :=
  accept websocket ;;
  ret (Some DashAtAccept).

Definition dashboard_resume (websocket : WebSocket) (user_id : string)
  (pc : dashboard_pc) : M (option dashboard_pc) :=
  match pc with
  | DashAtAccept =>
      register websocket user_id "user" ;;
      ret (Some DashAtReceiveText)
  | DashAtReceiveText => ret (Some DashAtReceiveText)
  end.

Definition dashboard_deliver (user_id : string) (r : recv)
  : M (option dashboard_pc) :=
  try_except (_ <- receive_text r ;; ret (Some DashAtReceiveText))
    is_WebSocketDisconnect
    (disconnect user_id "user" ;; ret None).

(** [control_pin] from its start. *)
Definition pin_start (control : PinControl) (current_user : User)
  : M (option request_pc) :=
  device <- devices_find_one env
    (fun d => (dev_id d =? pc_device_id control)
              && (dev_user_id d =? usr_id current_user)) ;;
  ret (Some (PinAtFindOne control device)).

(** [trigger_ota_update] from its start. *)
Definition ota_start (device_id firmware_id : string) (current_user : User)
  : M (option request_pc) :=
  device <- devices_find_one env
    (fun d => (dev_id d =? device_id)
              && (dev_user_id d =? usr_id current_user)) ;;
  ret (Some (OtaAtFindDevice device_id firmware_id device)).

Definition request_resume (firmware_versions : list FirmwareVersion)
  (pc : request_pc) : M (option request_pc) :=
  match pc with
  | PinAtFindOne control None =>
      raise (HTTPException 404 "Device not found")
  | PinAtFindOne control (Some _) =>
      send_to_device env (pc_device_id control)
        (JObj [("type", JStr "pin_control");
               ("pin", JStr (pc_pin control));
               ("value", pc_value control)]) ;;
      ret None
  | OtaAtFindDevice device_id firmware_id None =>
      raise (HTTPException 404 "Device not found")
  | OtaAtFindDevice device_id firmware_id (Some _) =>
      firmware <- firmware_find_one env firmware_versions
        (fun f => fw_id f =? firmware_id) ;;
      ret (Some (OtaAtFindFirmware device_id firmware_id firmware))
  | OtaAtFindFirmware device_id firmware_id None =>
      raise (HTTPException 404 "Firmware not found")
  | OtaAtFindFirmware device_id firmware_id (Some f) =>
      send_to_device env device_id (ota_update_command firmware_id f) ;;
      ret None
  end.

(** A task taken on when nothing else runs: one more step, unless it
    ended or waits for its peer. *)
Definition device_continue (websocket : WebSocket) (device_id : string)
  (at_ : option device_pc) : M (option device_pc) :=
  match at_ with
  | None => ret None
  | Some pc => device_resume websocket device_id pc
  end.

Definition request_continue (firmware_versions : list FirmwareVersion)
  (at_ : option request_pc) : M (option request_pc) :=
  match at_ with
  | None => ret None
  | Some pc => request_resume firmware_versions pc
  end.

(** A device task taken on for [n] steps with nothing else running, and
    how its handler stands then. *)
Fixpoint device_drive (n : nat) (websocket : WebSocket) (device_id : string)
  (at_ : option device_pc) : M task_end :=
  match n with
  | 0 => ret (task_end_of at_)
  | S n' =>
      next <- device_continue websocket device_id at_ ;;
      device_drive n' websocket device_id next
  end.

End Segments.

(** Where a step can leave its task. *)
Definition lands {A} (P : A -> Prop) (m : M (option A)) : Prop :=
  forall w pc, fst (m w) = Ok (Some pc) -> P pc.

(** The world once a device connection is registered and its record
    marked online: [manager.connect] after its [accept], then
    [update_one]. *)
Definition after_register (websocket : WebSocket) (device_id : string)
  (w : World) : World :=
  log (UpdateOne device_id (SetLiveness "online" (clock w)))
    (with_devices
       (update_first device_id (SetLiveness "online" (clock w))
          (db_devices w))
       (with_manager
          (mkManager (active_connections (manager w))
             (Dict.set (device_connections (manager w)) device_id websocket))
          w)).

(** The state of the server: the world, the firmware collection, and the
    tasks by the socket, or the request, they serve. *)
Record System : Type := mkSystem {
  world : World;
  firmware : list FirmwareVersion;
  device_tasks : list (WebSocket * (string * device_pc));
  dashboard_tasks : list (WebSocket * (string * dashboard_pc));
  requests : list (nat * (User * request_pc))
}.

Inductive action : Type :=
| DeviceKnocks (websocket : WebSocket) (device_id auth_token : string)
| DeviceResumes (websocket : WebSocket)
| DeviceYields (websocket : WebSocket) (r : recv)
| DashboardOpens (websocket : WebSocket) (user_id : string)
| DashboardResumes (websocket : WebSocket)
| DashboardYields (websocket : WebSocket) (r : recv)
| PinCommand (request : nat) (control : PinControl) (current_user : User)
| OtaCommand (request : nat) (device_id firmware_id : string)
    (current_user : User)
| RequestResumes (request : nat)
| CreateDevice (device_data : DeviceCreate) (current_user : User)
| DeleteDevice (device_id : string) (current_user : User)
| ClockTick.

Definition task_of {A} (tasks : list (nat * A)) (key : nat) : option A :=
  option_map snd (find (fun t => fst t =? key)%nat tasks).

Definition drop_task {A} (tasks : list (nat * A)) (key : nat)
  : list (nat * A) :=
  filter (fun t => negb (fst t =? key)%nat) tasks.

(** The tasks after one of them ran a step: it is suspended where the
    step left it, and is gone when it returned or raised. *)
Definition settle {A B} (tasks : list (nat * (B * A))) (key : nat)
  (client : B) (r : result (option A)) : list (nat * (B * A)) :=
  match r with
  | Ok (Some pc) => (key, (client, pc)) :: drop_task tasks key
  | _ => drop_task tasks key
  end.

Definition is_open (s : System) (ws : WebSocket) : bool :=
  match task_of (device_tasks s) ws, task_of (dashboard_tasks s) ws with
  | None, None => false
  | _, _ => true
  end.

Definition with_world (w : World) (s : System) : System :=
  mkSystem w (firmware s) (device_tasks s) (dashboard_tasks s) (requests s).

(** A device connection between the lookup that found its record and
    its registration. *)
Definition admitting (pc : device_pc) : bool :=
  match pc with
  | AtFindOne (Some _) | AtAccept => true
  | _ => false
  end.

Section Steps.
(** [str] of a drawn UUID. *)
Variable uuid_str : nat -> string.

Definition sys_step (env : Env) (a : action) (s : System) : System :=
  match a with
  | DeviceKnocks ws device_id auth_token =>
      if is_open s ws then s
      else
        let (r, w) := device_knock env device_id auth_token (world s) in
        mkSystem w (firmware s) (settle (device_tasks s) ws device_id r)
          (dashboard_tasks s) (requests s)
  | DeviceResumes ws =>
      match task_of (device_tasks s) ws with
      | None | Some (_, AtReceiveText) => s
      | Some (device_id, pc) =>
          let (r, w) := device_resume env ws device_id pc (world s) in
          mkSystem w (firmware s) (settle (device_tasks s) ws device_id r)
            (dashboard_tasks s) (requests s)
      end
  | DeviceYields ws r =>
      match task_of (device_tasks s) ws with
      | Some (device_id, AtReceiveText) =>
          let (res, w) := device_deliver env device_id r (world s) in
          mkSystem w (firmware s) (settle (device_tasks s) ws device_id res)
            (dashboard_tasks s) (requests s)
      | _ => s
      end
  | DashboardOpens ws user_id =>
      if is_open s ws then s
      else
        let (r, w) := dashboard_open ws (world s) in
        mkSystem w (firmware s) (device_tasks s)
          (settle (dashboard_tasks s) ws user_id r) (requests s)
  | DashboardResumes ws =>
      match task_of (dashboard_tasks s) ws with
      | None | Some (_, DashAtReceiveText) => s
      | Some (user_id, pc) =>
          let (r, w) := dashboard_resume ws user_id pc (world s) in
          mkSystem w (firmware s) (device_tasks s)
            (settle (dashboard_tasks s) ws user_id r) (requests s)
      end
  | DashboardYields ws r =>
      match task_of (dashboard_tasks s) ws with
      | Some (user_id, DashAtReceiveText) =>
          let (res, w) := dashboard_deliver user_id r (world s) in
          mkSystem w (firmware s) (device_tasks s)
            (settle (dashboard_tasks s) ws user_id res) (requests s)
      | _ => s
      end
  | PinCommand request control current_user =>
      match task_of (requests s) request with
      | Some _ => s
      | None =>
          let (r, w) := pin_start env control current_user (world s) in
          mkSystem w (firmware s) (device_tasks s) (dashboard_tasks s)
            (settle (requests s) request current_user r)
      end
  | OtaCommand request device_id firmware_id current_user =>
      match task_of (requests s) request with
      | Some _ => s
      | None =>
          let (r, w) :=
            ota_start env device_id firmware_id current_user (world s) in
          mkSystem w (firmware s) (device_tasks s) (dashboard_tasks s)
            (settle (requests s) request current_user r)
      end
  | RequestResumes request =>
      match task_of (requests s) request with
      | None => s
      | Some (current_user, pc) =>
          let (r, w) := request_resume env (firmware s) pc (world s) in
          mkSystem w (firmware s) (device_tasks s) (dashboard_tasks s)
            (settle (requests s) request current_user r)
      end
  | CreateDevice device_data current_user =>
      with_world
        (snd (create_device env uuid_str device_data current_user (world s)))
        s
  | DeleteDevice device_id current_user =>
      with_world (snd (delete_device env device_id current_user (world s))) s
  | ClockTick => with_world (with_clock (clock (world s) + 1) (world s)) s
  end.

Fixpoint run (steps : list (Env * action)) (s : System) : System :=
  match steps with
  | [] => s
  | (env, a) :: rest => run rest (sys_step env a s)
  end.

(** What a step is asked to respect for the liveness invariant to be
    kept: a step of a device connection that changes the device partition
    has its status update accepted by the store; a record is not deleted
    while its device has a registry entry or a connection between lookup
    and registration; a created device gets an id that is not in the
    store. *)
Definition permitted (env : Env) (a : action) (s : System) : Prop :=
  match a with
  | DeviceResumes _ | DeviceYields _ _ =>
      store_fault env OpUpdate = false \/
      device_connections (manager (world (sys_step env a s))) =
      device_connections (manager (world s))
  | DeleteDevice device_id _ =>
      Dict.get (device_connections (manager (world s))) device_id = None /\
      forall ws pc,
        In (ws, (device_id, pc)) (device_tasks s) -> admitting pc = false
  | CreateDevice _ _ =>
      ~ In (uuid_str (uuid_seed (world s)))
          (map dev_id (db_devices (world s)))
  | _ => True
  end.

(** Every step of a run is permitted in the state it is taken from. *)
Fixpoint permitted_run (steps : list (Env * action)) (s : System) : Prop :=
  match steps with
  | [] => True
  | (env, a) :: rest =>
      permitted env a s /\ permitted_run rest (sys_step env a s)
  end.

End Steps.

(** A state of the server as the liveness invariant needs it: the
    registry has one entry per key, the equivalence holds, device ids
    are unique in the store, and a device whose connection is between
    lookup and registration has a record. *)
Definition sound (s : System) : Prop :=
  registry_wf (world s) /\
  synced (world s) /\
  NoDup (map dev_id (db_devices (world s))) /\
  forall ws device_id pc,
    In (ws, (device_id, pc)) (device_tasks s) ->
    admitting pc = true ->
    In device_id (map dev_id (db_devices (world s))).

(** The records are the same ones as far as their ids go. *)
Definition same_ids (w w' : World) : Prop :=
  map dev_id (db_devices w') = map dev_id (db_devices w).

(** The records are the same. *)
Definition same_devices (w w' : World) : Prop :=
  db_devices w' = db_devices w.

(** The store refuses updates; everything else works. *)
Definition no_updates : Env :=
  mkEnv (fun _ => None)
    (fun op => match op with OpUpdate => true | _ => false end).

(** The sample world with its two dashboards being served. *)
Definition sample_system : System :=
  mkSystem sample_world [sample_firmware] []
    [(8, ("bob", DashAtReceiveText)); (7, ("alice", DashAtReceiveText))] [].

(** * Facts *)

(** ** Dictionaries *)

Module DictFacts.
Section DictFacts.
Variable V : Type.
Implicit Types (d : Dict.t V) (k : string) (v : V).

Lemma get_set_eq d k v : Dict.get (Dict.set d k v) k = Some v.
Proof.
  induction d as [|[k' v'] d IH]; simpl.
  - now rewrite String.eqb_refl.
  - destruct (k' =? k) eqn:E; simpl; rewrite E; auto.
Qed.

Lemma get_set_ne d k k' v :
  k <> k' -> Dict.get (Dict.set d k v) k' = Dict.get d k'.
Proof.
  intros Hne. induction d as [|[k0 v0] d IH]; simpl.
  - destruct (String.eqb_spec k k'); congruence.
  - destruct (String.eqb_spec k0 k); simpl.
    + subst k0. destruct (String.eqb_spec k k'); congruence.
    + now rewrite IH.
Qed.

Lemma get_del_ne d k k' :
  k <> k' -> Dict.get (Dict.del d k) k' = Dict.get d k'.
Proof.
  intros Hne. induction d as [|[k0 v0] d IH]; simpl; auto.
  destruct (String.eqb_spec k0 k); simpl.
  - subst k0. destruct (String.eqb_spec k k'); congruence.
  - now rewrite IH.
Qed.

Lemma get_none_iff d k : Dict.get d k = None <-> ~ In k (Dict.keys d).
Proof.
  induction d as [|[k0 v0] d IH]; simpl.
  - tauto.
  - destruct (String.eqb_spec k0 k).
    + split; [discriminate | intros H; exfalso; apply H; now left].
    + rewrite IH. tauto.
Qed.

Lemma get_del_eq d k : Dict.wf d -> Dict.get (Dict.del d k) k = None.
Proof.
  unfold Dict.wf. induction d as [|[k0 v0] d IH]; simpl; auto.
  intros Hwf. inversion Hwf as [|? ? Hnotin Hwf']; subst.
  destruct (String.eqb_spec k0 k); simpl.
  - subst k0. now apply get_none_iff.
  - destruct (String.eqb_spec k0 k); [congruence | auto].
Qed.

Lemma del_absent d k : Dict.contains d k = false -> Dict.del d k = d.
Proof.
  unfold Dict.contains. induction d as [|[k0 v0] d IH]; simpl; auto.
  destruct (k0 =? k); [discriminate |].
  intros H. now rewrite IH.
Qed.

Lemma keys_set d k v k' :
  In k' (Dict.keys (Dict.set d k v)) <-> k' = k \/ In k' (Dict.keys d).
Proof.
  induction d as [|[k0 v0] d IH]; simpl.
  - intuition congruence.
  - destruct (String.eqb_spec k0 k); simpl.
    + subst. intuition congruence.
    + rewrite IH. tauto.
Qed.

Lemma keys_del d k k' :
  In k' (Dict.keys (Dict.del d k)) -> In k' (Dict.keys d).
Proof.
  induction d as [|[k0 v0] d IH]; simpl; auto.
  destruct (k0 =? k); simpl; tauto.
Qed.

Lemma wf_set d k v : Dict.wf d -> Dict.wf (Dict.set d k v).
Proof.
  unfold Dict.wf. induction d as [|[k0 v0] d IH]; simpl; intros Hwf.
  - constructor; [tauto | constructor].
  - inversion Hwf as [|? ? Hnotin Hwf']; subst.
    destruct (String.eqb_spec k0 k); simpl.
    + now constructor.
    + constructor; auto.
      intros Hin. apply (keys_set d k v k0) in Hin. tauto.
Qed.

Lemma wf_del d k : Dict.wf d -> Dict.wf (Dict.del d k).
Proof.
  unfold Dict.wf. induction d as [|[k0 v0] d IH]; simpl; intros Hwf; auto.
  inversion Hwf as [|? ? Hnotin Hwf']; subst.
  destruct (k0 =? k); simpl; auto.
  constructor; auto.
  intros Hin. apply Hnotin. now apply keys_del in Hin.
Qed.

Lemma entries_absent d k : ~ In k (Dict.keys d) -> Dict.entries d k = 0.
Proof.
  unfold Dict.entries.
  induction d as [|[k0 v0] d IH]; simpl; auto.
  intros Hnotin. destruct (String.eqb_spec k0 k); simpl.
  - tauto.
  - apply IH. tauto.
Qed.

(** After an assignment a well-formed dictionary holds exactly one entry
    under the key. *)
Lemma entries_set d k v :
  Dict.wf d -> Dict.entries (Dict.set d k v) k = 1.
Proof.
  unfold Dict.wf, Dict.entries.
  induction d as [|[k0 v0] d IH]; simpl; intros Hwf.
  - now rewrite String.eqb_refl.
  - inversion Hwf as [|? ? Hnotin Hwf']; subst.
    destruct (String.eqb_spec k0 k); simpl.
    + subst k0. rewrite String.eqb_refl. simpl.
      f_equal. now apply entries_absent.
    + destruct (String.eqb_spec k0 k); [congruence | auto].
Qed.

End DictFacts.
End DictFacts.

(** ** The store *)

Lemma apply_update_id u d : dev_id (apply_update u d) = dev_id d.
Proof. now destruct u. Qed.

Lemma find_update_first_ne device_id u ds other :
  device_id <> other ->
  find (fun d => dev_id d =? other) (update_first device_id u ds) =
  find (fun d => dev_id d =? other) ds.
Proof.
  intros Hne. induction ds as [|d ds IH]; simpl; auto.
  destruct (String.eqb_spec (dev_id d) device_id) as [Heq|Hneq]; simpl.
  - rewrite apply_update_id.
    destruct (String.eqb_spec (dev_id d) other); congruence.
  - now rewrite IH.
Qed.

Lemma device_status_update_ne device_id u ds other :
  device_id <> other ->
  device_status (update_first device_id u ds) other = device_status ds other.
Proof.
  intros Hne. unfold device_status. now rewrite find_update_first_ne.
Qed.

Lemma device_status_set_liveness device_id status t ds :
  device_status (update_first device_id (SetLiveness status t) ds) device_id =
  option_map (fun _ => status)
    (find (fun d => dev_id d =? device_id) ds).
Proof.
  unfold device_status.
  induction ds as [|d ds IH]; simpl; auto.
  destruct (dev_id d =? device_id) eqn:E; simpl.
  - now rewrite E.
  - now rewrite E.
Qed.

Lemma device_status_set_firmware device_id version ds other :
  device_status (update_first device_id (SetFirmwareVersion version) ds) other
  = device_status ds other.
Proof.
  unfold device_status.
  induction ds as [|d ds IH]; simpl; auto.
  destruct (dev_id d =? device_id) eqn:E; simpl.
  - destruct (dev_id d =? other); auto.
  - destruct (dev_id d =? other); auto.
Qed.

(** A document matching a query on the id and something more is a
    document with that id. *)
Lemma find_id_of_find_and device_id (p : Device -> bool) ds x :
  find (fun d => (dev_id d =? device_id) && p d) ds = Some x ->
  find (fun d => dev_id d =? device_id) ds <> None.
Proof.
  induction ds as [|d ds IH]; simpl; [discriminate |].
  destruct (dev_id d =? device_id); simpl; [discriminate |]. exact IH.
Qed.

Lemma find_none_iff (p : Device -> bool) ds :
  find p ds = None <-> forall d, In d ds -> p d = false.
Proof.
  split.
  - intros H d Hin. now apply (find_none p ds H).
  - induction ds as [|d ds IH]; simpl; auto.
    intros H. rewrite (H d (or_introl eq_refl)). apply IH.
    intros d' Hin. apply H. now right.
Qed.

(** ** Worlds *)

Lemma extend_nil w : extend [] w = w.
Proof. destruct w. unfold extend. simpl. now rewrite app_nil_r. Qed.

Lemma extend_extend evs evs' w :
  extend evs' (extend evs w) = extend (evs ++ evs') w.
Proof. unfold extend. simpl. now rewrite app_assoc. Qed.

Lemma log_extend e w : log e w = extend [e] w.
Proof. reflexivity. Qed.

Lemma quiet_refl w : quiet w w.
Proof. unfold quiet. auto. Qed.

Lemma quiet_trans a b c : quiet a b -> quiet b c -> quiet a c.
Proof.
  unfold quiet. intros (H1 & H2 & H3) (H4 & H5 & H6).
  repeat split.
  - congruence.
  - intros d. now rewrite H2.
  - auto.
Qed.

Lemma quiet_extend evs w : quiet w (extend evs w).
Proof. unfold quiet. simpl. auto. Qed.

Lemma quiet_consistent w w' : quiet w w' -> consistent w -> consistent w'.
Proof.
  unfold quiet, consistent, registry_wf, synced.
  intros (Hd & Hs & Ha) [[Hwa Hwd] Hsync].
  repeat split.
  - auto.
  - now rewrite <- Hd.
  - rewrite <- Hd, <- Hs. apply Hsync.
  - rewrite <- Hd, <- Hs. apply Hsync.
Qed.

(** ** Operations that leave liveness alone *)

Lemma keeps_ret A (a : A) : keeps (ret a).
Proof. intros w. apply quiet_refl. Qed.

Lemma keeps_raise A e : keeps (@raise A e).
Proof. intros w. apply quiet_refl. Qed.

Lemma keeps_lift A (r : result A) : keeps (lift r).
Proof. intros w. apply quiet_refl. Qed.

Lemma keeps_bind A B (m : M A) (k : A -> M B) :
  keeps m -> (forall a, keeps (k a)) -> keeps (bind m k).
Proof.
  intros Hm Hk w. unfold bind.
  specialize (Hm w). destruct (m w) as [[a|e] w1]; simpl in *; auto.
  eapply quiet_trans; [exact Hm | apply Hk].
Qed.

Lemma keeps_try_except A (body handler : M A) handles :
  keeps body -> keeps handler -> keeps (try_except body handles handler).
Proof.
  intros Hb Hh w. unfold try_except.
  specialize (Hb w). destruct (body w) as [[a|e] w1]; simpl in *; auto.
  destruct (handles e); simpl; auto.
  eapply quiet_trans; [exact Hb | apply Hh].
Qed.

Lemma keeps_for_each A (l : list A) (body : A -> M unit) :
  (forall x, keeps (body x)) -> keeps (for_each l body).
Proof.
  intros Hb. induction l as [|x l IH]; simpl.
  - apply keeps_ret.
  - apply keeps_bind; auto.
Qed.

Lemma keeps_accept ws : keeps (accept ws).
Proof. intros w. apply quiet_extend. Qed.

Lemma keeps_close ws code : keeps (close ws code).
Proof. intros w. apply quiet_extend. Qed.

Lemma keeps_send_json env ws message : keeps (send_json env ws message).
Proof.
  intros w. unfold send_json.
  destruct (send_fault env ws); apply quiet_extend.
Qed.

Lemma keeps_receive_text r : keeps (receive_text r).
Proof. destruct r; [apply keeps_ret | apply keeps_raise]. Qed.

Lemma keeps_json_loads data : keeps (json_loads data).
Proof. destruct data; [apply keeps_raise | apply keeps_ret]. Qed.

Lemma keeps_now : keeps now.
Proof. intros w. apply quiet_refl. Qed.

Lemma keeps_uuid4 : keeps uuid4.
Proof. intros w. unfold quiet. simpl. auto. Qed.

Lemma keeps_the_manager : keeps the_manager.
Proof. intros w. apply quiet_refl. Qed.

Lemma keeps_devices_find_one env query : keeps (devices_find_one env query).
Proof.
  intros w. unfold devices_find_one.
  destruct (store_fault env OpFind); apply quiet_refl.
Qed.

Lemma keeps_sensor_data_insert_one env doc :
  keeps (sensor_data_insert_one env doc).
Proof.
  intros w. unfold sensor_data_insert_one.
  destruct (store_fault env OpInsert); simpl.
  - apply quiet_refl.
  - unfold quiet. simpl. auto.
Qed.

Lemma keeps_set_firmware env device_id version :
  keeps (devices_update_one env device_id (SetFirmwareVersion version)).
Proof.
  intros w. unfold devices_update_one.
  destruct (store_fault env OpUpdate); simpl.
  - apply quiet_refl.
  - unfold quiet. simpl. repeat split; auto.
    intros d. now rewrite device_status_set_firmware.
Qed.

Create HintDb keeps.

#[local] Hint Resolve keeps_ret keeps_raise keeps_lift keeps_accept
  keeps_close keeps_send_json keeps_receive_text keeps_json_loads keeps_now
  keeps_uuid4 keeps_the_manager keeps_devices_find_one
  keeps_sensor_data_insert_one keeps_set_firmware : keeps.

(** Goes through a coroutine, one statement at a time. *)
Ltac keeps_walk :=
  repeat
    match goal with
    | |- keeps (bind _ _) => apply keeps_bind; [ | intro ]
    | |- keeps (for_each _ _) => apply keeps_for_each; intro
    | |- keeps (try_except _ _ _) => apply keeps_try_except
    | |- keeps (if ?b then _ else _) => destruct b
    | |- keeps (match ?x with _ => _ end) => destruct x
    | |- keeps _ => solve [auto with keeps]
    end.

Lemma keeps_new_SensorData device_id data :
  keeps (new_SensorData device_id data).
Proof. unfold new_SensorData. keeps_walk. Qed.

Lemma keeps_send_to_device env device_id message :
  keeps (send_to_device env device_id message).
Proof. unfold send_to_device. keeps_walk. Qed.

Lemma keeps_broadcast_to_users env message :
  keeps (broadcast_to_users env message).
Proof. unfold broadcast_to_users. keeps_walk. Qed.

#[local] Hint Resolve keeps_new_SensorData keeps_send_to_device
  keeps_broadcast_to_users : keeps.

Lemma keeps_handle_frame env device_id data :
  keeps (handle_frame env device_id data).
Proof. unfold handle_frame. keeps_walk. Qed.

#[local] Hint Resolve keeps_handle_frame : keeps.

Lemma keeps_device_loop env device_id script :
  keeps (device_loop env device_id script).
Proof.
  induction script as [|r script IH]; simpl; keeps_walk.
Qed.

Lemma keeps_dashboard_loop script : keeps (dashboard_loop script).
Proof.
  induction script as [|r script IH]; simpl; keeps_walk.
Qed.

Lemma keeps_control_pin env control current_user :
  keeps (control_pin env control current_user).
Proof. unfold control_pin. keeps_walk. Qed.

Lemma keeps_connect_user ws user_id : keeps (connect ws user_id "user").
Proof.
  intros w. unfold quiet. simpl. repeat split; auto.
  intros Hwf. now apply DictFacts.wf_set.
Qed.

Lemma keeps_disconnect_user user_id : keeps (disconnect user_id "user").
Proof.
  intros w. unfold disconnect, bind, the_manager. simpl.
  destruct (Dict.contains (active_connections (manager w)) user_id); simpl.
  - unfold quiet. simpl. repeat split; auto.
    intros Hwf. now apply DictFacts.wf_del.
  - apply quiet_refl.
Qed.

#[local] Hint Resolve keeps_connect_user keeps_disconnect_user
  keeps_dashboard_loop keeps_device_loop : keeps.

Lemma keeps_dashboard_session user_id script :
  keeps (dashboard_session user_id script).
Proof. unfold dashboard_session. keeps_walk. Qed.

Lemma keeps_websocket_dashboard ws user_id script :
  keeps (websocket_dashboard ws user_id script).
Proof.
  unfold websocket_dashboard. keeps_walk. apply keeps_dashboard_session.
Qed.

(** ** The connect and disconnect steps *)

Lemma with_manager_same w :
  with_manager
    (mkManager (active_connections (manager w))
       (device_connections (manager w))) w = w.
Proof. destruct w as [[a d] ? ? ? ? ?]. reflexivity. Qed.

Lemma disconnect_device device_id w :
  disconnect device_id "device" w =
  (Ok tt,
   with_manager
     (mkManager (active_connections (manager w))
        (Dict.del (device_connections (manager w)) device_id)) w).
Proof.
  unfold disconnect, bind, the_manager. simpl.
  destruct (Dict.contains (device_connections (manager w)) device_id) eqn:E.
  - reflexivity.
  - rewrite (DictFacts.del_absent _ _ _ E), with_manager_same. reflexivity.
Qed.

(** With the store taking updates, the [except] block is the removal and
    the offline update, then the broadcast. *)
Lemma on_device_disconnect_eq env device_id w :
  store_fault env OpUpdate = false ->
  on_device_disconnect env device_id w =
  (broadcast_to_users env (device_status_event device_id "offline") ;;
   ret Returned) (after_disconnect device_id w).
Proof.
  intros Hup. unfold on_device_disconnect.
  unfold bind at 1. rewrite disconnect_device.
  unfold bind at 1, now at 1. simpl.
  unfold bind at 1, devices_update_one at 1. simpl. rewrite Hup.
  reflexivity.
Qed.

(** With the store answering, an admitted connection is the
    registration and the online update, then the broadcast and the
    session. *)
Lemma websocket_device_admitted env ws device_id auth_token script w x :
  store_fault env OpFind = false ->
  store_fault env OpUpdate = false ->
  find (fun d => (dev_id d =? device_id) && (dev_auth_token d =? auth_token))
    (db_devices w) = Some x ->
  websocket_device env ws device_id auth_token script w =
  (broadcast_to_users env (device_status_event device_id "online") ;;
   device_session env device_id script) (after_connect ws device_id w).
Proof.
  intros Hfind Hup Hx. unfold websocket_device.
  unfold bind at 1, devices_find_one at 1. rewrite Hfind, Hx.
  unfold connect. simpl.
  unfold bind at 1, bind at 1, accept at 1, bind at 1, the_manager at 1.
  simpl.
  unfold bind at 1, now at 1. simpl.
  unfold bind at 1, devices_update_one at 1. simpl. rewrite Hup.
  reflexivity.
Qed.

Lemma websocket_device_rejected env ws device_id auth_token script w :
  store_fault env OpFind = false ->
  find (fun d => (dev_id d =? device_id) && (dev_auth_token d =? auth_token))
    (db_devices w) = None ->
  websocket_device env ws device_id auth_token script w =
  (Ok Returned, extend [Close ws 4001] w).
Proof.
  intros Hfind Hx. unfold websocket_device.
  unfold bind at 1, devices_find_one at 1. now rewrite Hfind, Hx.
Qed.

Lemma after_disconnect_consistent device_id w :
  consistent w -> consistent (after_disconnect device_id w).
Proof.
  intros [[Hwa Hwd] Hsync].
  split; [split |]; simpl; auto.
  - now apply DictFacts.wf_del.
  - intros other. simpl.
    destruct (String.eqb_spec device_id other) as [<-|Hne].
    + rewrite DictFacts.get_del_eq by assumption.
      rewrite device_status_set_liveness.
      destruct (find _ (db_devices w)); simpl; split; congruence.
    + rewrite DictFacts.get_del_ne by assumption.
      rewrite device_status_update_ne by assumption.
      apply Hsync.
Qed.

Lemma after_connect_consistent ws device_id w :
  find (fun d => dev_id d =? device_id) (db_devices w) <> None ->
  consistent w -> consistent (after_connect ws device_id w).
Proof.
  intros Hrec [[Hwa Hwd] Hsync].
  split; [split |]; simpl; auto.
  - now apply DictFacts.wf_set.
  - intros other. simpl.
    destruct (String.eqb_spec device_id other) as [<-|Hne].
    + rewrite DictFacts.get_set_eq, device_status_set_liveness.
      destruct (find _ (db_devices w)); simpl; split; congruence.
    + rewrite DictFacts.get_set_ne by assumption.
      rewrite device_status_update_ne by assumption.
      apply Hsync.
Qed.

Lemma on_device_disconnect_consistent env device_id w :
  store_fault env OpUpdate = false ->
  consistent w -> consistent (snd (on_device_disconnect env device_id w)).
Proof.
  intros Hup Hc. rewrite on_device_disconnect_eq by assumption.
  eapply quiet_consistent; [| apply after_disconnect_consistent, Hc].
  apply keeps_bind; auto with keeps.
Qed.

Lemma device_session_consistent env device_id script w :
  store_fault env OpUpdate = false ->
  consistent w -> consistent (snd (device_session env device_id script w)).
Proof.
  intros Hup Hc. unfold device_session, try_except.
  pose proof (keeps_device_loop env device_id script w) as Hq.
  destruct (device_loop env device_id script w) as [[a|e] w1]; simpl in *.
  - eapply quiet_consistent; eauto.
  - destruct (is_WebSocketDisconnect e); simpl.
    + apply on_device_disconnect_consistent; auto.
      eapply quiet_consistent; eauto.
    + eapply quiet_consistent; eauto.
Qed.

Lemma websocket_device_consistent env ws device_id auth_token script w :
  store_fault env OpUpdate = false ->
  consistent w ->
  consistent (snd (websocket_device env ws device_id auth_token script w)).
Proof.
  intros Hup Hc.
  destruct (store_fault env OpFind) eqn:Hfind.
  - unfold websocket_device, bind, devices_find_one.
    now rewrite Hfind.
  - destruct (find (fun d => (dev_id d =? device_id)
                             && (dev_auth_token d =? auth_token))
                (db_devices w)) as [x|] eqn:Hx.
    + rewrite (websocket_device_admitted _ ws _ _ script _ _ Hfind Hup Hx).
      unfold bind.
      pose proof (keeps_broadcast_to_users env
                    (device_status_event device_id "online")
                    (after_connect ws device_id w)) as Hq.
      assert (Hac : consistent (after_connect ws device_id w)).
      { apply after_connect_consistent; auto.
        exact (find_id_of_find_and device_id
                 (fun d => dev_auth_token d =? auth_token) _ x Hx). }
      destruct (broadcast_to_users env _ (after_connect ws device_id w))
        as [[[]|e] w1]; simpl in *.
      * apply device_session_consistent; auto.
        eapply quiet_consistent; eauto.
      * eapply quiet_consistent; eauto.
    + rewrite websocket_device_rejected by assumption. simpl.
      eapply quiet_consistent; [apply quiet_extend | exact Hc].
Qed.

(** ** Sessions, one [receive_text] at a time *)

Lemma on_device_disconnect_not_pending env device_id w :
  fst (on_device_disconnect env device_id w) <> Ok Pending.
Proof.
  unfold on_device_disconnect, bind.
  destruct (disconnect device_id "device" w) as [[[]|e1] w1];
    [| discriminate].
  destruct (now w1) as [[t|e2] w2]; [| discriminate].
  destruct (devices_update_one env device_id _ w2) as [[[]|e3] w3];
    [| discriminate].
  destruct (broadcast_to_users env _ w3) as [[[]|e4] w4]; discriminate.
Qed.

(** A session over [r :: rest] is the session over [r] alone, followed,
    when that one ends suspended in [receive_text], by the session over
    [rest]. *)
Lemma device_session_step env device_id r rest w :
  device_session env device_id (r :: rest) w =
  match device_session env device_id [r] w with
  | (Ok Pending, w') => device_session env device_id rest w'
  | other => other
  end.
Proof.
  unfold device_session, try_except. simpl. unfold bind.
  destruct (receive_text r w) as [[data|e] w1].
  - destruct (handle_frame env device_id data w1) as [[[]|e] w2].
    + reflexivity.
    + destruct (is_WebSocketDisconnect e); auto.
      pose proof (on_device_disconnect_not_pending env device_id w2) as H.
      destruct (on_device_disconnect env device_id w2) as [[[]|] ?];
        simpl in H; congruence.
  - destruct (is_WebSocketDisconnect e); auto.
    pose proof (on_device_disconnect_not_pending env device_id w1) as H.
    destruct (on_device_disconnect env device_id w1) as [[[]|] ?];
      simpl in H; congruence.
Qed.

Lemma device_session_nil env device_id w :
  device_session env device_id [] w = (Ok Pending, w).
Proof. reflexivity. Qed.

(** The whole handler is its opening, up to the first [receive_text],
    followed by the session. *)
Lemma websocket_device_open env ws device_id auth_token script w :
  websocket_device env ws device_id auth_token script w =
  match websocket_device env ws device_id auth_token [] w with
  | (Ok Pending, w') => device_session env device_id script w'
  | other => other
  end.
Proof.
  unfold websocket_device, bind.
  destruct (devices_find_one env _ w) as [[[x|]|e] w1]; auto.
  destruct (connect ws device_id "device" w1) as [[[]|e1] w2]; auto.
  destruct (now w2) as [[t|e2] w3]; auto.
  destruct (devices_update_one env device_id _ w3) as [[[]|e3] w4]; auto.
  destruct (broadcast_to_users env _ w4) as [[[]|e4] w5]; auto.
Qed.

(** ** Broadcast *)

Lemma for_each_send_ok env message conns w :
  (forall c, In c conns -> send_fault env c = None) ->
  for_each conns (fun c => send_json env c message) w =
  (Ok tt, extend (map (fun c => SendJson c message) conns) w).
Proof.
  revert w. induction conns as [|c conns IH]; intros w Hok; simpl.
  - now rewrite extend_nil.
  - unfold bind, send_json. rewrite (Hok c (or_introl eq_refl)).
    rewrite IH by (intros c' Hin; apply Hok; now right).
    now rewrite log_extend, extend_extend.
Qed.

Lemma for_each_send_fails env message pre c post e w :
  (forall c', In c' pre -> send_fault env c' = None) ->
  send_fault env c = Some e ->
  for_each (pre ++ c :: post) (fun c => send_json env c message) w =
  (Raise (exn_of_send_error e),
   extend (map (fun c => SendJson c message) pre ++ [SendFailed c message])
     w).
Proof.
  revert w. induction pre as [|c0 pre IH]; intros w Hok Hc; simpl.
  - unfold bind, send_json. now rewrite Hc.
  - unfold bind at 1, send_json at 1. rewrite (Hok c0 (or_introl eq_refl)).
    rewrite IH by (auto; intros c' Hin; apply Hok; now right).
    now rewrite log_extend, extend_extend.
Qed.

(** ** Decoded objects *)

Lemma dict_get_field items key :
  dict_get (JObj items) key JNull = Ok (field items key).
Proof. unfold dict_get, field. now destruct (Dict.get items key). Qed.

Lemma eq_str_other v a b : eq_str v a = true -> a <> b -> eq_str v b = false.
Proof.
  destruct v; simpl; try discriminate.
  intros Ha Hne. apply String.eqb_eq in Ha. subst.
  now apply String.eqb_neq.
Qed.


Lemma handle_frame_firmware env device_id items w :
  eq_str (field items "type") "sensor_data" = false ->
  eq_str (field items "type") "firmware_update_status" = true ->
  handle_frame env device_id (Json (JObj items)) w =
  if eq_str (field items "status") "success"
     && store_fault env OpUpdate
  then (Raise PyMongoError, w)
  else
    broadcast_to_users env
      (firmware_update_status_event device_id (field items "status")
         (field items "version"))
      (if eq_str (field items "status") "success"
       then after_firmware_update device_id (field items "version") w
       else w).
Proof.
  intros Hs Hf.
  cbv [handle_frame bind ret lift json_loads].
  rewrite !dict_get_field, Hs, Hf.
  destruct (eq_str (field items "status") "success"); simpl.
  - cbv [devices_update_one].
    destruct (store_fault env OpUpdate); reflexivity.
  - reflexivity.
Qed.



(** * The claims

    C2 to C5 and C7 to C10 are about the handlers as the source has them.
    C1 and C6 are about the states the server goes through, and come
    last, after the facts on the steps of the transition system. *)

Lemma sample_world_wf : registry_wf sample_world.
Proof.
  split; unfold Dict.wf; simpl; repeat constructor; simpl;
    intuition discriminate.
Qed.

Lemma sample_world_synced : synced sample_world.
Proof.
  intros d. unfold device_status. cbn -[String.eqb].
  destruct ("dev-1" =? d); cbn; split; congruence.
Qed.

(** C2. A device session that ends on a frame that fails to decode leaves
    the handler by [JSONDecodeError] without the disconnect path: the
    registry entry stays, the status stays [online], and nothing after
    the online announcement is written or sent.  The same session ended
    by a transport loss runs the removal, the offline update and the
    offline broadcast once. *)
Theorem C2_decode_failure_skips_disconnect_path :
  let bad :=
    websocket_device calm 1 "dev-1" "secret" [Text (NotJson "{oops")]
      sample_world in
  let lost :=
    websocket_device calm 1 "dev-1" "secret" [Disconnected 1006]
      sample_world in
  let online := device_status_event "dev-1" "online" in
  let offline := device_status_event "dev-1" "offline" in
  (fst bad = Raise JSONDecodeError /\
   Dict.get (device_connections (manager (snd bad))) "dev-1" = Some 1 /\
   device_status (db_devices (snd bad)) "dev-1" = Some "online" /\
   trace (snd bad) =
     [Accept 1; UpdateOne "dev-1" (SetLiveness "online" 100);
      SendJson 7 online; SendJson 8 online]) /\
  (fst lost = Ok Returned /\
   Dict.get (device_connections (manager (snd lost))) "dev-1" = None /\
   device_status (db_devices (snd lost)) "dev-1" = Some "offline" /\
   trace (snd lost) =
     [Accept 1; UpdateOne "dev-1" (SetLiveness "online" 100);
      SendJson 7 online; SendJson 8 online;
      UpdateOne "dev-1" (SetLiveness "offline" 100);
      SendJson 7 offline; SendJson 8 offline]).
Proof. vm_compute. repeat split. Qed.




(** C4 fails on the code: with the first of two dashboards failing, the
    broadcast raises and the second one is not attempted. *)
Lemma C4_counterexample :
  let message := device_status_event "dev-1" "online" in
  broadcast_to_users (flaky 7) message sample_world =
    (Raise RuntimeError, extend [SendFailed 7 message] sample_world) /\
  ~ attempted 8 message
      (snd (broadcast_to_users (flaky 7) message sample_world)) /\
  ~ broadcast_isolates (flaky 7) message sample_world.
Proof.
  intros message.
  assert (Hrun : broadcast_to_users (flaky 7) message sample_world =
                 (Raise RuntimeError,
                  extend [SendFailed 7 message] sample_world))
    by reflexivity.
  split; [exact Hrun |]. split.
  - rewrite Hrun. unfold attempted. simpl.
    intros [[H|[]]|[H|[]]]; discriminate H.
  - intros [Hok _]. rewrite Hrun in Hok. discriminate Hok.
Qed.

(** C4, amended. A broadcast sends to the registered dashboards in the
    order of the registry.  When no send fails, every one of them is sent
    the message and the call returns.  When a send fails, the exception
    leaves the broadcast call: the connections before the failing one
    were sent the message, those after it are not attempted. *)
Theorem C4_broadcast_stops_at_first_failure (env : Env) (message : json)
  (w : World) :
  let conns := Dict.values (active_connections (manager w)) in
  ((forall c, In c conns -> send_fault env c = None) ->
   broadcast_to_users env message w =
   (Ok tt, extend (map (fun c => SendJson c message) conns) w)) /\
  (forall pre c post e,
      conns = pre ++ c :: post ->
      (forall c', In c' pre -> send_fault env c' = None) ->
      send_fault env c = Some e ->
      broadcast_to_users env message w =
      (Raise (exn_of_send_error e),
       extend
         (map (fun c => SendJson c message) pre ++ [SendFailed c message])
         w)).
Proof.
  intros conns. split.
  - intros Hok. unfold broadcast_to_users, bind, the_manager.
    now apply for_each_send_ok.
  - intros pre c post e Hsplit Hok Hc.
    unfold broadcast_to_users, bind, the_manager. fold conns.
    rewrite Hsplit. now apply for_each_send_fails.
Qed.

Lemma C4_witness :
  let message := device_status_event "dev-1" "online" in
  broadcast_to_users (flaky 8) message sample_world =
  (Raise RuntimeError,
   extend [SendJson 7 message; SendFailed 8 message] sample_world).
Proof.
  intros message.
  apply (proj2 (C4_broadcast_stops_at_first_failure (flaky 8) message
                  sample_world) [7] 8 [] SendRuntimeError).
  - reflexivity.
  - intros c' [<-|[]]. reflexivity.
  - reflexivity.
Defined.

(** C5. When no stored record has the claimed device id together with
    the presented token (none with that id, or none whose token is exactly
    the presented one), the handler closes the socket with code 4001,
    which is not 1000, and returns: the registry and the device records
    are as before, and the close is the only call made -- nothing is
    accepted, updated or broadcast. *)
Theorem C5_bad_token_rejected (env : Env) (ws : WebSocket)
  (device_id auth_token : string) (script : list recv) (w : World) :
  store_fault env OpFind = false ->
  (forall d, In d (db_devices w) ->
             dev_id d = device_id -> dev_auth_token d <> auth_token) ->
  let out := websocket_device env ws device_id auth_token script w in
  fst out = Ok Returned /\
  manager (snd out) = manager w /\
  db_devices (snd out) = db_devices w /\
  db_sensor_data (snd out) = db_sensor_data w /\
  trace (snd out) = trace w ++ [Close ws 4001] /\
  (4001 <> 1000)%Z.
Proof.
  intros Hfind Hno out.
  assert (Hnone : find (fun d => (dev_id d =? device_id)
                                 && (dev_auth_token d =? auth_token))
                    (db_devices w) = None).
  { apply find_none_iff. intros d Hin.
    destruct (String.eqb_spec (dev_id d) device_id) as [Hid|Hid]; auto.
    destruct (String.eqb_spec (dev_auth_token d) auth_token) as [Htok|Htok];
      auto.
    now contradiction (Hno d Hin Hid). }
  unfold out. rewrite websocket_device_rejected by assumption.
  simpl. repeat split; auto. discriminate.
Qed.

Lemma C5_witness :
  let out :=
    websocket_device calm 1 "dev-1" "Secret" [Text (Json sample_reading)]
      sample_world in
  fst out = Ok Returned /\
  manager (snd out) = manager sample_world /\
  db_devices (snd out) = db_devices sample_world /\
  db_sensor_data (snd out) = db_sensor_data sample_world /\
  trace (snd out) = trace sample_world ++ [Close 1 4001] /\
  (4001 <> 1000)%Z.
Proof.
  apply (C5_bad_token_rejected calm 1 "dev-1" "Secret"
           [Text (Json sample_reading)] sample_world).
  - reflexivity.
  - intros d [<-|[]] _. discriminate.
Defined.







(** C9. Sending to a device id with no registered channel does nothing
    and does not raise.  So a pin command for a device whose record exists
    and belongs to the caller, but which has no channel, returns the
    ["Command sent"] result with the world unchanged: no exception, no
    send, no broadcast.  And the command raises the 404 [HTTPException]
    exactly when no record with that id and owner is found. *)
Theorem C9_offline_device_is_not_an_error (env : Env) (control : PinControl)
  (current_user : User) (w : World) :
  store_fault env OpFind = false ->
  let owned :=
    find (fun d => (dev_id d =? pc_device_id control)
                   && (dev_user_id d =? usr_id current_user))
      (db_devices w) in
  let out := control_pin env control current_user w in
  (forall device_id message,
      Dict.get (device_connections (manager w)) device_id = None ->
      send_to_device env device_id message w = (Ok tt, w)) /\
  (owned <> None ->
   Dict.get (device_connections (manager w)) (pc_device_id control) = None ->
   out = (Ok (JObj [("message", JStr "Command sent");
                    ("pin", JStr (pc_pin control));
                    ("value", pc_value control)]), w)) /\
  ((exists detail, fst out = Raise (HTTPException 404 detail)) <->
   owned = None).
Proof.
  intros Hfind owned out.
  assert (Hsend : forall device_id message,
             Dict.get (device_connections (manager w)) device_id = None ->
             send_to_device env device_id message w = (Ok tt, w)).
  { intros device_id message Hnone.
    unfold send_to_device, bind, the_manager. now rewrite Hnone. }
  split; [exact Hsend |].
  assert (Hout :
            out =
            match owned with
            | Some _ =>
                (send_to_device env (pc_device_id control)
                   (JObj [("type", JStr "pin_control");
                          ("pin", JStr (pc_pin control));
                          ("value", pc_value control)]) ;;
                 ret (JObj [("message", JStr "Command sent");
                            ("pin", JStr (pc_pin control));
                            ("value", pc_value control)])) w
            | None => (Raise (HTTPException 404 "Device not found"), w)
            end).
  { unfold out, control_pin.
    unfold bind at 1, devices_find_one at 1. rewrite Hfind.
    fold owned. now destruct owned. }
  clearbody out. subst out. destruct owned as [x|].
  - split.
    + intros _ Hnone. unfold bind. now rewrite Hsend.
    + split; [| discriminate].
      intros [detail Hraise]. exfalso. revert Hraise.
      cbv [bind send_to_device the_manager send_json ret].
      destruct (Dict.get (device_connections (manager w))
                  (pc_device_id control)) as [c|]; [| simpl; discriminate].
      destruct (send_fault env c) as [[|code]|]; simpl; discriminate.
  - split; [congruence |].
    split; [reflexivity |]. intros _. now exists "Device not found".
Qed.

Lemma C9_witness :
  control_pin calm (mkPinControl "dev-1" "D1" (JInt 1)) (mkUser "alice")
    sample_world =
  (Ok (JObj [("message", JStr "Command sent"); ("pin", JStr "D1");
             ("value", JInt 1)]), sample_world).
Proof.
  apply (proj1 (proj2 (C9_offline_device_is_not_an_error calm
                         (mkPinControl "dev-1" "D1" (JInt 1))
                         (mkUser "alice") sample_world eq_refl))).
  - discriminate.
  - reflexivity.
Defined.

(** C10. For every user id, the dashboard handler accepts the socket and
    registers it under that id without looking anything up or checking
    anything: whatever the script, the only call made is the accept, the
    device partition and both collections are as before, and the dashboard
    partition holds the socket under the user id until the peer hangs up,
    when the entry is removed and the handler returns.  Nothing is stored
    or broadcast on connect or on disconnect. *)
Theorem C10_dashboard_admitted_unchecked (ws : WebSocket) (user_id : string)
  (script : list recv) (w : World) :
  let out := websocket_dashboard ws user_id script w in
  let registered := Dict.set (active_connections (manager w)) user_id ws in
  fst out = Ok (if hangs_up script then Returned else Pending) /\
  active_connections (manager (snd out)) =
    (if hangs_up script then Dict.del registered user_id else registered) /\
  device_connections (manager (snd out)) = device_connections (manager w) /\
  db_devices (snd out) = db_devices w /\
  db_sensor_data (snd out) = db_sensor_data w /\
  trace (snd out) = trace w ++ [Accept ws].
Proof.
  intros out registered.
  set (w1 := with_manager
               (mkManager registered (device_connections (manager w)))
               (log (Accept ws) w)).
  assert (Hopen : out = dashboard_session user_id script w1) by reflexivity.
  clearbody out. subst out.
  assert (Hloop : dashboard_loop script w1 =
                  (if hangs_up script
                   then Raise (WebSocketDisconnect
                                 (match find (fun r => match r with
                                                       | Disconnected _ => true
                                                       | Text _ => false
                                                       end) script with
                                  | Some (Disconnected code) => code
                                  | _ => 0%Z
                                  end))
                   else Ok Pending, w1)).
  { clear. induction script as [|[f|code] script IH]; simpl.
    - reflexivity.
    - unfold bind. simpl. exact IH.
    - reflexivity. }
  unfold dashboard_session, try_except. rewrite Hloop.
  destruct (hangs_up script).
  - cbn [is_WebSocketDisconnect].
    assert (Hin : Dict.contains registered user_id = true).
    { unfold registered, Dict.contains.
      now rewrite DictFacts.get_set_eq. }
    assert (Hclose : (disconnect user_id "user" ;; ret Returned) w1 =
                     (Ok Returned,
                      with_manager
                        (mkManager (Dict.del registered user_id)
                           (device_connections (manager w))) w1)).
    { cbv [bind disconnect the_manager ret].
      change ("user" =? "device") with false. cbv beta iota.
      change (active_connections (manager w1)) with registered.
      now rewrite Hin. }
    rewrite Hclose. repeat split.
  - repeat split.
Qed.

(** * Further properties *)

(** ** Relations kept along a coroutine *)

Section Along.
Variable R : World -> World -> Prop.
Hypothesis R_refl : forall w, R w w.
Hypothesis R_trans : forall a b c, R a b -> R b c -> R a c.
Hypothesis R_log : forall e w, R w (log e w).
Hypothesis R_seed : forall n w, R w (with_uuid_seed n w).
Hypothesis R_sensor : forall sd w, R w (with_sensor_data sd w).

Lemma along_ret A (a : A) : along R (ret a).
Proof. intros w. apply R_refl. Qed.

Lemma along_raise A e : along R (@raise A e).
Proof. intros w. apply R_refl. Qed.

Lemma along_lift A (r : result A) : along R (lift r).
Proof. intros w. apply R_refl. Qed.

Lemma along_bind A B (m : M A) (k : A -> M B) :
  along R m -> (forall a, along R (k a)) -> along R (bind m k).
Proof.
  intros Hm Hk w. unfold bind.
  specialize (Hm w). destruct (m w) as [[a|e] w1]; simpl in *; auto.
  eapply R_trans; [exact Hm | apply Hk].
Qed.

Lemma along_try_except A (body handler : M A) handles :
  along R body -> along R handler ->
  along R (try_except body handles handler).
Proof.
  intros Hb Hh w. unfold try_except.
  specialize (Hb w). destruct (body w) as [[a|e] w1]; simpl in *; auto.
  destruct (handles e); simpl; auto.
  eapply R_trans; [exact Hb | apply Hh].
Qed.

Lemma along_for_each A (l : list A) (body : A -> M unit) :
  (forall x, along R (body x)) -> along R (for_each l body).
Proof.
  intros Hb. induction l as [|x l IH]; simpl.
  - apply along_ret.
  - apply along_bind; auto.
Qed.

Lemma along_accept ws : along R (accept ws).
Proof. intros w. apply R_log. Qed.

Lemma along_close ws code : along R (close ws code).
Proof. intros w. apply R_log. Qed.

Lemma along_send_json env ws message : along R (send_json env ws message).
Proof.
  intros w. unfold send_json. destruct (send_fault env ws); apply R_log.
Qed.

Lemma along_receive_text r : along R (receive_text r).
Proof. destruct r; [apply along_ret | apply along_raise]. Qed.

Lemma along_json_loads data : along R (json_loads data).
Proof. destruct data; [apply along_raise | apply along_ret]. Qed.

Lemma along_now : along R now.
Proof. intros w. apply R_refl. Qed.

Lemma along_uuid4 : along R uuid4.
Proof. intros w. apply R_seed. Qed.

Lemma along_the_manager : along R the_manager.
Proof. intros w. apply R_refl. Qed.

Lemma along_devices_find_one env query : along R (devices_find_one env query).
Proof.
  intros w. unfold devices_find_one.
  destruct (store_fault env OpFind); apply R_refl.
Qed.

Lemma along_sensor_data_insert_one env doc :
  along R (sensor_data_insert_one env doc).
Proof.
  intros w. unfold sensor_data_insert_one.
  destruct (store_fault env OpInsert); simpl.
  - apply R_refl.
  - eapply R_trans; [apply R_sensor | apply R_log].
Qed.

Create HintDb along.

#[local] Hint Resolve along_ret along_raise along_lift along_accept
  along_close along_send_json along_receive_text along_json_loads along_now
  along_uuid4 along_the_manager along_devices_find_one
  along_sensor_data_insert_one : along.

Ltac along_walk :=
  repeat
    match goal with
    | |- along _ (bind _ _) => apply along_bind; [ | intro ]
    | |- along _ (for_each _ _) => apply along_for_each; intro
    | |- along _ (try_except _ _ _) => apply along_try_except
    | |- along _ (if ?b then _ else _) => destruct b
    | |- along _ (match ?x with _ => _ end) => destruct x
    | |- along _ _ => solve [auto with along]
    end.

Lemma along_new_SensorData device_id data :
  along R (new_SensorData device_id data).
Proof. unfold new_SensorData. along_walk. Qed.

Lemma along_send_to_device env device_id message :
  along R (send_to_device env device_id message).
Proof. unfold send_to_device. along_walk. Qed.

Lemma along_broadcast_to_users env message :
  along R (broadcast_to_users env message).
Proof. unfold broadcast_to_users. along_walk. Qed.

#[local] Hint Resolve along_new_SensorData along_send_to_device
  along_broadcast_to_users : along.

(** Steps of any task, for a relation that registry changes stay
    within. *)
Section AnyTask.
Hypothesis R_manager : forall m w, R w (with_manager m w).

Lemma along_register ws client_id client_type :
  along R (register ws client_id client_type).
Proof.
  intros w. unfold register, bind, the_manager.
  destruct (client_type =? "device"); apply R_manager.
Qed.

Lemma along_disconnect client_id client_type :
  along R (disconnect client_id client_type).
Proof.
  intros w. unfold disconnect, bind, the_manager.
  destruct (client_type =? "device");
    match goal with
    | |- context [Dict.contains ?d ?k] => destruct (Dict.contains d k)
    end; try apply R_manager; apply R_refl.
Qed.

#[local] Hint Resolve along_register along_disconnect : along.

Lemma along_dashboard_open ws : along R (dashboard_open ws).
Proof. unfold dashboard_open. along_walk. Qed.

Lemma along_dashboard_resume ws user_id pc :
  along R (dashboard_resume ws user_id pc).
Proof. unfold dashboard_resume. along_walk. Qed.

Lemma along_dashboard_deliver user_id r :
  along R (dashboard_deliver user_id r).
Proof. unfold dashboard_deliver. along_walk. Qed.

(** Steps of a device task in which the store refuses updates. *)
Variable env : Env.
Hypothesis refused : store_fault env OpUpdate = true.

Lemma along_update_refused device_id u :
  along R (devices_update_one env device_id u).
Proof.
  intros w. unfold devices_update_one. rewrite refused. apply R_refl.
Qed.

#[local] Hint Resolve along_update_refused : along.

Lemma along_device_cleanup_refused device_id :
  along R (device_cleanup env device_id).
Proof. unfold device_cleanup. along_walk. Qed.

#[local] Hint Resolve along_device_cleanup_refused : along.

Lemma along_device_resume_refused ws device_id pc :
  along R (device_resume env ws device_id pc).
Proof. unfold device_resume, in_try. along_walk. Qed.

Lemma along_device_deliver_refused device_id r :
  along R (device_deliver env device_id r).
Proof. unfold device_deliver, in_try. along_walk. Qed.

End AnyTask.

(** The device handler, for a relation that the handler's own writes
    stay within. *)
Variable device_id : string.
Hypothesis R_update :
  forall u w,
    R w (with_devices (update_first device_id u (db_devices w)) w).
Hypothesis R_register :
  forall ws w,
    R w (with_manager
           (mkManager (active_connections (manager w))
              (Dict.set (device_connections (manager w)) device_id ws)) w).
Hypothesis R_unregister :
  forall w,
    R w (with_manager
           (mkManager (active_connections (manager w))
              (Dict.del (device_connections (manager w)) device_id)) w).

Lemma along_devices_update_one env u :
  along R (devices_update_one env device_id u).
Proof.
  intros w. unfold devices_update_one.
  destruct (store_fault env OpUpdate); simpl.
  - apply R_refl.
  - eapply R_trans; [apply R_update | apply R_log].
Qed.

#[local] Hint Resolve along_devices_update_one : along.

Lemma along_handle_frame env data :
  along R (handle_frame env device_id data).
Proof. unfold handle_frame. along_walk. Qed.

#[local] Hint Resolve along_handle_frame : along.

Lemma along_device_loop env script :
  along R (device_loop env device_id script).
Proof. induction script as [|r script IH]; simpl; along_walk. Qed.

Lemma along_connect_device ws : along R (connect ws device_id "device").
Proof.
  intros w.
  apply (R_trans _ (log (Accept ws) w)); [apply R_log |].
  exact (R_register ws (log (Accept ws) w)).
Qed.

Lemma along_disconnect_device : along R (disconnect device_id "device").
Proof.
  intros w. rewrite disconnect_device. apply R_unregister.
Qed.

#[local] Hint Resolve along_device_loop along_connect_device
  along_disconnect_device : along.

Lemma along_on_device_disconnect env :
  along R (on_device_disconnect env device_id).
Proof. unfold on_device_disconnect. along_walk. Qed.

#[local] Hint Resolve along_on_device_disconnect : along.

Lemma along_device_session env script :
  along R (device_session env device_id script).
Proof. unfold device_session. along_walk. Qed.

#[local] Hint Resolve along_device_session : along.


Lemma along_register_device ws : along R (register ws device_id "device").
Proof. intros w. exact (R_register ws w). Qed.

#[local] Hint Resolve along_register_device : along.

Lemma along_device_cleanup env : along R (device_cleanup env device_id).
Proof. unfold device_cleanup. along_walk. Qed.

#[local] Hint Resolve along_device_cleanup : along.

Lemma along_device_knock env auth_token :
  along R (device_knock env device_id auth_token).
Proof. unfold device_knock. along_walk. Qed.

Lemma along_device_resume env ws pc :
  along R (device_resume env ws device_id pc).
Proof. unfold device_resume, in_try. along_walk. Qed.

Lemma along_device_deliver env r :
  along R (device_deliver env device_id r).
Proof. unfold device_deliver, in_try. along_walk. Qed.

End Along.

(** ** What a device session can touch *)

Lemma identity_apply_update u d :
  identity_of (apply_update u d) = identity_of d.
Proof. now destruct u. Qed.

Lemma map_identity_update_first device_id u ds :
  map identity_of (update_first device_id u ds) = map identity_of ds.
Proof.
  induction ds as [|d ds IH]; simpl; auto.
  destruct (dev_id d =? device_id); simpl.
  - now rewrite identity_apply_update.
  - now rewrite IH.
Qed.

Lemma confined_refl device_id w : confined device_id w w.
Proof. unfold confined. auto. Qed.

Lemma confined_trans device_id a b c :
  confined device_id a b -> confined device_id b c -> confined device_id a c.
Proof.
  unfold confined. intros (H1 & H2 & H3) (H4 & H5 & H6).
  repeat split; try congruence.
  - rewrite (proj1 (H6 other H)). apply H3. exact H.
  - rewrite (proj2 (H6 other H)). apply H3. exact H.
Qed.

Lemma confined_log device_id e w : confined device_id w (log e w).
Proof. unfold confined. simpl. auto. Qed.

Lemma confined_seed device_id n w :
  confined device_id w (with_uuid_seed n w).
Proof. unfold confined. simpl. auto. Qed.

Lemma confined_sensor device_id sd w :
  confined device_id w (with_sensor_data sd w).
Proof. unfold confined. simpl. auto. Qed.

Lemma confined_update device_id u w :
  confined device_id w
    (with_devices (update_first device_id u (db_devices w)) w).
Proof.
  unfold confined. simpl. repeat split; auto.
  - apply map_identity_update_first.
  - apply find_update_first_ne. congruence.
Qed.




(** ** Sends change nothing but the log *)

Lemma only_logged_refl w : only_logged w w.
Proof. exists []. now rewrite extend_nil. Qed.

Lemma only_logged_trans a b c :
  only_logged a b -> only_logged b c -> only_logged a c.
Proof.
  intros [e1 ->] [e2 ->]. exists (e1 ++ e2). apply extend_extend.
Qed.

Lemma only_logged_log e w : only_logged w (log e w).
Proof. now exists [e]. Qed.

Lemma broadcast_only_logged env message w :
  only_logged w (snd (broadcast_to_users env message w)).
Proof.
  apply (along_broadcast_to_users only_logged only_logged_refl
           only_logged_trans only_logged_log).
Qed.

Lemma send_to_device_only_logged env device_id message w :
  only_logged w (snd (send_to_device env device_id message w)).
Proof.
  apply (along_send_to_device only_logged only_logged_refl
           only_logged_trans only_logged_log).
Qed.

Lemma broadcast_ok env message w :
  (forall ws, send_fault env ws = None) ->
  broadcast_to_users env message w =
  (Ok tt,
   extend
     (map (fun c => SendJson c message)
        (Dict.values (active_connections (manager w)))) w).
Proof.
  intros Hok. unfold broadcast_to_users, bind, the_manager.
  apply for_each_send_ok. intros c _. apply Hok.
Qed.

(** A list with a failing socket splits at its first failing socket. *)
Lemma first_fault env (conns : list WebSocket) :
  (exists c, In c conns /\ send_fault env c <> None) ->
  exists pre c post e,
    conns = pre ++ c :: post /\
    (forall c', In c' pre -> send_fault env c' = None) /\
    send_fault env c = Some e.
Proof.
  induction conns as [|c0 conns IH]; intros (c & Hin & Hc).
  - destruct Hin.
  - destruct (send_fault env c0) as [e|] eqn:E0.
    + exists [], c0, conns, e. simpl. intuition.
    + destruct Hin as [<-|Hin]; [congruence |].
      destruct IH as (pre & c1 & post & e & -> & Hpre & Hc1);
        [now exists c |].
      exists (c0 :: pre), c1, post, e. simpl.
      repeat split; auto.
      intros c' [<-|Hin']; auto.
Qed.

(** ** Frames *)

Lemma handle_frame_other env device_id items w :
  eq_str (field items "type") "sensor_data" = false ->
  eq_str (field items "type") "firmware_update_status" = false ->
  handle_frame env device_id (Json (JObj items)) w = (Ok tt, w).
Proof.
  intros Hs Hf.
  cbv [handle_frame bind ret lift json_loads].
  rewrite !dict_get_field, Hs, Hf. reflexivity.
Qed.

(** X3. A frame whose [type] is not exactly ["sensor_data"] or
    ["firmware_update_status"] -- another string, the same letters in
    another case, a number, or none -- is dropped: nothing is stored or
    sent and the loop goes on to the next frame. *)
Theorem unrecognised_type_is_dropped (env : Env) (device_id : string)
  (items : list (string * json)) :
  eq_str (field items "type") "sensor_data" = false ->
  eq_str (field items "type") "firmware_update_status" = false ->
  frame_dropped env device_id (Json (JObj items)).
Proof.
  intros Hs Hf rest w.
  cbn [device_loop receive_text]. unfold bind at 1. unfold ret at 1.
  unfold bind at 1.
  now rewrite (handle_frame_other env device_id items w Hs Hf).
Qed.

Lemma unrecognised_type_is_dropped_witness :
  frame_dropped calm "dev-1"
    (Json (JObj [("type", JStr "Sensor_Data");
                 ("data", JObj [("temp", JInt 21)])])) /\
  frame_dropped calm "dev-1" (Json (JObj [("type", JInt 7)])).
Proof.
  split.
  - apply (unrecognised_type_is_dropped calm "dev-1"
             [("type", JStr "Sensor_Data");
              ("data", JObj [("temp", JInt 21)])]); reflexivity.
  - apply (unrecognised_type_is_dropped calm "dev-1" [("type", JInt 7)]);
      reflexivity.
Defined.

Lemma handle_frame_sensor env device_id items payload w :
  eq_str (field items "type") "sensor_data" = true ->
  dict_get (JObj items) "data" (JObj []) = Ok payload ->
  handle_frame env device_id (Json (JObj items)) w =
  match payload with
  | JObj _ =>
      if store_fault env OpInsert
      then (Raise PyMongoError, with_uuid_seed (S (uuid_seed w)) w)
      else
        broadcast_to_users env (sensor_data_event device_id payload)
          (after_insert
             (mkSensorData (uuid_seed w) device_id payload (clock w)) w)
  | _ => (Raise ValidationError, with_uuid_seed (S (uuid_seed w)) w)
  end.
Proof.
  intros Hty Hdata.
  cbv [handle_frame bind ret lift json_loads].
  rewrite dict_get_field, Hty, Hdata.
  cbv [new_SensorData bind uuid4 now ret raise sensor_data_insert_one].
  cbn [clock with_uuid_seed uuid_seed].
  destruct payload; try reflexivity.
  destruct (store_fault env OpInsert); reflexivity.
Qed.

Lemma dict_get_obj items key default :
  exists v, dict_get (JObj items) key default = Ok v.
Proof.
  unfold dict_get. destruct (Dict.get items key); eauto.
Qed.

(** X4. A frame adds at most one sensor reading, and the reading is
    stamped by the server: it carries the device id the connection was
    admitted under and the server's clock, whatever ids or times the
    frame itself contains. *)
Theorem reading_is_stamped_by_server (env : Env) (device_id : string)
  (data : frame) (w : World) :
  let w' := snd (handle_frame env device_id data w) in
  db_sensor_data w' = db_sensor_data w \/
  exists payload,
    db_sensor_data w' =
    db_sensor_data w ++
    [mkSensorData (uuid_seed w) device_id payload (clock w)].
Proof.
  intros w'. unfold w'. clear w'.
  destruct data as [text|[| | | | | |items]]; try (left; reflexivity).
  destruct (eq_str (field items "type") "sensor_data") eqn:Hs.
  - destruct (dict_get_obj items "data" (JObj [])) as [payload Hp].
    rewrite (handle_frame_sensor env device_id items payload w Hs Hp).
    destruct payload; try (left; reflexivity).
    destruct (store_fault env OpInsert); [left; reflexivity |].
    right. exists (JObj items0).
    destruct (broadcast_only_logged env
                (sensor_data_event device_id (JObj items0))
                (after_insert
                   (mkSensorData (uuid_seed w) device_id (JObj items0)
                      (clock w)) w)) as [evs ->].
    reflexivity.
  - destruct (eq_str (field items "type") "firmware_update_status") eqn:Hf.
    + rewrite (handle_frame_firmware env device_id items w Hs Hf).
      left.
      destruct (eq_str (field items "status") "success"
                && store_fault env OpUpdate); [reflexivity |].
      match goal with
      | |- context [broadcast_to_users env ?m ?w0] =>
          destruct (broadcast_only_logged env m w0) as [evs ->]
      end.
      destruct (eq_str (field items "status") "success"); reflexivity.
    + left.
      now rewrite (handle_frame_other env device_id items w Hs Hf).
Qed.

Lemma for_each_send_raises env message conns w e :
  fst (for_each conns (fun c => send_json env c message) w) = Raise e ->
  exists c se, send_fault env c = Some se /\ e = exn_of_send_error se.
Proof.
  revert w. induction conns as [|c conns IH]; intros w; simpl.
  - discriminate.
  - unfold bind, send_json.
    destruct (send_fault env c) as [se|] eqn:Hc; simpl.
    + intros H. injection H as <-. now exists c, se.
    + apply IH.
Qed.

Lemma broadcast_raises env message w e :
  fst (broadcast_to_users env message w) = Raise e ->
  exists c se, send_fault env c = Some se /\ e = exn_of_send_error se.
Proof.
  unfold broadcast_to_users, bind, the_manager.
  apply for_each_send_raises.
Qed.

(** The body of the loop raises [WebSocketDisconnect] only when a send
    to a dashboard does. *)
Lemma handle_frame_disconnect env device_id data w e :
  fst (handle_frame env device_id data w) = Raise e ->
  is_WebSocketDisconnect e = true ->
  exists c code, send_fault env c = Some (SendDisconnect code).
Proof.
  assert (Hsend : forall message w0,
             fst (broadcast_to_users env message w0) = Raise e ->
             is_WebSocketDisconnect e = true ->
             exists c code, send_fault env c = Some (SendDisconnect code)).
  { intros message w0 H He.
    destruct (broadcast_raises env message w0 e H) as (c & se & Hc & ->).
    destruct se as [|code]; [discriminate He |]. now exists c, code. }
  destruct data as [text|[| | | | | |items]];
    try (intros H He; simpl in H; injection H as <-; discriminate He).
  destruct (eq_str (field items "type") "sensor_data") eqn:Hs.
  - destruct (dict_get_obj items "data" (JObj [])) as [payload Hp].
    rewrite (handle_frame_sensor env device_id items payload w Hs Hp).
    destruct payload;
      try (intros H He; simpl in H; injection H as <-; discriminate He).
    destruct (store_fault env OpInsert).
    + intros H He. simpl in H. injection H as <-. discriminate He.
    + apply Hsend.
  - destruct (eq_str (field items "type") "firmware_update_status") eqn:Hf.
    + rewrite (handle_frame_firmware env device_id items w Hs Hf).
      destruct (eq_str (field items "status") "success"
                && store_fault env OpUpdate).
      * intros H He. simpl in H. injection H as <-. discriminate He.
      * apply Hsend.
    + rewrite (handle_frame_other env device_id items w Hs Hf).
      discriminate.
Qed.

Lemma handle_frame_liveness env device_id data w :
  let w' := snd (handle_frame env device_id data w) in
  manager w' = manager w /\
  (forall d, device_status (db_devices w') d = device_status (db_devices w) d)
  /\
  (forall other,
      other <> device_id ->
      find (fun d => dev_id d =? other) (db_devices w') =
      find (fun d => dev_id d =? other) (db_devices w)).
Proof.
  intros w'.
  pose proof (keeps_handle_frame env device_id data w) as (Hd & Hs & _).
  pose proof (along_handle_frame (confined device_id)
                (confined_refl device_id) (confined_trans device_id)
                (confined_log device_id) (confined_seed device_id)
                (confined_sensor device_id) device_id
                (confined_update device_id) env data w) as (Ha & _ & Ho).
  fold w' in Hd, Hs, Ha, Ho.
  split; [| split].
  - destruct (manager w') as [a' d'], (manager w) as [a d].
    simpl in *. congruence.
  - intros d. symmetry. apply Hs.
  - intros other Hne. apply Ho. exact Hne.
Qed.

(** X2. Handling a received frame, inside the [try] statement it is
    handled in, changes neither the registry nor the online/offline
    status of any device, the sender's included, and of the device
    records it can change only the sender's own -- unless a send to a
    dashboard raises [WebSocketDisconnect], which the [except] clause
    takes for the device's own disconnect. *)
Theorem frame_cannot_change_liveness (env : Env) (device_id : string)
  (data : frame) (w : World) :
  (forall ws code, send_fault env ws <> Some (SendDisconnect code)) ->
  let w' := snd (device_session env device_id [Text data] w) in
  manager w' = manager w /\
  (forall d, device_status (db_devices w') d = device_status (db_devices w) d)
  /\
  (forall other,
      other <> device_id ->
      find (fun d => dev_id d =? other) (db_devices w') =
      find (fun d => dev_id d =? other) (db_devices w)).
Proof.
  intros Hsend w'.
  assert (Hw' : w' = snd (handle_frame env device_id data w)).
  { unfold w', device_session, try_except. cbn [device_loop receive_text].
    unfold bind at 1. unfold ret at 1. unfold bind at 1.
    destruct (handle_frame env device_id data w) as [[[]|e] w1] eqn:Hf.
    - reflexivity.
    - destruct (is_WebSocketDisconnect e) eqn:He; [| reflexivity].
      exfalso.
      destruct (handle_frame_disconnect env device_id data w e) as
        (c & code & Hc); [now rewrite Hf | exact He |].
      exact (Hsend c code Hc). }
  rewrite Hw'. apply handle_frame_liveness.
Qed.

Lemma frame_cannot_change_liveness_witness :
  let w' :=
    snd (device_session (flaky 7) "dev-1" [Text (Json sample_reading)]
           sample_online) in
  (forall ws code, send_fault (flaky 7) ws <> Some (SendDisconnect code)) /\
  manager w' = manager sample_online /\
  (forall d,
      device_status (db_devices w') d =
      device_status (db_devices sample_online) d) /\
  (forall other,
      other <> "dev-1" ->
      find (fun d => dev_id d =? other) (db_devices w') =
      find (fun d => dev_id d =? other) (db_devices sample_online)).
Proof.
  assert (Hsend : forall ws code,
             send_fault (flaky 7) ws <> Some (SendDisconnect code)).
  { intros ws code. unfold flaky. simpl.
    destruct (ws =? 7)%nat; discriminate. }
  split; [exact Hsend |].
  exact (frame_cannot_change_liveness (flaky 7) "dev-1"
           (Json sample_reading) sample_online Hsend).
Defined.

(** ** Whole sessions *)

Lemma handle_frame_acceptable env device_id data w :
  faultless env -> acceptable data = true ->
  exists w', handle_frame env device_id data w = (Ok tt, w').
Proof.
  intros [Hsend Hstore] Hacc.
  destruct data as [text|[| | | | | |items]]; try discriminate Hacc.
  simpl in Hacc.
  destruct (eq_str (field items "type") "sensor_data") eqn:Hs.
  - assert (Hp : exists p,
               dict_get (JObj items) "data" (JObj []) = Ok (JObj p)).
    { unfold dict_get.
      destruct (Dict.get items "data") as [[| | | | | |p]|];
        try discriminate Hacc; eauto. }
    destruct Hp as [p Hp].
    rewrite (handle_frame_sensor env device_id items (JObj p) w Hs Hp).
    rewrite Hstore, (broadcast_ok _ _ _ Hsend). eauto.
  - destruct (eq_str (field items "type") "firmware_update_status") eqn:Hf.
    + rewrite (handle_frame_firmware env device_id items w Hs Hf).
      rewrite Hstore, andb_false_r, (broadcast_ok _ _ _ Hsend). eauto.
    + rewrite (handle_frame_other env device_id items w Hs Hf). eauto.
Qed.

Lemma device_loop_acceptable env device_id frames rest w :
  faultless env -> forallb acceptable frames = true ->
  exists w',
    device_loop env device_id (map Text frames ++ rest) w =
    device_loop env device_id rest w' /\ quiet w w'.
Proof.
  intros Henv. revert w.
  induction frames as [|f frames IH]; intros w Hacc; simpl in *.
  - exists w. split; [reflexivity | apply quiet_refl].
  - apply andb_prop in Hacc. destruct Hacc as [Hf Hrest].
    destruct (handle_frame_acceptable env device_id f w Henv Hf)
      as [w1 Hw1].
    pose proof (keeps_handle_frame env device_id f w) as Hq.
    rewrite Hw1 in Hq. simpl in Hq.
    destruct (IH w1 Hrest) as (w2 & Hloop & Hq2).
    exists w2. split.
    + unfold bind at 1, ret at 1. unfold bind at 1. rewrite Hw1.
      exact Hloop.
    + eapply quiet_trans; eauto.
Qed.

(** X6. A session in which nothing fails ends well: when the store and the
    dashboards work and every frame is one the handler gets through, a
    device admitted with its credentials whose peer then disconnects
    leaves the handler returned, with no registry entry for the device
    and its status [offline]. *)
Theorem clean_session_ends_offline (env : Env) (ws : WebSocket)
  (device_id auth_token : string) (x : Device) (frames : list frame)
  (code : Z) (w : World) :
  faultless env ->
  registry_wf w ->
  find (fun d => (dev_id d =? device_id) && (dev_auth_token d =? auth_token))
    (db_devices w) = Some x ->
  forallb acceptable frames = true ->
  let out :=
    websocket_device env ws device_id auth_token
      (map Text frames ++ [Disconnected code]) w in
  fst out = Ok Returned /\
  Dict.get (device_connections (manager (snd out))) device_id = None /\
  device_status (db_devices (snd out)) device_id = Some "offline".
Proof.
  intros Henv [_ Hwf] Hx Hacc out.
  pose proof Henv as [Hsend Hstore].
  unfold out.
  rewrite (websocket_device_admitted env ws device_id auth_token _ w x
             (Hstore OpFind) (Hstore OpUpdate) Hx).
  unfold bind. rewrite (broadcast_ok _ _ _ Hsend).
  set (w1 := extend _ (after_connect ws device_id w)).
  assert (Hq1 : quiet (after_connect ws device_id w) w1)
    by apply quiet_extend.
  unfold device_session, try_except.
  destruct (device_loop_acceptable env device_id frames
              [Disconnected code] w1 Henv Hacc) as (w2 & Hloop & Hq2).
  rewrite Hloop. simpl.
  rewrite (on_device_disconnect_eq env device_id w2 (Hstore OpUpdate)).
  unfold bind. rewrite (broadcast_ok _ _ _ Hsend).
  assert (Hq : quiet (after_connect ws device_id w) w2)
    by exact (quiet_trans _ _ _ Hq1 Hq2).
  destruct Hq as (Hreg & Hst & _).
  simpl. split; [reflexivity |]. split.
  - rewrite <- Hreg. simpl.
    apply DictFacts.get_del_eq. now apply DictFacts.wf_set.
  - rewrite device_status_set_liveness.
    assert (Hon : device_status (db_devices w2) device_id = Some "online").
    { rewrite <- Hst. simpl. rewrite device_status_set_liveness.
      pose proof (find_id_of_find_and device_id
                    (fun d => dev_auth_token d =? auth_token) _ x Hx) as Hne.
      destruct (find (fun d => dev_id d =? device_id) (db_devices w));
        [reflexivity | congruence]. }
    unfold device_status in Hon.
    destruct (find _ (db_devices w2)); [reflexivity | discriminate].
Qed.

Lemma calm_faultless : faultless calm.
Proof. split; reflexivity. Qed.

Lemma clean_session_ends_offline_witness :
  let out :=
    websocket_device calm 1 "dev-1" "secret"
      (map Text [Json sample_reading; Json (JObj [("type", JStr "ping")])]
       ++ [Disconnected 1000]) sample_world in
  fst out = Ok Returned /\
  Dict.get (device_connections (manager (snd out))) "dev-1" = None /\
  device_status (db_devices (snd out)) "dev-1" = Some "offline".
Proof.
  exact (clean_session_ends_offline calm 1 "dev-1" "secret" sample_device
           [Json sample_reading; Json (JObj [("type", JStr "ping")])] 1000
           sample_world calm_faultless sample_world_wf eq_refl eq_refl).
Defined.

(** X7. One dashboard socket that fails is enough to break every device
    connection: the device is registered and marked online, the online
    announcement raises on the failing socket, outside the [try], and
    the handler ends there -- no frame is ever read, and the registry
    entry and the [online] status stay. *)
Theorem failing_dashboard_breaks_admission (env : Env) (ws : WebSocket)
  (device_id auth_token : string) (x : Device) (script : list recv)
  (w : World) :
  store_fault env OpFind = false ->
  store_fault env OpUpdate = false ->
  find (fun d => (dev_id d =? device_id) && (dev_auth_token d =? auth_token))
    (db_devices w) = Some x ->
  (exists c, In c (Dict.values (active_connections (manager w))) /\
             send_fault env c <> None) ->
  let out := websocket_device env ws device_id auth_token script w in
  (exists e, fst out = Raise (exn_of_send_error e)) /\
  only_logged (after_connect ws device_id w) (snd out) /\
  Dict.get (device_connections (manager (snd out))) device_id = Some ws /\
  device_status (db_devices (snd out)) device_id = Some "online" /\
  db_sensor_data (snd out) = db_sensor_data w.
Proof.
  intros Hfind Hup Hx Hbad out. unfold out.
  rewrite (websocket_device_admitted env ws device_id auth_token script w x
             Hfind Hup Hx).
  destruct (first_fault env _ Hbad) as (pre & c & post & e & Hsplit & Hpre
                                        & Hc).
  unfold bind.
  assert (Hb : broadcast_to_users env
                 (device_status_event device_id "online")
                 (after_connect ws device_id w) =
               (Raise (exn_of_send_error e),
                extend
                  (map (fun c => SendJson c
                                   (device_status_event device_id "online"))
                     pre
                   ++ [SendFailed c (device_status_event device_id "online")])
                  (after_connect ws device_id w))).
  { unfold broadcast_to_users, bind, the_manager.
    change (active_connections (manager (after_connect ws device_id w)))
      with (active_connections (manager w)).
    rewrite Hsplit. now apply for_each_send_fails. }
  rewrite Hb. simpl.
  split; [now exists e |]. split; [eexists; reflexivity |].
  split; [apply DictFacts.get_set_eq |]. split; [| reflexivity].
  rewrite device_status_set_liveness.
  pose proof (find_id_of_find_and device_id
                (fun d => dev_auth_token d =? auth_token) _ x Hx) as Hne.
  destruct (find (fun d => dev_id d =? device_id) (db_devices w));
    [reflexivity | congruence].
Qed.

Lemma failing_dashboard_breaks_admission_witness :
  let out :=
    websocket_device (flaky 8) 1 "dev-1" "secret"
      [Text (Json sample_reading)] sample_world in
  (exists e, fst out = Raise (exn_of_send_error e)) /\
  Dict.get (device_connections (manager (snd out))) "dev-1" = Some 1 /\
  device_status (db_devices (snd out)) "dev-1" = Some "online" /\
  db_sensor_data (snd out) = [].
Proof.
  assert (Hbad : exists c,
             In c (Dict.values (active_connections (manager sample_world)))
             /\ send_fault (flaky 8) c <> None).
  { exists 8. split; [right; left; reflexivity | discriminate]. }
  destruct (failing_dashboard_breaks_admission (flaky 8) 1 "dev-1" "secret"
              sample_device [Text (Json sample_reading)] sample_world
              eq_refl eq_refl eq_refl Hbad)
    as (H1 & _ & H2 & H3 & H4).
  repeat split; assumption.
Defined.

(** ** The registry *)

Lemma del_set_absent (V : Type) (d : Dict.t V) k v :
  Dict.get d k = None -> Dict.del (Dict.set d k v) k = d.
Proof.
  induction d as [|[k0 v0] d IH]; simpl.
  - now rewrite String.eqb_refl.
  - destruct (k0 =? k) eqn:E; [discriminate |].
    intros Hnone. simpl. rewrite E. now rewrite IH.
Qed.

Lemma set_set (V : Type) (d : Dict.t V) k v1 v2 :
  Dict.set (Dict.set d k v1) k v2 = Dict.set d k v2.
Proof.
  induction d as [|[k0 v0] d IH]; simpl.
  - now rewrite String.eqb_refl.
  - destruct (k0 =? k) eqn:E; simpl; rewrite E; [reflexivity |].
    now rewrite IH.
Qed.

Lemma contains_false_iff (V : Type) (d : Dict.t V) k :
  Dict.contains d k = false <-> Dict.get d k = None.
Proof.
  unfold Dict.contains. destruct (Dict.get d k); split; congruence.
Qed.

Lemma connect_eq ws client_id client_type w :
  connect ws client_id client_type w =
  (Ok tt,
   with_manager
     (if client_type =? "device"
      then mkManager (active_connections (manager w))
             (Dict.set (device_connections (manager w)) client_id ws)
      else mkManager
             (Dict.set (active_connections (manager w)) client_id ws)
             (device_connections (manager w)))
     (log (Accept ws) w)).
Proof.
  unfold connect, bind, accept, the_manager.
  destruct (client_type =? "device"); reflexivity.
Qed.

Lemma disconnect_eq client_id client_type w :
  disconnect client_id client_type w =
  (Ok tt,
   with_manager
     (if client_type =? "device"
      then mkManager (active_connections (manager w))
             (Dict.del (device_connections (manager w)) client_id)
      else mkManager
             (Dict.del (active_connections (manager w)) client_id)
             (device_connections (manager w)))
     w).
Proof.
  unfold disconnect, bind, the_manager.
  destruct (client_type =? "device").
  - destruct (Dict.contains (device_connections (manager w)) client_id)
      eqn:E; [reflexivity |].
    rewrite (DictFacts.del_absent _ _ _ E), with_manager_same. reflexivity.
  - destruct (Dict.contains (active_connections (manager w)) client_id)
      eqn:E; [reflexivity |].
    rewrite (DictFacts.del_absent _ _ _ E), with_manager_same. reflexivity.
Qed.

(** X8. [disconnect] is safe to call at any time and any number of times:
    it never raises, leaves the id absent from the partition named,
    leaves every other entry of both partitions as it was, changes
    nothing at all when the id was absent, and a second call changes
    nothing more. *)
Theorem disconnect_is_idempotent (client_id client_type : string)
  (w : World) :
  registry_wf w ->
  let out := disconnect client_id client_type w in
  fst out = Ok tt /\
  Dict.get (partition client_type (manager (snd out))) client_id = None /\
  (forall other,
      other <> client_id ->
      Dict.get (device_connections (manager (snd out))) other =
        Dict.get (device_connections (manager w)) other /\
      Dict.get (active_connections (manager (snd out))) other =
        Dict.get (active_connections (manager w)) other) /\
  (client_type = "device" ->
   active_connections (manager (snd out)) = active_connections (manager w))
  /\
  (client_type <> "device" ->
   device_connections (manager (snd out)) = device_connections (manager w))
  /\
  (Dict.get (partition client_type (manager w)) client_id = None ->
   snd out = w) /\
  disconnect client_id client_type (snd out) = out.
Proof.
  intros [Hwa Hwd] out. unfold out. rewrite !disconnect_eq.
  unfold partition. simpl.
  destruct (String.eqb_spec client_type "device") as [Ety|Ety]; simpl.
  - split; [reflexivity |]. split; [now apply DictFacts.get_del_eq |].
    split; [| split; [| split; [| split]]].
    + intros other Hne. split; [| reflexivity].
      apply DictFacts.get_del_ne. congruence.
    + reflexivity.
    + intros Hne. contradiction.
    + intros Hnone.
      rewrite DictFacts.del_absent by now apply contains_false_iff.
      apply with_manager_same.
    + rewrite (DictFacts.del_absent _ (Dict.del _ client_id)).
      * destruct w as [[a d] ? ? ? ? ?]. reflexivity.
      * apply contains_false_iff. now apply DictFacts.get_del_eq.
  - split; [reflexivity |]. split; [now apply DictFacts.get_del_eq |].
    split; [| split; [| split; [| split]]].
    + intros other Hne. split; [reflexivity |].
      apply DictFacts.get_del_ne. congruence.
    + intros Heq. contradiction.
    + reflexivity.
    + intros Hnone.
      rewrite DictFacts.del_absent by now apply contains_false_iff.
      apply with_manager_same.
    + rewrite (DictFacts.del_absent _ (Dict.del _ client_id)).
      * destruct w as [[a d] ? ? ? ? ?]. reflexivity.
      * apply contains_false_iff. now apply DictFacts.get_del_eq.
Qed.

Lemma disconnect_is_idempotent_witness :
  let out := disconnect "dev-1" "device" sample_online in
  fst out = Ok tt /\
  Dict.get (device_connections (manager (snd out))) "dev-1" = None /\
  disconnect "dev-1" "device" (snd out) = out.
Proof.
  assert (Hwf : registry_wf sample_online).
  { split; unfold Dict.wf; simpl; repeat constructor; simpl;
      intuition discriminate. }
  destruct (disconnect_is_idempotent "dev-1" "device" sample_online Hwf)
    as (H1 & H2 & _ & _ & _ & _ & H3).
  repeat split; assumption.
Defined.

(** X9. Connecting and then disconnecting under an id leaves that id
    unregistered, whatever was registered under it before: a handle that
    was there is not put back.  When nothing was registered under the id,
    the registry is exactly as it was before the two calls. *)
Theorem connect_then_disconnect (ws : WebSocket)
  (client_id client_type : string) (w : World) :
  registry_wf w ->
  let w' :=
    snd ((connect ws client_id client_type ;;
          disconnect client_id client_type) w) in
  Dict.get (partition client_type (manager w')) client_id = None /\
  (Dict.get (partition client_type (manager w)) client_id = None ->
   manager w' = manager w) /\
  trace w' = trace w ++ [Accept ws].
Proof.
  intros [Hwa Hwd] w'. unfold w', bind.
  rewrite connect_eq, disconnect_eq. unfold partition. simpl.
  destruct (client_type =? "device"); simpl.
  - split; [| split; [| reflexivity]].
    + apply DictFacts.get_del_eq. now apply DictFacts.wf_set.
    + intros Hnone. rewrite del_set_absent by assumption.
      now destruct (manager w).
  - split; [| split; [| reflexivity]].
    + apply DictFacts.get_del_eq. now apply DictFacts.wf_set.
    + intros Hnone. rewrite del_set_absent by assumption.
      now destruct (manager w).
Qed.

Lemma connect_then_disconnect_witness :
  let w' :=
    snd ((connect 9 "carol" "user" ;; disconnect "carol" "user")
           sample_world) in
  manager w' = manager sample_world.
Proof.
  apply (connect_then_disconnect 9 "carol" "user" sample_world
           sample_world_wf).
  reflexivity.
Defined.

(** X10. A command for a device goes to the socket registered last under its
    id and to no other: after two connections under the same device id,
    [send_to_device] makes one send, on the second socket. *)
Theorem command_goes_to_latest_socket (env : Env) (ws1 ws2 : WebSocket)
  (device_id : string) (message : json) (w : World) :
  send_fault env ws2 = None ->
  let out :=
    (connect ws1 device_id "device" ;;
     connect ws2 device_id "device" ;;
     send_to_device env device_id message) w in
  fst out = Ok tt /\
  trace (snd out) = trace w ++ [Accept ws1; Accept ws2; SendJson ws2 message].
Proof.
  intros Hok out. unfold out, bind.
  rewrite !connect_eq.
  change ("device" =? "device") with true. cbv iota.
  unfold send_to_device, bind, the_manager.
  cbn [manager with_manager device_connections active_connections log].
  rewrite DictFacts.get_set_eq. unfold send_json. rewrite Hok.
  simpl. split; [reflexivity |].
  now rewrite <- !app_assoc.
Qed.

Lemma command_goes_to_latest_socket_witness :
  let out :=
    (connect 1 "dev-1" "device" ;;
     connect 2 "dev-1" "device" ;;
     send_to_device calm "dev-1" (JObj [("type", JStr "ping")]))
      sample_world in
  fst out = Ok tt /\
  trace (snd out) =
    [Accept 1; Accept 2; SendJson 2 (JObj [("type", JStr "ping")])].
Proof.
  apply (command_goes_to_latest_socket calm 1 2 "dev-1"
           (JObj [("type", JStr "ping")]) sample_world).
  reflexivity.
Defined.

(** X11. A user id holds one dashboard socket at a time.  When a second
    dashboard connects under the same user id, it takes the place of the
    first, which is sent nothing from then on; and when the first one
    then disconnects, its cleanup removes the entry of the second, so
    that the user is sent nothing at all although a dashboard is still
    connected. *)
Theorem second_dashboard_replaces_first (ws1 ws2 : WebSocket)
  (user_id : string) (code : Z) (w : World) :
  registry_wf w ->
  let w1 := snd (websocket_dashboard ws1 user_id [] w) in
  let w2 := snd (websocket_dashboard ws2 user_id [] w1) in
  let w3 := snd (dashboard_session user_id [Disconnected code] w2) in
  Dict.get (active_connections (manager w2)) user_id = Some ws2 /\
  Dict.values (active_connections (manager w2)) =
    Dict.values (Dict.set (active_connections (manager w)) user_id ws2) /\
  Dict.get (active_connections (manager w3)) user_id = None.
Proof.
  intros [Hwa Hwd] w1 w2 w3.
  assert (H2 : active_connections (manager w2) =
               Dict.set (active_connections (manager w)) user_id ws2).
  { unfold w2, w1. cbn. apply set_set. }
  split; [| split].
  - rewrite H2. apply DictFacts.get_set_eq.
  - now rewrite H2.
  - unfold w3. clearbody w2. clear w3 w1.
    unfold dashboard_session, try_except.
    change (dashboard_loop [Disconnected code] w2)
      with (@Raise task_end (WebSocketDisconnect code), w2).
    cbn [is_WebSocketDisconnect]. unfold bind. rewrite disconnect_eq.
    change ("user" =? "device") with false.
    cbn [ret snd manager with_manager active_connections]. rewrite H2.
    apply DictFacts.get_del_eq. now apply DictFacts.wf_set.
Qed.

Lemma second_dashboard_replaces_first_witness :
  let w1 := snd (websocket_dashboard 11 "alice" [] sample_world) in
  let w2 := snd (websocket_dashboard 12 "alice" [] w1) in
  let w3 := snd (dashboard_session "alice" [Disconnected 1001] w2) in
  Dict.values (active_connections (manager w2)) = [12; 8] /\
  Dict.get (active_connections (manager w3)) "alice" = None.
Proof.
  destruct (second_dashboard_replaces_first 11 12 "alice" 1001 sample_world
              sample_world_wf) as (_ & H2 & H3).
  split; [exact H2 | exact H3].
Defined.

(** ** Commands *)

Lemma send_to_device_registered env device_id message ws w :
  Dict.get (device_connections (manager w)) device_id = Some ws ->
  send_to_device env device_id message w =
  match send_fault env ws with
  | None => (Ok tt, extend [SendJson ws message] w)
  | Some e => (Raise (exn_of_send_error e), extend [SendFailed ws message] w)
  end.
Proof.
  intros Hget. unfold send_to_device, bind, the_manager. rewrite Hget.
  unfold send_json. destruct (send_fault env ws); reflexivity.
Qed.


Lemma find_owned_none device_id user_id ds :
  (forall d, In d ds -> dev_id d = device_id -> dev_user_id d <> user_id) ->
  find (fun d => (dev_id d =? device_id) && (dev_user_id d =? user_id)) ds
  = None.
Proof.
  intros Hno. apply find_none_iff. intros d Hin.
  destruct (String.eqb_spec (dev_id d) device_id) as [Hid|Hid]; auto.
  destruct (String.eqb_spec (dev_user_id d) user_id) as [Hu|Hu]; auto.
  now contradiction (Hno d Hin Hid).
Qed.

(** X12. A pin command reaches a device only through its owner.  For a caller
    who owns no record with the device id -- the device may well be
    connected -- the answer is 404 and nothing is sent.  For the owner of
    a connected device the command makes exactly one send, of the
    [pin_control] message, on the device's socket: it answers
    ["Command sent"] when the send goes through, and the send's
    exception, not a result, when it fails. *)
Theorem pin_command_needs_ownership (env : Env) (control : PinControl)
  (current_user : User) (w : World) :
  store_fault env OpFind = false ->
  let out := control_pin env control current_user w in
  ((forall d, In d (db_devices w) ->
              dev_id d = pc_device_id control ->
              dev_user_id d <> usr_id current_user) ->
   out = (Raise (HTTPException 404 "Device not found"), w)) /\
  (forall x ws,
      find (fun d => (dev_id d =? pc_device_id control)
                     && (dev_user_id d =? usr_id current_user))
        (db_devices w) = Some x ->
      Dict.get (device_connections (manager w)) (pc_device_id control)
      = Some ws ->
      out =
      match send_fault env ws with
      | None =>
          (Ok (JObj [("message", JStr "Command sent");
                     ("pin", JStr (pc_pin control));
                     ("value", pc_value control)]),
           extend [SendJson ws (pin_control_command control)] w)
      | Some e =>
          (Raise (exn_of_send_error e),
           extend [SendFailed ws (pin_control_command control)] w)
      end).
Proof.
  intros Hfind out.
  assert (Hout :
            out =
            match find (fun d => (dev_id d =? pc_device_id control)
                                 && (dev_user_id d =? usr_id current_user))
                    (db_devices w) with
            | None => (Raise (HTTPException 404 "Device not found"), w)
            | Some _ =>
                (send_to_device env (pc_device_id control)
                   (pin_control_command control) ;;
                 ret (JObj [("message", JStr "Command sent");
                            ("pin", JStr (pc_pin control));
                            ("value", pc_value control)])) w
            end).
  { unfold out, control_pin.
    unfold bind at 1, devices_find_one at 1. rewrite Hfind.
    now destruct (find _ (db_devices w)). }
  clearbody out. subst out.
  split.
  - intros Hno. now rewrite (find_owned_none _ _ _ Hno).
  - intros x ws Hx Hget. rewrite Hx. unfold bind.
    rewrite (send_to_device_registered env _ _ ws w Hget).
    destruct (send_fault env ws); reflexivity.
Qed.

Lemma pin_command_needs_ownership_witness :
  control_pin calm (mkPinControl "dev-1" "D1" (JBool true)) (mkUser "bob")
    sample_online =
  (Raise (HTTPException 404 "Device not found"), sample_online).
Proof.
  apply (proj1 (pin_command_needs_ownership calm
                  (mkPinControl "dev-1" "D1" (JBool true)) (mkUser "bob")
                  sample_online eq_refl)).
  intros d [<-|[]] _. discriminate.
Defined.



(** ** Device records *)

Lemma remove_first_length (q : Device -> bool) ds x :
  find q ds = Some x -> S (length (remove_first q ds)) = length ds.
Proof.
  induction ds as [|d ds IH]; simpl; [discriminate |].
  destruct (q d); [reflexivity |].
  intros H. simpl. now rewrite IH.
Qed.

Lemma remove_first_filter (q p : Device -> bool) ds :
  (forall d, q d = true -> p d = false) ->
  filter p (remove_first q ds) = filter p ds.
Proof.
  intros Hqp. induction ds as [|d ds IH]; simpl; auto.
  destruct (q d) eqn:Hq.
  - now rewrite (Hqp d Hq).
  - simpl. now rewrite IH.
Qed.

Lemma find_id_none_of_notin device_id ds :
  ~ In device_id (map dev_id ds) ->
  find (fun d => dev_id d =? device_id) ds = None.
Proof.
  intros Hnotin. apply find_none_iff. intros d Hin.
  apply String.eqb_neq. intros Heq. apply Hnotin.
  rewrite <- Heq. now apply in_map.
Qed.

Lemma remove_first_unique (q : Device -> bool) device_id ds x :
  NoDup (map dev_id ds) ->
  (forall d, q d = true -> dev_id d = device_id) ->
  find q ds = Some x ->
  find (fun d => dev_id d =? device_id) (remove_first q ds) = None.
Proof.
  intros Hnd Hq. induction ds as [|d ds IH]; simpl; [discriminate |].
  inversion Hnd as [|? ? Hnotin Hnd']; subst.
  destruct (q d) eqn:Hqd.
  - intros _. apply find_id_none_of_notin.
    now rewrite <- (Hq d Hqd).
  - intros Hx. simpl.
    destruct (String.eqb_spec (dev_id d) device_id) as [Heq|Hne].
    + exfalso. apply Hnotin.
      apply find_some in Hx. destruct Hx as [Hin Hqx].
      rewrite Heq, <- (Hq x Hqx). now apply in_map.
    + now apply IH.
Qed.

Lemma delete_device_eq env device_id current_user w :
  store_fault env OpUpdate = false ->
  delete_device env device_id current_user w =
  match find (fun d => (dev_id d =? device_id)
                       && (dev_user_id d =? usr_id current_user))
          (db_devices w) with
  | None => (Raise (HTTPException 404 "Device not found"), w)
  | Some _ =>
      (Ok (JObj [("message", JStr "Device deleted")]),
       with_devices
         (remove_first
            (fun d => (dev_id d =? device_id)
                      && (dev_user_id d =? usr_id current_user))
            (db_devices w)) w)
  end.
Proof.
  intros Hup. unfold delete_device, bind, devices_delete_one.
  rewrite Hup. now destruct (find _ (db_devices w)).
Qed.

(** X14. Deleting a device removes one record of the caller and nothing
    else.  When the caller owns no record with the id, the answer is 404
    and nothing changes.  Otherwise exactly one record goes, the records
    of every other user stay as they are, and neither the registry nor
    the stored sensor readings -- those of the deleted device included --
    are touched. *)
Theorem delete_device_removes_one_own_record (env : Env)
  (device_id : string) (current_user : User) (w : World) :
  store_fault env OpUpdate = false ->
  let out := delete_device env device_id current_user w in
  let owned :=
    find (fun d => (dev_id d =? device_id)
                   && (dev_user_id d =? usr_id current_user))
      (db_devices w) in
  (owned = None ->
   out = (Raise (HTTPException 404 "Device not found"), w)) /\
  (owned <> None ->
   fst out = Ok (JObj [("message", JStr "Device deleted")]) /\
   S (length (db_devices (snd out))) = length (db_devices w) /\
   filter (fun d => negb (dev_user_id d =? usr_id current_user))
     (db_devices (snd out)) =
   filter (fun d => negb (dev_user_id d =? usr_id current_user))
     (db_devices w) /\
   manager (snd out) = manager w /\
   db_sensor_data (snd out) = db_sensor_data w /\
   trace (snd out) = trace w).
Proof.
  intros Hup out owned. unfold out.
  rewrite (delete_device_eq env device_id current_user w Hup).
  fold owned. split.
  - intros ->. reflexivity.
  - intros Hown. destruct owned as [x|] eqn:Hx; [| congruence].
    simpl. repeat split.
    + now apply (remove_first_length _ _ x).
    + apply remove_first_filter. intros d Hq.
      apply andb_prop in Hq. destruct Hq as [_ Hu]. now rewrite Hu.
Qed.

Lemma delete_device_removes_one_own_record_witness :
  let out := delete_device calm "dev-1" (mkUser "alice") sample_online in
  fst out = Ok (JObj [("message", JStr "Device deleted")]) /\
  db_devices (snd out) = [] /\
  delete_device calm "dev-1" (mkUser "bob") sample_online =
  (Raise (HTTPException 404 "Device not found"), sample_online).
Proof.
  pose proof (delete_device_removes_one_own_record calm "dev-1"
                (mkUser "alice") sample_online eq_refl) as [_ Ha].
  pose proof (delete_device_removes_one_own_record calm "dev-1"
                (mkUser "bob") sample_online eq_refl) as [Hb _].
  split; [apply Ha; discriminate |].
  split; [reflexivity | apply Hb; reflexivity].
Defined.

(** X15. Deleting a connected device leaves its channel registered.  With
    ids unique in the store, after the owner deletes a device that has a
    registry entry, the entry is still there while no record, hence no
    status, is left for the id: a device with a channel handle and no
    [online] status, so the equivalence of the liveness invariant does
    not hold in that world; and the owner's pin commands for the device
    are now answered 404. *)
Theorem deleting_connected_device_leaves_channel (env : Env)
  (control : PinControl) (current_user : User) (ws : WebSocket) (x : Device)
  (w : World) :
  store_fault env OpUpdate = false ->
  store_fault env OpFind = false ->
  NoDup (map dev_id (db_devices w)) ->
  find (fun d => (dev_id d =? pc_device_id control)
                 && (dev_user_id d =? usr_id current_user))
    (db_devices w) = Some x ->
  Dict.get (device_connections (manager w)) (pc_device_id control) = Some ws ->
  let w' :=
    snd (delete_device env (pc_device_id control) current_user w) in
  Dict.get (device_connections (manager w')) (pc_device_id control) = Some ws
  /\
  device_status (db_devices w') (pc_device_id control) = None /\
  ~ synced w' /\
  control_pin env control current_user w' =
  (Raise (HTTPException 404 "Device not found"), w').
Proof.
  intros Hup Hfind Hnd Hx Hget w'. unfold w'.
  rewrite (delete_device_eq env _ current_user w Hup), Hx. simpl.
  assert (Hgone :
            find (fun d => dev_id d =? pc_device_id control)
              (remove_first
                 (fun d => (dev_id d =? pc_device_id control)
                           && (dev_user_id d =? usr_id current_user))
                 (db_devices w)) = None).
  { apply (remove_first_unique _ _ _ x Hnd); [| exact Hx].
    intros d Hq. apply andb_prop in Hq. destruct Hq as [Hid _].
    now apply String.eqb_eq. }
  assert (Hstatus :
            device_status
              (remove_first
                 (fun d => (dev_id d =? pc_device_id control)
                           && (dev_user_id d =? usr_id current_user))
                 (db_devices w)) (pc_device_id control) = None).
  { unfold device_status. now rewrite Hgone. }
  split; [exact Hget |]. split; [exact Hstatus |]. split.
  - intros Hsync. specialize (Hsync (pc_device_id control)).
    simpl in Hsync. rewrite Hget, Hstatus in Hsync.
    assert (Hno : @None string = Some "online") by (apply Hsync; congruence).
    discriminate Hno.
  - unfold control_pin, bind, devices_find_one. rewrite Hfind. simpl.
    assert (Hnone :
              find (fun d => (dev_id d =? pc_device_id control)
                             && (dev_user_id d =? usr_id current_user))
                (remove_first
                   (fun d => (dev_id d =? pc_device_id control)
                             && (dev_user_id d =? usr_id current_user))
                   (db_devices w)) = None).
    { apply find_none_iff. intros d Hin.
      pose proof (proj1 (find_none_iff _ _) Hgone d Hin) as Hid.
      simpl in Hid. now rewrite Hid. }
    now rewrite Hnone.
Qed.

Lemma deleting_connected_device_leaves_channel_witness :
  let w' := snd (delete_device calm "dev-1" (mkUser "alice") sample_online) in
  Dict.get (device_connections (manager w')) "dev-1" = Some 1 /\
  device_status (db_devices w') "dev-1" = None /\
  ~ synced w'.
Proof.
  assert (Hnd : NoDup (map dev_id (db_devices sample_online))).
  { simpl. repeat constructor. simpl. tauto. }
  destruct (deleting_connected_device_leaves_channel calm
              (mkPinControl "dev-1" "D1" (JInt 1)) (mkUser "alice") 1
              (mkDevice "dev-1" "secret" "alice" "online" (Some 100%Z)
                 (JStr "1.0.0"))
              sample_online eq_refl eq_refl Hnd eq_refl eq_refl)
    as (H1 & H2 & H3 & _).
  repeat split; assumption.
Defined.

Lemma find_app_last (q : Device -> bool) ds dev :
  find q (ds ++ [dev]) =
  match find q ds with
  | Some x => Some x
  | None => if q dev then Some dev else None
  end.
Proof.
  induction ds as [|d ds IH]; simpl; [reflexivity |].
  destruct (q d); [reflexivity | exact IH].
Qed.

Lemma create_device_eq env uuid_str device_data current_user w :
  store_fault env OpInsert = false ->
  let dev :=
    mkDevice (uuid_str (uuid_seed w)) (uuid_str (S (uuid_seed w)))
      (usr_id current_user) "offline" None (JStr "1.0.0") in
  create_device env uuid_str device_data current_user w =
  (Ok dev,
   with_devices (db_devices w ++ [dev])
     (with_uuid_seed (S (S (uuid_seed w))) w)).
Proof.
  intros Hins dev.
  unfold create_device, new_Device, bind, uuid4, ret, devices_insert_one.
  simpl. rewrite Hins. reflexivity.
Qed.

(** The opening of an admitted connection leaves what the liveness
    invariant reads as the registration and the online update made
    it. *)
Lemma opening_quiet env ws device_id auth_token w x :
  store_fault env OpFind = false ->
  store_fault env OpUpdate = false ->
  find (fun d => (dev_id d =? device_id) && (dev_auth_token d =? auth_token))
    (db_devices w) = Some x ->
  quiet (after_connect ws device_id w)
    (snd (websocket_device env ws device_id auth_token [] w)).
Proof.
  intros Hfind Hup Hx.
  rewrite (websocket_device_admitted env ws device_id auth_token [] w x
             Hfind Hup Hx).
  apply (keeps_bind _ _ _ _
           (keeps_broadcast_to_users env
              (device_status_event device_id "online"))
           (fun _ => keeps_device_loop env device_id [])).
Qed.

(** X16. A device created through the API starts offline, belongs to its
    creator, and can connect: the record is appended to the store with
    the registry untouched, the liveness equivalence, if it held, still
    holds, and a connection presenting the id and token that
    [create_device] returned is admitted -- registered under the id and
    marked [online]. *)
Theorem created_device_can_connect (env : Env) (uuid_str : nat -> string)
  (device_data : DeviceCreate) (current_user : User) (ws : WebSocket)
  (w : World) :
  store_fault env OpInsert = false ->
  store_fault env OpFind = false ->
  store_fault env OpUpdate = false ->
  let created := create_device env uuid_str device_data current_user w in
  exists dev,
    fst created = Ok dev /\
    dev_user_id dev = usr_id current_user /\
    dev_status dev = "offline" /\
    db_devices (snd created) = db_devices w ++ [dev] /\
    manager (snd created) = manager w /\
    (synced w -> synced (snd created)) /\
    let opened :=
      websocket_device env ws (dev_id dev) (dev_auth_token dev) []
        (snd created) in
    Dict.get (device_connections (manager (snd opened))) (dev_id dev)
    = Some ws /\
    device_status (db_devices (snd opened)) (dev_id dev) = Some "online".
Proof.
  intros Hins Hfind Hup created. unfold created.
  rewrite (create_device_eq env uuid_str device_data current_user w Hins).
  set (dev := mkDevice _ _ _ _ _ _).
  set (w1 := with_devices _ _).
  exists dev. cbn [fst snd].
  split; [reflexivity |]. split; [reflexivity |]. split; [reflexivity |].
  split; [reflexivity |]. split; [reflexivity |]. split.
  - intros Hsync d. specialize (Hsync d).
    unfold w1, device_status. simpl. rewrite find_app_last.
    unfold device_status in Hsync.
    destruct (find (fun d0 => dev_id d0 =? d) (db_devices w)) as [y|].
    + exact Hsync.
    + destruct (dev_id dev =? d); simpl.
      * split; [| discriminate]. intros Hreg. now apply Hsync in Hreg.
      * exact Hsync.
  - assert (Hx : exists x,
               find (fun d => (dev_id d =? dev_id dev)
                              && (dev_auth_token d =? dev_auth_token dev))
                 (db_devices w1) = Some x).
    { unfold w1. simpl. rewrite find_app_last.
      destruct (find _ (db_devices w)); [eauto |].
      rewrite !String.eqb_refl. simpl. eauto. }
    destruct Hx as [x Hx]. clearbody w1 dev.
    destruct (opening_quiet env ws (dev_id dev) (dev_auth_token dev) w1 x
                Hfind Hup Hx) as (Hreg & Hst & _).
    split.
    + rewrite <- Hreg. simpl. apply DictFacts.get_set_eq.
    + rewrite <- Hst. simpl. rewrite device_status_set_liveness.
      pose proof (find_id_of_find_and (dev_id dev)
                    (fun d => dev_auth_token d =? dev_auth_token dev) _ x Hx)
        as Hne.
      destruct (find (fun d => dev_id d =? dev_id dev) (db_devices w1));
        [reflexivity | congruence].
Qed.

Lemma created_device_can_connect_witness :
  let created :=
    create_device calm sample_uuid_str (mkDeviceCreate "lamp" "esp32")
      (mkUser "bob") sample_world in
  exists dev,
    fst created = Ok dev /\
    dev_user_id dev = "bob" /\
    dev_status dev = "offline" /\
    let opened :=
      websocket_device calm 3 (dev_id dev) (dev_auth_token dev) []
        (snd created) in
    Dict.get (device_connections (manager (snd opened))) (dev_id dev)
    = Some 3 /\
    device_status (db_devices (snd opened)) (dev_id dev) = Some "online".
Proof.
  destruct (created_device_can_connect calm sample_uuid_str
              (mkDeviceCreate "lamp" "esp32") (mkUser "bob") 3 sample_world
              eq_refl eq_refl eq_refl)
    as (dev & H1 & H2 & H3 & _ & _ & _ & H4).
  exists dev. repeat split; try assumption; apply H4.
Defined.

(** X17. What [create_device] returns can be read back by its creator and by
    nobody else: when the new id is not already in the store,
    [get_device] with that id returns the created device to the creator
    and answers 404 to any other user. *)
Theorem created_device_is_private (env : Env) (uuid_str : nat -> string)
  (device_data : DeviceCreate) (current_user other_user : User)
  (w : World) :
  store_fault env OpInsert = false ->
  store_fault env OpFind = false ->
  (forall d, In d (db_devices w) -> dev_id d <> uuid_str (uuid_seed w)) ->
  usr_id other_user <> usr_id current_user ->
  let created := create_device env uuid_str device_data current_user w in
  exists dev,
    fst created = Ok dev /\
    get_device env (dev_id dev) current_user (snd created) =
      (Ok dev, snd created) /\
    get_device env (dev_id dev) other_user (snd created) =
      (Raise (HTTPException 404 "Device not found"), snd created).
Proof.
  intros Hins Hfind Hfresh Hother created. unfold created.
  rewrite (create_device_eq env uuid_str device_data current_user w Hins).
  set (dev := mkDevice _ _ _ _ _ _).
  set (w1 := with_devices _ _).
  exists dev. simpl. split; [reflexivity |].
  assert (Hnone : forall u,
             find (fun d => (dev_id d =? uuid_str (uuid_seed w))
                            && (dev_user_id d =? u)) (db_devices w) = None).
  { intros u. apply find_none_iff. intros d Hin.
    destruct (String.eqb_spec (dev_id d) (uuid_str (uuid_seed w)));
      [now contradiction (Hfresh d Hin) | reflexivity]. }
  split.
  - unfold get_device, bind, devices_find_one. rewrite Hfind.
    unfold w1. simpl. rewrite find_app_last, Hnone. simpl.
    now rewrite !String.eqb_refl.
  - unfold get_device, bind, devices_find_one. rewrite Hfind.
    unfold w1. simpl. rewrite find_app_last, Hnone. simpl.
    rewrite String.eqb_refl. simpl.
    destruct (String.eqb_spec (usr_id current_user) (usr_id other_user));
      [congruence | reflexivity].
Qed.

Lemma created_device_is_private_witness :
  let created :=
    create_device calm sample_uuid_str (mkDeviceCreate "lamp" "esp32")
      (mkUser "bob") sample_world in
  exists dev,
    fst created = Ok dev /\
    get_device calm (dev_id dev) (mkUser "bob") (snd created) =
      (Ok dev, snd created) /\
    get_device calm (dev_id dev) (mkUser "alice") (snd created) =
      (Raise (HTTPException 404 "Device not found"), snd created).
Proof.
  apply (created_device_is_private calm sample_uuid_str
           (mkDeviceCreate "lamp" "esp32") (mkUser "bob") (mkUser "alice")
           sample_world eq_refl eq_refl).
  - intros d [<-|[]]. discriminate.
  - discriminate.
Defined.

Lemma find_owned_after_update device_id user_id u ds x :
  find (fun d => dev_id d =? device_id) ds = Some x ->
  dev_user_id x = user_id ->
  find (fun d => (dev_id d =? device_id) && (dev_user_id d =? user_id))
    (update_first device_id u ds) = Some (apply_update u x).
Proof.
  intros Hx Hu. induction ds as [|d ds IH]; simpl in *; [discriminate |].
  destruct (dev_id d =? device_id) eqn:E.
  - injection Hx as ->. simpl.
    rewrite apply_update_id, E.
    assert (Hu' : dev_user_id (apply_update u x) = user_id)
      by (now destruct u).
    rewrite Hu', String.eqb_refl. reflexivity.
  - simpl. rewrite E. simpl. now apply IH.
Qed.

(** X18. The version a device reports is stored as it comes and validated
    only when the record is read.  After a [firmware_update_status]
    frame with status ["success"] whose [version] is neither a string nor
    null -- a number, say -- the owner's [get_device] for that device
    no longer returns it: building the [Device] raises
    [ValidationError]. *)
Theorem unvalidated_version_breaks_get_device (env : Env)
  (device_id : string) (items : list (string * json)) (current_user : User)
  (x : Device) (w : World) :
  store_fault env OpUpdate = false ->
  store_fault env OpFind = false ->
  eq_str (field items "type") "firmware_update_status" = true ->
  eq_str (field items "status") "success" = true ->
  (forall s, field items "version" <> JStr s) ->
  field items "version" <> JNull ->
  find (fun d => dev_id d =? device_id) (db_devices w) = Some x ->
  dev_user_id x = usr_id current_user ->
  let w' := snd (handle_frame env device_id (Json (JObj items)) w) in
  fst (get_device env device_id current_user w') = Raise ValidationError.
Proof.
  intros Hup Hfind Hty Hst Hstr Hnull Hx Hown w'.
  assert (Hs : eq_str (field items "type") "sensor_data" = false)
    by (apply (eq_str_other _ _ _ Hty); discriminate).
  assert (Hdb : db_devices w' =
                update_first device_id
                  (SetFirmwareVersion (field items "version"))
                  (db_devices w)).
  { unfold w'.
    rewrite (handle_frame_firmware env device_id items w Hs Hty).
    rewrite Hst, Hup. simpl.
    match goal with
    | |- context [broadcast_to_users env ?m ?w0] =>
        destruct (broadcast_only_logged env m w0) as [evs ->]
    end.
    reflexivity. }
  clearbody w'.
  unfold get_device, bind, devices_find_one. rewrite Hfind, Hdb.
  rewrite (find_owned_after_update device_id (usr_id current_user) _ _ x
             Hx Hown).
  unfold validate_Device. simpl.
  destruct (field items "version") as [| | | |s| |]; try reflexivity.
  - congruence.
  - now contradiction (Hstr s).
Qed.

Lemma unvalidated_version_breaks_get_device_witness :
  let report :=
    [("type", JStr "firmware_update_status"); ("status", JStr "success");
     ("version", JInt 2)] in
  fst (get_device calm "dev-1" (mkUser "alice") sample_online)
  = Ok (mkDevice "dev-1" "secret" "alice" "online" (Some 100%Z)
          (JStr "1.0.0")) /\
  fst (get_device calm "dev-1" (mkUser "alice")
         (snd (handle_frame calm "dev-1" (Json (JObj report)) sample_online)))
  = Raise ValidationError.
Proof.
  intros report. split; [reflexivity |].
  apply (unvalidated_version_breaks_get_device calm "dev-1" report
           (mkUser "alice")
           (mkDevice "dev-1" "secret" "alice" "online" (Some 100%Z)
              (JStr "1.0.0"))
           sample_online eq_refl eq_refl eq_refl eq_refl).
  - intros s. discriminate.
  - discriminate.
  - reflexivity.
  - reflexivity.
Defined.

Lemma In_firstn (A : Type) (n : nat) (l : list A) x :
  In x (firstn n l) -> In x l.
Proof.
  intros Hin. rewrite <- (firstn_skipn n l).
  apply in_or_app. now left.
Qed.

(** X19. The device list is the caller's own: every device [get_devices]
    returns is a stored record owned by the caller, at most 1000 are
    returned, and as long as the caller owns no more than 1000 devices
    each of them is in the list.  Nothing is changed. *)
Theorem get_devices_lists_own_devices (env : Env) (current_user : User)
  (w : World) :
  store_fault env OpFind = false ->
  exists devices,
    get_devices env current_user w = (Ok devices, w) /\
    (forall d, In d devices ->
               In d (db_devices w) /\ dev_user_id d = usr_id current_user) /\
    length devices <= 1000 /\
    (length (filter (fun d => dev_user_id d =? usr_id current_user)
               (db_devices w)) <= 1000 ->
     forall d, In d (db_devices w) ->
               dev_user_id d = usr_id current_user -> In d devices).
Proof.
  intros Hfind. unfold get_devices, devices_find. rewrite Hfind.
  eexists. split; [reflexivity |]. split; [| split].
  - intros d Hin. apply In_firstn in Hin. apply filter_In in Hin.
    destruct Hin as [Hin Hu]. split; [exact Hin |].
    now apply String.eqb_eq.
  - apply firstn_le_length.
  - intros Hlen d Hin Hu. rewrite firstn_all2 by exact Hlen.
    apply filter_In. split; [exact Hin |]. now apply String.eqb_eq.
Qed.

Lemma get_devices_lists_own_devices_witness :
  exists devices,
    get_devices calm (mkUser "alice") sample_world =
      (Ok devices, sample_world) /\
    (forall d, In d devices ->
               In d (db_devices sample_world) /\ dev_user_id d = "alice") /\
    length devices <= 1000.
Proof.
  destruct (get_devices_lists_own_devices calm (mkUser "alice") sample_world
              eq_refl) as (l & H1 & H2 & H3 & _).
  exists l. repeat split; try assumption; apply H2; assumption.
Defined.

(** * The liveness invariant over the transition system *)

(** ** Records and their ids *)

Lemma map_dev_id_update_first device_id u ds :
  map dev_id (update_first device_id u ds) = map dev_id ds.
Proof.
  induction ds as [|d ds IH]; simpl; auto.
  destruct (dev_id d =? device_id); simpl.
  - now rewrite apply_update_id.
  - now rewrite IH.
Qed.

Lemma find_id_of_In device_id ds :
  In device_id (map dev_id ds) ->
  find (fun d => dev_id d =? device_id) ds <> None.
Proof.
  intros Hin Hnone. apply in_map_iff in Hin. destruct Hin as (x & Hx & Hin).
  pose proof (proj1 (find_none_iff _ _) Hnone x Hin) as Hq.
  simpl in Hq. rewrite Hx, String.eqb_refl in Hq. discriminate.
Qed.

Lemma In_id_of_find_and device_id (p : Device -> bool) ds x :
  find (fun d => (dev_id d =? device_id) && p d) ds = Some x ->
  In device_id (map dev_id ds).
Proof.
  intros Hx. apply find_some in Hx. destruct Hx as [Hin Hq].
  apply andb_prop in Hq. destruct Hq as [Hid _].
  apply String.eqb_eq in Hid. rewrite <- Hid. now apply in_map.
Qed.

Lemma In_map_remove_first (q : Device -> bool) ds i :
  In i (map dev_id (remove_first q ds)) -> In i (map dev_id ds).
Proof.
  induction ds as [|d ds IH]; simpl; auto.
  destruct (q d); simpl; tauto.
Qed.

Lemma NoDup_remove_first (q : Device -> bool) ds :
  NoDup (map dev_id ds) -> NoDup (map dev_id (remove_first q ds)).
Proof.
  induction ds as [|d ds IH]; simpl; intros Hnd; auto.
  inversion Hnd as [|? ? Hnotin Hnd']; subst.
  destruct (q d); simpl; auto.
  constructor; auto.
  intros Hin. apply Hnotin. now apply In_map_remove_first in Hin.
Qed.

Lemma find_remove_first_ne (q : Device -> bool) device_id other ds :
  (forall d, q d = true -> dev_id d = device_id) ->
  other <> device_id ->
  find (fun d => dev_id d =? other) (remove_first q ds) =
  find (fun d => dev_id d =? other) ds.
Proof.
  intros Hq Hne. induction ds as [|d ds IH]; simpl; auto.
  destruct (q d) eqn:Hqd; simpl.
  - destruct (String.eqb_spec (dev_id d) other) as [Heq|]; [| reflexivity].
    exfalso. apply Hne. rewrite <- Heq. now apply Hq.
  - now rewrite IH.
Qed.

Lemma In_id_remove_first_ne (q : Device -> bool) device_id other ds :
  (forall d, q d = true -> dev_id d = device_id) ->
  other <> device_id ->
  In other (map dev_id ds) ->
  In other (map dev_id (remove_first q ds)).
Proof.
  intros Hq Hne. induction ds as [|d ds IH]; simpl; auto.
  destruct (q d) eqn:Hqd; simpl.
  - intros [Heq|Hin]; [| exact Hin].
    exfalso. apply Hne. rewrite <- Heq. now apply Hq.
  - tauto.
Qed.

Lemma same_ids_refl w : same_ids w w.
Proof. reflexivity. Qed.

Lemma same_ids_trans a b c : same_ids a b -> same_ids b c -> same_ids a c.
Proof. unfold same_ids. congruence. Qed.

Lemma same_ids_log e w : same_ids w (log e w).
Proof. reflexivity. Qed.

Lemma same_ids_seed n w : same_ids w (with_uuid_seed n w).
Proof. reflexivity. Qed.

Lemma same_ids_sensor sd w : same_ids w (with_sensor_data sd w).
Proof. reflexivity. Qed.

Lemma same_ids_update device_id u w :
  same_ids w (with_devices (update_first device_id u (db_devices w)) w).
Proof. unfold same_ids. simpl. apply map_dev_id_update_first. Qed.

Lemma same_ids_manager m w : same_ids w (with_manager m w).
Proof. reflexivity. Qed.

Lemma only_logged_fields w w' :
  only_logged w w' ->
  manager w' = manager w /\ db_devices w' = db_devices w.
Proof. intros [evs ->]. split; reflexivity. Qed.

Lemma same_devices_refl w : same_devices w w.
Proof. reflexivity. Qed.

Lemma same_devices_trans a b c :
  same_devices a b -> same_devices b c -> same_devices a c.
Proof. unfold same_devices. congruence. Qed.

Lemma same_devices_log e w : same_devices w (log e w).
Proof. reflexivity. Qed.

Lemma same_devices_seed n w : same_devices w (with_uuid_seed n w).
Proof. reflexivity. Qed.

Lemma same_devices_sensor sd w : same_devices w (with_sensor_data sd w).
Proof. reflexivity. Qed.

Lemma same_devices_manager m w : same_devices w (with_manager m w).
Proof. reflexivity. Qed.

Lemma registry_wf_manager w w' :
  manager w' = manager w -> registry_wf w -> registry_wf w'.
Proof. unfold registry_wf. now intros ->. Qed.

Lemma synced_fields w w' :
  device_connections (manager w') = device_connections (manager w) ->
  db_devices w' = db_devices w ->
  synced w -> synced w'.
Proof. unfold synced. now intros -> ->. Qed.

Lemma only_logged_consistent w w' :
  only_logged w w' -> consistent w -> consistent w'.
Proof.
  intros [evs ->]. apply quiet_consistent, quiet_extend.
Qed.

(** ** Where a step leaves its task *)

Lemma lands_ret_some A (P : A -> Prop) pc : P pc -> lands P (ret (Some pc)).
Proof. intros H w pc' Heq. simpl in Heq. now injection Heq as <-. Qed.

Lemma lands_ret_none A (P : A -> Prop) : lands P (ret None).
Proof. intros w pc Heq. discriminate. Qed.

Lemma lands_raise A (P : A -> Prop) e : lands P (raise e).
Proof. intros w pc Heq. discriminate. Qed.

Lemma lands_bind A B (P : A -> Prop) (m : M B) (k : B -> M (option A)) :
  (forall b, lands P (k b)) -> lands P (bind m k).
Proof.
  intros Hk w pc. unfold bind.
  destruct (m w) as [[b|e] w1]; [apply Hk | discriminate].
Qed.

Lemma lands_try_except A (P : A -> Prop) (body handler : M (option A))
  handles :
  lands P body -> lands P handler -> lands P (try_except body handles handler).
Proof.
  intros Hb Hh w pc. unfold try_except.
  specialize (Hb w pc).
  destruct (body w) as [[a|e] w1]; [exact Hb |].
  destruct (handles e); [apply Hh | discriminate].
Qed.

Ltac lands_walk :=
  repeat
    match goal with
    | |- lands _ (bind _ _) => apply lands_bind; intro
    | |- lands _ (try_except _ _ _) => apply lands_try_except
    | |- lands _ (ret None) => apply lands_ret_none
    | |- lands _ (ret (Some _)) => apply lands_ret_some
    | |- lands _ (raise _) => apply lands_raise
    | |- lands _ (if ?b then _ else _) => destruct b
    | |- lands _ (match ?x with _ => _ end) => destruct x
    end.

Lemma device_knock_world env device_id auth_token w :
  snd (device_knock env device_id auth_token w) = w.
Proof.
  unfold device_knock, bind, devices_find_one.
  now destruct (store_fault env OpFind).
Qed.

Lemma device_knock_admits env device_id auth_token w pc :
  fst (device_knock env device_id auth_token w) = Ok (Some pc) ->
  admitting pc = true ->
  In device_id (map dev_id (db_devices w)).
Proof.
  unfold device_knock, bind, devices_find_one.
  destruct (store_fault env OpFind); [discriminate |].
  simpl. intros Heq. injection Heq as <-.
  destruct (find _ (db_devices w)) as [x|] eqn:Hx; [| discriminate].
  intros _.
  exact (In_id_of_find_and device_id
           (fun d => dev_auth_token d =? auth_token) _ x Hx).
Qed.

Lemma device_cleanup_lands env device_id :
  lands (fun pc => admitting pc = false) (device_cleanup env device_id).
Proof. unfold device_cleanup. lands_walk. reflexivity. Qed.

Lemma device_resume_admits env ws device_id pc :
  admitting pc = false ->
  lands (fun pc' => admitting pc' = false)
    (device_resume env ws device_id pc).
Proof.
  pose proof (device_cleanup_lands env device_id) as Hc.
  intros Hpc. destruct pc as [[x|]| | | |m|m|]; try discriminate;
    unfold device_resume, in_try; lands_walk; auto.
Qed.

Lemma device_deliver_admits env device_id r :
  lands (fun pc' => admitting pc' = false) (device_deliver env device_id r).
Proof.
  pose proof (device_cleanup_lands env device_id) as Hc.
  unfold device_deliver, in_try. lands_walk; auto.
Qed.

(** ** Steps of a device connection *)

Lemma register_device ws device_id w :
  register ws device_id "device" w =
  (Ok tt,
   with_manager
     (mkManager (active_connections (manager w))
        (Dict.set (device_connections (manager w)) device_id ws)) w).
Proof. reflexivity. Qed.

Lemma connect_halves ws client_id client_type :
  connect ws client_id client_type =
  (accept ws ;; register ws client_id client_type).
Proof. reflexivity. Qed.

Lemma device_resume_accept env ws device_id w :
  store_fault env OpUpdate = false ->
  device_resume env ws device_id AtAccept w =
  (Ok (Some AtUpdateOnline), after_register ws device_id w).
Proof.
  intros Hup. unfold device_resume.
  unfold bind at 1. rewrite register_device.
  unfold bind at 1, now at 1. cbn [clock with_manager].
  unfold bind at 1, devices_update_one at 1. rewrite Hup.
  reflexivity.
Qed.

Lemma device_cleanup_eq env device_id w :
  store_fault env OpUpdate = false ->
  device_cleanup env device_id w =
  (Ok (Some AtUpdateOffline), after_disconnect device_id w).
Proof.
  intros Hup. unfold device_cleanup.
  unfold bind at 1. rewrite disconnect_device.
  unfold bind at 1, now at 1. cbn [clock with_manager].
  unfold bind at 1, devices_update_one at 1. rewrite Hup.
  reflexivity.
Qed.

Lemma after_register_consistent ws device_id w :
  In device_id (map dev_id (db_devices w)) ->
  consistent w -> consistent (after_register ws device_id w).
Proof.
  intros Hin [[Hwa Hwd] Hsync].
  apply find_id_of_In in Hin.
  split; [split |]; simpl; auto.
  - now apply DictFacts.wf_set.
  - intros other. simpl.
    destruct (String.eqb_spec device_id other) as [<-|Hne].
    + rewrite DictFacts.get_set_eq, device_status_set_liveness.
      destruct (find _ (db_devices w)); simpl; split; congruence.
    + rewrite DictFacts.get_set_ne by assumption.
      rewrite device_status_update_ne by assumption.
      apply Hsync.
Qed.

Lemma in_try_consistent env device_id body w :
  keeps body ->
  store_fault env OpUpdate = false ->
  consistent w -> consistent (snd (in_try env device_id body w)).
Proof.
  intros Hk Hup Hc. unfold in_try, try_except.
  specialize (Hk w).
  destruct (body w) as [[a|e] w1]; simpl in *.
  - eapply quiet_consistent; eauto.
  - destruct (is_WebSocketDisconnect e); simpl.
    + rewrite device_cleanup_eq by assumption. simpl.
      apply after_disconnect_consistent.
      eapply quiet_consistent; eauto.
    + eapply quiet_consistent; eauto.
Qed.

Lemma keeps_consistent A (m : M A) w :
  keeps m -> consistent w -> consistent (snd (m w)).
Proof. intros Hk. apply quiet_consistent, Hk. Qed.

Lemma device_resume_consistent env ws device_id pc w :
  store_fault env OpUpdate = false ->
  (admitting pc = true -> In device_id (map dev_id (db_devices w))) ->
  consistent w ->
  consistent (snd (device_resume env ws device_id pc w)).
Proof.
  intros Hup Hin Hc.
  destruct pc as [[x|]| | | |m|m|].
  - unfold device_resume.
    apply keeps_consistent; [keeps_walk | exact Hc].
  - unfold device_resume.
    apply keeps_consistent; [keeps_walk | exact Hc].
  - rewrite device_resume_accept by assumption. simpl.
    apply after_register_consistent; auto.
  - unfold device_resume.
    apply keeps_consistent; [keeps_walk | exact Hc].
  - exact Hc.
  - unfold device_resume.
    apply in_try_consistent; [keeps_walk | exact Hup | exact Hc].
  - unfold device_resume.
    apply in_try_consistent; [keeps_walk | exact Hup | exact Hc].
  - unfold device_resume.
    apply keeps_consistent; [keeps_walk | exact Hc].
Qed.

Lemma device_deliver_consistent env device_id r w :
  store_fault env OpUpdate = false ->
  consistent w ->
  consistent (snd (device_deliver env device_id r w)).
Proof.
  intros Hup Hc. unfold device_deliver.
  apply in_try_consistent; [keeps_walk | exact Hup | exact Hc].
Qed.

Lemma wf_kept_update device_id u w :
  registry_wf w ->
  registry_wf (with_devices (update_first device_id u (db_devices w)) w).
Proof. auto. Qed.

Lemma wf_kept_register device_id ws w :
  registry_wf w ->
  registry_wf
    (with_manager
       (mkManager (active_connections (manager w))
          (Dict.set (device_connections (manager w)) device_id ws)) w).
Proof.
  intros [Ha Hd]. split; simpl; [exact Ha | now apply DictFacts.wf_set].
Qed.

Lemma wf_kept_unregister device_id w :
  registry_wf w ->
  registry_wf
    (with_manager
       (mkManager (active_connections (manager w))
          (Dict.del (device_connections (manager w)) device_id)) w).
Proof.
  intros [Ha Hd]. split; simpl; [exact Ha | now apply DictFacts.wf_del].
Qed.

Lemma device_resume_wf env ws device_id pc w :
  registry_wf w -> registry_wf (snd (device_resume env ws device_id pc w)).
Proof.
  apply (along_device_resume (fun w w' => registry_wf w -> registry_wf w')
           (fun _ H => H) (fun a b c Hab Hbc H => Hbc (Hab H))
           (fun _ _ H => H) device_id
           (wf_kept_update device_id) (wf_kept_register device_id)
           (wf_kept_unregister device_id)).
Qed.

Lemma device_deliver_wf env device_id r w :
  registry_wf w -> registry_wf (snd (device_deliver env device_id r w)).
Proof.
  apply (along_device_deliver (fun w w' => registry_wf w -> registry_wf w')
           (fun _ H => H) (fun a b c Hab Hbc H => Hbc (Hab H))
           (fun _ _ H => H) (fun _ _ H => H) (fun _ _ H => H) device_id
           (wf_kept_update device_id)
           (wf_kept_unregister device_id)).
Qed.

Lemma device_resume_same_ids env ws device_id pc w :
  same_ids w (snd (device_resume env ws device_id pc w)).
Proof.
  apply (along_device_resume same_ids same_ids_refl same_ids_trans
           same_ids_log device_id
           (same_ids_update device_id)
           (fun ws0 w0 => same_ids_manager _ w0)
           (fun w0 => same_ids_manager _ w0)).
Qed.

Lemma device_deliver_same_ids env device_id r w :
  same_ids w (snd (device_deliver env device_id r w)).
Proof.
  apply (along_device_deliver same_ids same_ids_refl same_ids_trans
           same_ids_log same_ids_seed same_ids_sensor device_id
           (same_ids_update device_id)
           (fun w0 => same_ids_manager _ w0)).
Qed.

Lemma device_resume_refused env ws device_id pc w :
  store_fault env OpUpdate = true ->
  same_devices w (snd (device_resume env ws device_id pc w)).
Proof.
  intros Hup.
  apply (along_device_resume_refused same_devices same_devices_refl
           same_devices_trans same_devices_log same_devices_manager env
           Hup).
Qed.

Lemma device_deliver_refused env device_id r w :
  store_fault env OpUpdate = true ->
  same_devices w (snd (device_deliver env device_id r w)).
Proof.
  intros Hup.
  apply (along_device_deliver_refused same_devices same_devices_refl
           same_devices_trans same_devices_log same_devices_seed
           same_devices_sensor same_devices_manager env Hup).
Qed.

(** A step of a device connection keeps the equivalence when the store
    accepts its updates, and also when it refuses them as long as the
    step leaves the device partition as it was. *)
Lemma device_step_synced env w w' :
  (store_fault env OpUpdate = false -> consistent w') ->
  (store_fault env OpUpdate = true -> same_devices w w') ->
  store_fault env OpUpdate = false \/
  device_connections (manager w') = device_connections (manager w) ->
  synced w -> synced w'.
Proof.
  intros Hacc Href Hp Hsync.
  destruct (store_fault env OpUpdate) eqn:Hup.
  - destruct Hp as [Hp|Hp]; [discriminate |].
    apply (synced_fields w); auto. now apply Href.
  - now apply Hacc.
Qed.

(** ** Steps of a dashboard connection and of a command *)

Lemma keeps_register_user ws user_id : keeps (register ws user_id "user").
Proof.
  intros w. unfold quiet. simpl. repeat split; auto.
  intros Hwf. now apply DictFacts.wf_set.
Qed.

#[local] Hint Resolve keeps_register_user : keeps.

Lemma keeps_dashboard_open ws : keeps (dashboard_open ws).
Proof. unfold dashboard_open. keeps_walk. Qed.

Lemma keeps_dashboard_resume ws user_id pc :
  keeps (dashboard_resume ws user_id pc).
Proof. unfold dashboard_resume. keeps_walk. Qed.

Lemma keeps_dashboard_deliver user_id r :
  keeps (dashboard_deliver user_id r).
Proof. unfold dashboard_deliver. keeps_walk. Qed.

Lemma dashboard_open_devices ws w :
  same_devices w (snd (dashboard_open ws w)).
Proof. reflexivity. Qed.

Lemma dashboard_resume_devices ws user_id pc w :
  same_devices w (snd (dashboard_resume ws user_id pc w)).
Proof.
  apply (along_dashboard_resume same_devices same_devices_refl
           same_devices_trans same_devices_manager).
Qed.

Lemma dashboard_deliver_devices user_id r w :
  same_devices w (snd (dashboard_deliver user_id r w)).
Proof.
  apply (along_dashboard_deliver same_devices same_devices_refl
           same_devices_trans same_devices_manager).
Qed.

Lemma pin_start_world env control current_user w :
  snd (pin_start env control current_user w) = w.
Proof.
  unfold pin_start, bind, devices_find_one.
  now destruct (store_fault env OpFind).
Qed.

Lemma ota_start_world env device_id firmware_id current_user w :
  snd (ota_start env device_id firmware_id current_user w) = w.
Proof.
  unfold ota_start, bind, devices_find_one.
  now destruct (store_fault env OpFind).
Qed.

Lemma request_resume_only_logged env fws pc w :
  only_logged w (snd (request_resume env fws pc w)).
Proof.
  destruct pc as [control [x|]|device_id firmware_id [x|]
                 |device_id firmware_id [f|]];
    unfold request_resume; try apply only_logged_refl.
  - unfold bind.
    pose proof (send_to_device_only_logged env (pc_device_id control)
                  (JObj [("type", JStr "pin_control");
                         ("pin", JStr (pc_pin control));
                         ("value", pc_value control)]) w) as H.
    destruct (send_to_device env _ _ w) as [[[]|e] w1]; exact H.
  - unfold bind, firmware_find_one.
    destruct (store_fault env OpFind); apply only_logged_refl.
  - unfold bind.
    pose proof (send_to_device_only_logged env device_id
                  (ota_update_command firmware_id f) w) as H.
    destruct (send_to_device env _ _ w) as [[[]|e] w1]; exact H.
Qed.

(** ** Creating and deleting records *)

Lemma synced_after_insert dev w w' :
  manager w' = manager w ->
  db_devices w' = db_devices w ++ [dev] ->
  dev_status dev <> "online" ->
  synced w -> synced w'.
Proof.
  intros Hm Hdb Hoff Hsync d. specialize (Hsync d).
  rewrite Hm, Hdb. unfold device_status in *. rewrite find_app_last.
  destruct (find (fun d0 => dev_id d0 =? d) (db_devices w)) as [y|].
  - exact Hsync.
  - destruct (dev_id dev =? d); simpl.
    + split; [| congruence]. intros Hreg. now apply Hsync in Hreg.
    + exact Hsync.
Qed.

Lemma create_device_world env uuid_str device_data current_user w :
  let w' := snd (create_device env uuid_str device_data current_user w) in
  manager w' = manager w /\
  (db_devices w' = db_devices w \/
   db_devices w' =
   db_devices w ++
   [mkDevice (uuid_str (uuid_seed w)) (uuid_str (S (uuid_seed w)))
      (usr_id current_user) "offline" None (JStr "1.0.0")]).
Proof.
  unfold create_device, new_Device, bind, uuid4, ret, devices_insert_one.
  simpl. destruct (store_fault env OpInsert); simpl; auto.
Qed.

Lemma delete_device_world env device_id current_user w :
  let q := fun d => (dev_id d =? device_id)
                    && (dev_user_id d =? usr_id current_user) in
  let w' := snd (delete_device env device_id current_user w) in
  manager w' = manager w /\
  (db_devices w' = db_devices w \/
   exists x, find q (db_devices w) = Some x /\
             db_devices w' = remove_first q (db_devices w)).
Proof.
  unfold delete_device, bind, devices_delete_one.
  destruct (store_fault env OpUpdate); simpl; auto.
  destruct (find _ (db_devices w)) as [x|] eqn:Hx; simpl; auto.
  split; [reflexivity |]. right. now exists x.
Qed.

Lemma synced_after_delete device_id user_id x w w' :
  let q := fun d => (dev_id d =? device_id) && (dev_user_id d =? user_id) in
  manager w' = manager w ->
  db_devices w' = remove_first q (db_devices w) ->
  find q (db_devices w) = Some x ->
  NoDup (map dev_id (db_devices w)) ->
  Dict.get (device_connections (manager w)) device_id = None ->
  synced w -> synced w'.
Proof.
  intros q Hm Hdb Hx Hnd Hget Hsync d.
  assert (Hq : forall y, q y = true -> dev_id y = device_id).
  { intros y Hy. apply andb_prop in Hy. destruct Hy as [Hid _].
    now apply String.eqb_eq. }
  rewrite Hm, Hdb. unfold device_status.
  destruct (String.eqb_spec d device_id) as [->|Hne].
  - rewrite (remove_first_unique q device_id _ x Hnd Hq Hx), Hget.
    simpl. split; congruence.
  - rewrite (find_remove_first_ne q device_id d _ Hq Hne). apply Hsync.
Qed.

(** ** Every permitted step keeps the state sound *)

Lemma In_drop_task A (tasks : list (nat * A)) key t :
  In t (drop_task tasks key) -> In t tasks.
Proof. unfold drop_task. intros H. now apply filter_In in H. Qed.

Lemma task_of_In A (tasks : list (nat * A)) key a :
  task_of tasks key = Some a -> In (key, a) tasks.
Proof.
  unfold task_of.
  destruct (find (fun t : nat * A => (fst t =? key)%nat) tasks)
    as [[k a']|] eqn:Hf; [| discriminate].
  simpl. intros Heq. injection Heq as ->.
  apply find_some in Hf. destruct Hf as [Hin Hk]. simpl in Hk.
  apply Nat.eqb_eq in Hk. now subst k.
Qed.

Lemma settle_In A B (tasks : list (nat * (B * A))) key client r k c pc :
  In (k, (c, pc)) (settle tasks key client r) ->
  (r = Ok (Some pc) /\ k = key /\ c = client) \/ In (k, (c, pc)) tasks.
Proof.
  unfold settle.
  destruct r as [[pc'|]|e]; simpl;
    try (intros Hin; right; now apply In_drop_task in Hin).
  intros [Heq|Hin].
  - injection Heq as <- <- <-. now left.
  - right. now apply In_drop_task in Hin.
Qed.

Lemma NoDup_app_last (l : list string) x :
  NoDup l -> ~ In x l -> NoDup (l ++ [x]).
Proof.
  induction l as [|y l IH]; simpl; intros Hnd Hnotin.
  - constructor; [tauto | constructor].
  - inversion Hnd as [|? ? Hy Hnd']; subst.
    constructor.
    + intros Hin. apply in_app_or in Hin.
      destruct Hin as [Hin|[Heq|[]]]; [tauto |].
      apply Hnotin. now left.
    + apply IH; tauto.
Qed.

Lemma sound_intro w fws dv dt rq :
  registry_wf w ->
  synced w ->
  NoDup (map dev_id (db_devices w)) ->
  (forall ws d pc,
      In (ws, (d, pc)) dv -> admitting pc = true ->
      In d (map dev_id (db_devices w))) ->
  sound (mkSystem w fws dv dt rq).
Proof.
  intros Hwf Hsync Hnd Hadm. unfold sound. simpl.
  split; [exact Hwf |]. split; [exact Hsync |]. split; [exact Hnd |].
  exact Hadm.
Qed.

(** A step that leaves the device tasks where they are. *)
Lemma sound_same_ids s w' dt rq :
  sound s ->
  consistent w' ->
  same_ids (world s) w' ->
  sound (mkSystem w' (firmware s) (device_tasks s) dt rq).
Proof.
  intros (Hwf & Hsync & Hnd & Hadm) [Hwf' Hsync'] Hids.
  unfold same_ids in Hids.
  apply sound_intro; try assumption.
  - now rewrite Hids.
  - intros ws d pc Hin Hpc. rewrite Hids. now apply (Hadm ws d pc).
Qed.

(** A step of a device task. *)
Lemma sound_settle s w' ws device_id r dt rq :
  sound s ->
  registry_wf w' ->
  synced w' ->
  same_ids (world s) w' ->
  (forall pc,
      r = Ok (Some pc) -> admitting pc = true ->
      In device_id (map dev_id (db_devices (world s)))) ->
  sound (mkSystem w' (firmware s) (settle (device_tasks s) ws device_id r)
           dt rq).
Proof.
  intros (Hwf & Hsync & Hnd & Hadm) Hwf' Hsync' Hids Hnew.
  unfold same_ids in Hids.
  apply sound_intro; try assumption.
  - now rewrite Hids.
  - intros k d pc Hin Hpc. rewrite Hids.
    apply settle_In in Hin. destruct Hin as [(-> & -> & ->)|Hin].
    + now apply (Hnew pc).
    + now apply (Hadm k d pc).
Qed.

Lemma device_resume_step_sound env ws device_id pc s r w' :
  sound s ->
  In (ws, (device_id, pc)) (device_tasks s) ->
  device_resume env ws device_id pc (world s) = (r, w') ->
  store_fault env OpUpdate = false \/
  device_connections (manager w') = device_connections (manager (world s)) ->
  sound (mkSystem w' (firmware s) (settle (device_tasks s) ws device_id r)
           (dashboard_tasks s) (requests s)).
Proof.
  intros Hs Hin Hrun Hp.
  pose proof Hs as (Hwf & Hsync & Hnd & Hadm).
  assert (Hw : w' = snd (device_resume env ws device_id pc (world s)))
    by now rewrite Hrun.
  assert (Hr : r = fst (device_resume env ws device_id pc (world s)))
    by now rewrite Hrun.
  apply sound_settle; auto.
  - subst w'. now apply device_resume_wf.
  - apply (device_step_synced env (world s)); auto.
    + intros Hup. subst w'.
      apply device_resume_consistent; auto.
      * intros Hpc. now apply (Hadm ws device_id pc).
      * now split.
    + intros Hup. subst w'. now apply device_resume_refused.
  - subst w'. apply device_resume_same_ids.
  - intros pc' Hpc' Hadm'.
    destruct (admitting pc) eqn:Hpc; [now apply (Hadm ws device_id pc) |].
    pose proof (device_resume_admits env ws device_id pc Hpc (world s) pc')
      as Hl.
    rewrite <- Hr, Hpc' in Hl. specialize (Hl eq_refl). congruence.
Qed.

Lemma device_deliver_step_sound env ws device_id rcv s r w' :
  sound s ->
  device_deliver env device_id rcv (world s) = (r, w') ->
  store_fault env OpUpdate = false \/
  device_connections (manager w') = device_connections (manager (world s)) ->
  sound (mkSystem w' (firmware s) (settle (device_tasks s) ws device_id r)
           (dashboard_tasks s) (requests s)).
Proof.
  intros Hs Hrun Hp.
  pose proof Hs as (Hwf & Hsync & Hnd & Hadm).
  assert (Hw : w' = snd (device_deliver env device_id rcv (world s)))
    by now rewrite Hrun.
  assert (Hr : r = fst (device_deliver env device_id rcv (world s)))
    by now rewrite Hrun.
  apply sound_settle; auto.
  - subst w'. now apply device_deliver_wf.
  - apply (device_step_synced env (world s)); auto.
    + intros Hup. subst w'.
      apply device_deliver_consistent; auto. now split.
    + intros Hup. subst w'. now apply device_deliver_refused.
  - subst w'. apply device_deliver_same_ids.
  - intros pc' Hpc' Hadm'.
    pose proof (device_deliver_admits env device_id rcv (world s) pc') as Hl.
    rewrite <- Hr, Hpc' in Hl. specialize (Hl eq_refl). congruence.
Qed.

Lemma sys_step_sound uuid_str env a s :
  permitted uuid_str env a s -> sound s -> sound (sys_step uuid_str env a s).
Proof.
  intros Hp Hs.
  pose proof Hs as (Hwf & Hsync & Hnd & Hadm).
  assert (Hc : consistent (world s)) by (split; assumption).
  destruct a; unfold permitted in Hp; unfold sys_step in *.
  - (* a device opens a connection *)
    destruct (is_open s websocket); [exact Hs |].
    pose proof (device_knock_world env device_id auth_token (world s)) as Hw.
    pose proof (device_knock_admits env device_id auth_token (world s))
      as Ha.
    destruct (device_knock env device_id auth_token (world s)) as [r w1].
    simpl in Hw, Ha. subst w1.
    apply sound_settle;
      [exact Hs | exact Hwf | exact Hsync | reflexivity |].
    intros pc -> Hpc. now apply (Ha pc).
  - (* a device task goes on *)
    revert Hp.
    destruct (task_of (device_tasks s) websocket) as [[device_id pc]|]
      eqn:Htask; [| intros _; exact Hs].
    apply task_of_In in Htask.
    destruct pc; try (intros _; exact Hs);
      match goal with
      | |- context [device_resume env websocket device_id ?pc (world s)] =>
          destruct (device_resume env websocket device_id pc (world s))
            as [r w'] eqn:Hrun
      end;
      cbn [world]; intros Hp;
      eapply device_resume_step_sound; eauto.
  - (* a device task receives *)
    revert Hp.
    destruct (task_of (device_tasks s) websocket) as [[device_id pc]|]
      eqn:Htask; [| intros _; exact Hs].
    destruct pc; try (intros _; exact Hs).
    destruct (device_deliver env device_id r (world s)) as [res w']
      eqn:Hrun.
    cbn [world]. intros Hp.
    eapply device_deliver_step_sound; eauto.
  - (* a dashboard opens a connection *)
    destruct (is_open s websocket); [exact Hs |].
    pose proof (keeps_dashboard_open websocket (world s)) as Hq.
    pose proof (dashboard_open_devices websocket (world s)) as Hdb.
    destruct (dashboard_open websocket (world s)) as [r w1].
    simpl in Hq, Hdb.
    apply sound_same_ids; [exact Hs | |].
    + eapply quiet_consistent; [exact Hq | exact Hc].
    + unfold same_ids. now rewrite Hdb.
  - (* a dashboard task goes on *)
    destruct (task_of (dashboard_tasks s) websocket) as [[user_id pc]|];
      [| exact Hs].
    destruct pc; [| exact Hs].
    pose proof (keeps_dashboard_resume websocket user_id DashAtAccept
                  (world s)) as Hq.
    pose proof (dashboard_resume_devices websocket user_id DashAtAccept
                  (world s)) as Hdb.
    destruct (dashboard_resume websocket user_id DashAtAccept (world s))
      as [r w1].
    simpl in Hq, Hdb.
    apply sound_same_ids; [exact Hs | |].
    + eapply quiet_consistent; [exact Hq | exact Hc].
    + unfold same_ids. now rewrite Hdb.
  - (* a dashboard task receives *)
    destruct (task_of (dashboard_tasks s) websocket) as [[user_id pc]|];
      [| exact Hs].
    destruct pc; [exact Hs |].
    pose proof (keeps_dashboard_deliver user_id r (world s)) as Hq.
    pose proof (dashboard_deliver_devices user_id r (world s)) as Hdb.
    destruct (dashboard_deliver user_id r (world s)) as [res w1].
    simpl in Hq, Hdb.
    apply sound_same_ids; [exact Hs | |].
    + eapply quiet_consistent; [exact Hq | exact Hc].
    + unfold same_ids. now rewrite Hdb.
  - (* a pin command comes in *)
    destruct (task_of (requests s) request); [exact Hs |].
    pose proof (pin_start_world env control current_user (world s)) as Hw.
    destruct (pin_start env control current_user (world s)) as [r w1].
    simpl in Hw. subst w1.
    apply sound_same_ids; [exact Hs | exact Hc | reflexivity].
  - (* an OTA command comes in *)
    destruct (task_of (requests s) request); [exact Hs |].
    pose proof (ota_start_world env device_id firmware_id current_user
                  (world s)) as Hw.
    destruct (ota_start env device_id firmware_id current_user (world s))
      as [r w1].
    simpl in Hw. subst w1.
    apply sound_same_ids; [exact Hs | exact Hc | reflexivity].
  - (* a command goes on *)
    destruct (task_of (requests s) request) as [[current_user pc]|];
      [| exact Hs].
    pose proof (request_resume_only_logged env (firmware s) pc (world s))
      as Hl.
    destruct (request_resume env (firmware s) pc (world s)) as [r w1].
    simpl in Hl.
    apply sound_same_ids; [exact Hs | |].
    + now apply (only_logged_consistent (world s)).
    + unfold same_ids.
      now rewrite (proj2 (only_logged_fields _ _ Hl)).
  - (* a record is created *)
    destruct (create_device_world env uuid_str device_data current_user
                (world s)) as [Hm [Hdb|Hdb]].
    + apply sound_intro.
      * now apply (registry_wf_manager (world s)).
      * apply (synced_fields (world s)); auto. now rewrite Hm.
      * now rewrite Hdb.
      * intros ws d pc Hin Hpc. rewrite Hdb. now apply (Hadm ws d pc).
    + apply sound_intro.
      * now apply (registry_wf_manager (world s)).
      * apply (synced_after_insert _ (world s) _ Hm Hdb);
          [discriminate | exact Hsync].
      * rewrite Hdb, map_app. simpl.
        apply NoDup_app_last; assumption.
      * intros ws d pc Hin Hpc. rewrite Hdb, map_app.
        apply in_or_app. left. now apply (Hadm ws d pc).
  - (* a record is deleted *)
    destruct Hp as [Hget Hnone].
    destruct (delete_device_world env device_id current_user (world s))
      as [Hm [Hdb|(x & Hx & Hdb)]].
    + apply sound_intro.
      * now apply (registry_wf_manager (world s)).
      * apply (synced_fields (world s)); auto. now rewrite Hm.
      * now rewrite Hdb.
      * intros ws d pc Hin Hpc. rewrite Hdb. now apply (Hadm ws d pc).
    + apply sound_intro.
      * now apply (registry_wf_manager (world s)).
      * apply (synced_after_delete device_id (usr_id current_user) x
                 (world s) _ Hm Hdb Hx Hnd Hget Hsync).
      * rewrite Hdb. now apply NoDup_remove_first.
      * intros ws d pc Hin Hpc. rewrite Hdb.
        apply (In_id_remove_first_ne _ device_id).
        -- intros y Hy. apply andb_prop in Hy. destruct Hy as [Hid _].
           now apply String.eqb_eq.
        -- intros ->. rewrite (Hnone ws pc Hin) in Hpc. discriminate.
        -- now apply (Hadm ws d pc).
  - (* the clock *)
    apply sound_same_ids; [exact Hs | | reflexivity].
    eapply quiet_consistent; [| exact Hc].
    unfold quiet. simpl. auto.
Qed.

Lemma run_sound uuid_str steps s :
  permitted_run uuid_str steps s -> sound s -> sound (run uuid_str steps s).
Proof.
  revert s. induction steps as [|[env a] steps IH]; simpl; intros s Hp Hs.
  - exact Hs.
  - destruct Hp as [Hp Hrest]. apply IH; [exact Hrest |].
    now apply sys_step_sound.
Qed.

(** ** The steps of a handler, put together

    Taken one after the other with nothing else in between, the steps of
    a task are its handler. *)

Lemma device_drive_none env n ws device_id w :
  device_drive env n ws device_id None w = (Ok Returned, w).
Proof.
  induction n as [|n IH]; [reflexivity |].
  simpl. unfold bind. simpl. exact IH.
Qed.

Lemma device_drive_receive env n ws device_id w :
  device_drive env n ws device_id (Some AtReceiveText) w = (Ok Pending, w).
Proof.
  induction n as [|n IH]; [reflexivity |].
  simpl. unfold bind. simpl. exact IH.
Qed.

Lemma device_drive_S env n ws device_id at_ w :
  device_drive env (S n) ws device_id at_ w =
  (next <- device_continue env ws device_id at_ ;;
   device_drive env n ws device_id next) w.
Proof. reflexivity. Qed.

Lemma device_drive_offline env n ws device_id w :
  device_drive env (S n) ws device_id (Some AtUpdateOffline) w =
  (broadcast_to_users env (device_status_event device_id "offline") ;;
   ret Returned) w.
Proof.
  cbn [device_drive device_continue device_resume]. unfold bind.
  destruct (broadcast_to_users env _ w) as [[[]|e] w1]; [| reflexivity].
  simpl. apply device_drive_none.
Qed.

Lemma cleanup_drive env n ws device_id w :
  (a <- device_cleanup env device_id ;;
   device_drive env (S n) ws device_id a) w =
  on_device_disconnect env device_id w.
Proof.
  unfold device_cleanup, on_device_disconnect, bind.
  rewrite disconnect_device.
  unfold now, devices_update_one, ret.
  destruct (store_fault env OpUpdate); [reflexivity |].
  rewrite device_drive_offline. reflexivity.
Qed.

Lemma segments_of_frame env ws device_id r w :
  (a <- device_deliver env device_id r ;;
   device_drive env 2 ws device_id a) w =
  device_session env device_id [r] w.
Proof.
  pose proof (cleanup_drive env 1 ws device_id) as Hc2.
  pose proof (cleanup_drive env 0 ws device_id) as Hc1.
  unfold device_session, device_deliver, in_try, try_except.
  cbn [device_loop]. unfold handle_frame. unfold bind in *.
  assert (Hfin : forall e w0,
    (let (r0, w') :=
       if is_WebSocketDisconnect e then device_cleanup env device_id w0
       else (Raise e, w0) in
     match r0 with
     | Ok a => device_drive env 2 ws device_id a w'
     | Raise e0 => (Raise e0, w')
     end) =
    (if is_WebSocketDisconnect e then on_device_disconnect env device_id w0
     else (Raise e, w0))).
  { intros e w0.
    destruct (is_WebSocketDisconnect e); [apply Hc2 | reflexivity]. }
  destruct r as [f|code]; cbn [receive_text]; unfold ret, raise.
  2:{ apply Hfin. }
  destruct f as [t|v]; cbn [json_loads]; unfold ret, raise, lift.
  1:{ apply Hfin. }
  destruct (dict_get v "type" JNull) as [ty|e] eqn:Hty; [| apply Hfin].
  assert (Hrecv : forall n w0,
             device_drive env n ws device_id (Some AtReceiveText) w0 =
             (Ok Pending, w0))
    by (intros; apply device_drive_receive).
  destruct (eq_str ty "sensor_data").
  - destruct (dict_get v "data" (JObj [])) as [payload|e] eqn:Hdata;
      [| apply Hfin].
    destruct (new_SensorData device_id payload w) as [[sd|e] w1];
      [| apply Hfin].
    destruct (sensor_data_insert_one env sd w1) as [[[]|e] w2];
      [| apply Hfin].
    rewrite device_drive_S. unfold device_continue, device_resume.
    unfold in_try, try_except, bind, lift, ret. rewrite Hdata.
    destruct (broadcast_to_users env _ w2) as [[[]|e] w3].
    + apply Hrecv.
    + destruct (is_WebSocketDisconnect e); [apply Hc1 | reflexivity].
  - destruct (eq_str ty "firmware_update_status"); [| apply Hrecv].
    destruct (dict_get v "status" JNull) as [status|e] eqn:Hstatus;
      [| apply Hfin].
    destruct (eq_str status "success").
    + destruct (dict_get v "version" JNull) as [version|e] eqn:Hversion;
        [| apply Hfin].
      destruct (devices_update_one env device_id _ w) as [[[]|e] w1];
        [| apply Hfin].
      rewrite device_drive_S. unfold device_continue, device_resume.
      unfold in_try, try_except, bind, lift, ret.
      rewrite Hstatus, Hversion.
      destruct (broadcast_to_users env _ w1) as [[[]|e] w2].
      * apply Hrecv.
      * destruct (is_WebSocketDisconnect e); [apply Hc1 | reflexivity].
    + destruct (dict_get v "version" JNull) as [version|e] eqn:Hversion;
        [| apply Hfin].
      destruct (broadcast_to_users env _ w) as [[[]|e] w1].
      * apply Hrecv.
      * apply Hfin.
Qed.

Lemma segments_of_opening env ws device_id auth_token w :
  (a <- device_knock env device_id auth_token ;;
   device_drive env 3 ws device_id a) w =
  websocket_device env ws device_id auth_token [] w.
Proof.
  unfold websocket_device, device_knock. rewrite connect_halves.
  unfold bind, devices_find_one, ret.
  destruct (store_fault env OpFind); [reflexivity |].
  destruct (find _ (db_devices w)) as [x|]; [| reflexivity].
  rewrite device_drive_S. unfold device_continue, device_resume.
  unfold bind, accept, ret.
  rewrite device_drive_S. unfold device_continue, device_resume.
  unfold bind, ret. rewrite register_device.
  unfold now, devices_update_one.
  destruct (store_fault env OpUpdate); [reflexivity |].
  rewrite device_drive_S. unfold device_continue, device_resume.
  unfold bind, ret.
  destruct (broadcast_to_users env _ _) as [[[]|e] w1]; reflexivity.
Qed.

Lemma segments_of_dashboard_opening ws user_id w :
  (_ <- dashboard_open ws ;;
   at_ <- dashboard_resume ws user_id DashAtAccept ;;
   ret (task_end_of at_)) w =
  websocket_dashboard ws user_id [] w.
Proof. reflexivity. Qed.

Lemma segments_of_dashboard_frame user_id r w :
  (at_ <- dashboard_deliver user_id r ;; ret (task_end_of at_)) w =
  dashboard_session user_id [r] w.
Proof.
  unfold dashboard_deliver, dashboard_session, try_except, bind.
  cbn [dashboard_loop]. unfold bind.
  destruct (receive_text r w) as [[f|e] w1]; [reflexivity |].
  destruct (is_WebSocketDisconnect e); [| reflexivity].
  destruct (disconnect user_id "user" w1) as [[[]|e1] w2]; reflexivity.
Qed.

Ltac same_raise :=
  split; [reflexivity |];
  intros e0; cbn [fst]; split; intros H;
  first [discriminate | injection H as ->; reflexivity].

Lemma segments_of_control_pin env control current_user w :
  let whole := control_pin env control current_user w in
  let parts :=
    (at_ <- pin_start env control current_user ;;
     request_continue env [] at_) w in
  snd parts = snd whole /\
  forall e, fst whole = Raise e <-> fst parts = Raise e.
Proof.
  cbv zeta.
  unfold pin_start, control_pin, bind, devices_find_one, ret.
  destruct (store_fault env OpFind); [same_raise |].
  unfold request_continue, request_resume, bind.
  destruct (find _ (db_devices w)) as [x|]; [| same_raise].
  destruct (send_to_device env _ _ w) as [[[]|e] w1]; same_raise.
Qed.

Lemma segments_of_trigger_ota env fws device_id firmware_id current_user w :
  let whole :=
    trigger_ota_update env fws device_id firmware_id current_user w in
  let parts :=
    (a0 <- ota_start env device_id firmware_id current_user ;;
     a1 <- request_continue env fws a0 ;;
     request_continue env fws a1) w in
  snd parts = snd whole /\
  forall e, fst whole = Raise e <-> fst parts = Raise e.
Proof.
  cbv zeta.
  unfold ota_start, trigger_ota_update, bind, devices_find_one, ret.
  destruct (store_fault env OpFind) eqn:Hfind; [same_raise |].
  destruct (find _ (db_devices w)) as [x|];
    cbn [request_continue request_resume]; unfold bind, raise;
    [| same_raise].
  unfold firmware_find_one. rewrite Hfind.
  destruct (find _ fws) as [f|];
    unfold ret; cbn [request_continue request_resume]; unfold bind, raise;
    [| same_raise].
  destruct (send_to_device env _ _ w) as [[[]|e] w1]; same_raise.
Qed.

(** ** A task running alone

    The steps of one device connection, taken by the server with no
    other step in between, are [websocket_device]. *)

Lemma task_of_drop_task A (tasks : list (nat * A)) key :
  task_of (drop_task tasks key) key = None.
Proof.
  unfold task_of, drop_task.
  induction tasks as [|[k a] tasks IH]; [reflexivity |].
  simpl. destruct (k =? key)%nat eqn:Hk; simpl; [exact IH |].
  now rewrite Hk.
Qed.

Lemma task_of_settle A B (tasks : list (nat * (B * A))) key client r :
  task_of (settle tasks key client r) key =
  match r with
  | Ok (Some pc) => Some (client, pc)
  | _ => None
  end.
Proof.
  unfold settle. destruct r as [[pc|]|e]; try apply task_of_drop_task.
  unfold task_of. simpl. now rewrite Nat.eqb_refl.
Qed.

Lemma run_resumes uuid_str env n ws device_id at_ s :
  task_of (device_tasks s) ws = option_map (pair device_id) at_ ->
  let s' := run uuid_str (repeat (env, DeviceResumes ws) n) s in
  let out := device_drive env n ws device_id at_ (world s) in
  world s' = snd out /\
  (task_of (device_tasks s') ws <> None <-> fst out = Ok Pending).
Proof.
  revert at_ s. induction n as [|n IH]; intros at_ s Htask.
  - simpl. split; [reflexivity |]. rewrite Htask.
    destruct at_; simpl; split; congruence.
  - cbn [repeat run]. rewrite device_drive_S. unfold bind.
    destruct at_ as [pc|].
    + assert (Hstep :
                sys_step uuid_str env (DeviceResumes ws) s =
                (let (r, w) := device_resume env ws device_id pc (world s) in
                 mkSystem w (firmware s)
                   (settle (device_tasks s) ws device_id r)
                   (dashboard_tasks s) (requests s)) \/
                (pc = AtReceiveText /\
                 sys_step uuid_str env (DeviceResumes ws) s = s)).
      { unfold sys_step. rewrite Htask. simpl.
        destruct pc; auto. }
      destruct Hstep as [Hstep|[-> Hstep]]; rewrite Hstep.
      * cbn [device_continue].
        destruct (device_resume env ws device_id pc (world s))
          as [[a|e] w1].
        -- apply IH. cbn [device_tasks]. rewrite task_of_settle.
           now destruct a.
        -- specialize (IH None
                         (mkSystem w1 (firmware s)
                            (settle (device_tasks s) ws device_id
                               (Raise e))
                            (dashboard_tasks s) (requests s))).
           cbn [device_tasks world] in IH.
           rewrite task_of_settle, device_drive_none in IH.
           destruct (IH eq_refl) as [Hw Hiff]. simpl in Hw, Hiff.
           split; [exact Hw |]. simpl.
           split; [intros H; apply Hiff in H |]; discriminate.
      * apply (IH (Some AtReceiveText) s Htask).
    + assert (Hstep : sys_step uuid_str env (DeviceResumes ws) s = s).
      { unfold sys_step. now rewrite Htask. }
      rewrite Hstep. apply (IH None s Htask).
Qed.

Lemma is_open_task_of s ws :
  is_open s ws = false -> task_of (device_tasks s) ws = None.
Proof.
  unfold is_open. destruct (task_of (device_tasks s) ws); [| reflexivity].
  destruct (task_of (dashboard_tasks s) ws); discriminate.
Qed.

Lemma lone_device_opening uuid_str env ws device_id auth_token s :
  is_open s ws = false ->
  let s' :=
    run uuid_str
      ((env, DeviceKnocks ws device_id auth_token)
       :: repeat (env, DeviceResumes ws) 3) s in
  let out := websocket_device env ws device_id auth_token [] (world s) in
  world s' = snd out /\
  (task_of (device_tasks s') ws <> None <-> fst out = Ok Pending).
Proof.
  intros Hopen. cbv zeta.
  rewrite <- segments_of_opening. unfold bind.
  change (run uuid_str
            ((env, DeviceKnocks ws device_id auth_token)
             :: repeat (env, DeviceResumes ws) 3) s)
    with (run uuid_str (repeat (env, DeviceResumes ws) 3)
            (sys_step uuid_str env (DeviceKnocks ws device_id auth_token)
               s)).
  unfold sys_step. rewrite Hopen.
  destruct (device_knock env device_id auth_token (world s)) as [[a|e] w1].
  - apply (run_resumes uuid_str env 3 ws device_id a).
    cbn [device_tasks]. rewrite task_of_settle. now destruct a.
  - pose proof (run_resumes uuid_str env 3 ws device_id None
                  (mkSystem w1 (firmware s)
                     (settle (device_tasks s) ws device_id (Raise e))
                     (dashboard_tasks s) (requests s))) as H.
    cbn [device_tasks world] in H.
    rewrite task_of_settle, device_drive_none in H.
    destruct (H eq_refl) as [Hw Hiff]. simpl in Hw, Hiff.
    split; [exact Hw |]. simpl.
    split; [intros H1; apply Hiff in H1 |]; discriminate.
Qed.

Lemma lone_device_frame uuid_str env ws device_id r s :
  task_of (device_tasks s) ws = Some (device_id, AtReceiveText) ->
  let s' :=
    run uuid_str
      ((env, DeviceYields ws r) :: repeat (env, DeviceResumes ws) 2) s in
  let out := device_session env device_id [r] (world s) in
  world s' = snd out /\
  (task_of (device_tasks s') ws <> None <-> fst out = Ok Pending).
Proof.
  intros Htask. cbv zeta.
  rewrite <- (segments_of_frame env ws). unfold bind.
  change (run uuid_str
            ((env, DeviceYields ws r) :: repeat (env, DeviceResumes ws) 2)
            s)
    with (run uuid_str (repeat (env, DeviceResumes ws) 2)
            (sys_step uuid_str env (DeviceYields ws r) s)).
  unfold sys_step. rewrite Htask.
  destruct (device_deliver env device_id r (world s)) as [[a|e] w1].
  - apply (run_resumes uuid_str env 2 ws device_id a).
    cbn [device_tasks]. rewrite task_of_settle. now destruct a.
  - pose proof (run_resumes uuid_str env 2 ws device_id None
                  (mkSystem w1 (firmware s)
                     (settle (device_tasks s) ws device_id (Raise e))
                     (dashboard_tasks s) (requests s))) as H.
    cbn [device_tasks world] in H.
    rewrite task_of_settle, device_drive_none in H.
    destruct (H eq_refl) as [Hw Hiff]. simpl in Hw, Hiff.
    split; [exact Hw |]. simpl.
    split; [intros H1; apply Hiff in H1 |]; discriminate.
Qed.

(** ** The claims on the liveness invariant *)

Lemma sample_system_sound : sound sample_system.
Proof.
  apply sound_intro.
  - exact sample_world_wf.
  - exact sample_world_synced.
  - simpl. constructor; [simpl; tauto | constructor].
  - intros ws d pc [].
Qed.

(** C1 fails on the code.  A device is looked up and accepted on socket
    1.  (a) The store refuses the [online] update that follows the
    registration: the handler is left by [PyMongoError] with the handle
    registered and the status [offline].  (b) The connection is served,
    the peer is lost, and the store refuses the [offline] update of the
    cleanup: the entry is removed and the status stays [online].  (c) The
    connection is served and its owner deletes the record: the handle
    stays registered for a device that has no status.  (d) The owner
    deletes the record between the lookup and the registration: the
    handle is registered and no record is there to be marked [online].
    In none of the four states does the equivalence hold, and nothing is
    under way that would restore it. *)
Lemma C1_counterexample :
  let found :=
    [(calm, DeviceKnocks 1 "dev-1" "secret"); (calm, DeviceResumes 1)] in
  let served := found ++ [(calm, DeviceResumes 1); (calm, DeviceResumes 1)] in
  let entry s := Dict.get (device_connections (manager (world s))) "dev-1" in
  let status s := device_status (db_devices (world s)) "dev-1" in
  let a :=
    run sample_uuid_str (found ++ [(no_updates, DeviceResumes 1)])
      sample_system in
  let b :=
    run sample_uuid_str
      (served ++ [(no_updates, DeviceYields 1 (Disconnected 1006))])
      sample_system in
  let c :=
    run sample_uuid_str
      (served ++ [(calm, DeleteDevice "dev-1" (mkUser "alice"))])
      sample_system in
  let d :=
    run sample_uuid_str
      (found ++ [(calm, DeleteDevice "dev-1" (mkUser "alice"));
                 (calm, DeviceResumes 1)])
      sample_system in
  (entry a = Some 1 /\ status a = Some "offline" /\ device_tasks a = []) /\
  (entry b = None /\ status b = Some "online" /\ device_tasks b = []) /\
  (entry c = Some 1 /\ status c = None /\
   device_tasks c = [(1, ("dev-1", AtReceiveText))]) /\
  (entry d = Some 1 /\ status d = None /\
   device_tasks d = [(1, ("dev-1", AtUpdateOnline))]) /\
  ~ synced (world a) /\ ~ synced (world b) /\
  ~ synced (world c) /\ ~ synced (world d).
Proof.
  intros found served entry status a b c d.
  assert (Ha : entry a = Some 1 /\ status a = Some "offline"
               /\ device_tasks a = []) by (vm_compute; auto).
  assert (Hb : entry b = None /\ status b = Some "online"
               /\ device_tasks b = []) by (vm_compute; auto).
  assert (Hc : entry c = Some 1 /\ status c = None /\
               device_tasks c = [(1, ("dev-1", AtReceiveText))])
    by (vm_compute; auto).
  assert (Hd : entry d = Some 1 /\ status d = None /\
               device_tasks d = [(1, ("dev-1", AtUpdateOnline))])
    by (vm_compute; auto).
  split; [exact Ha |]. split; [exact Hb |].
  split; [exact Hc |]. split; [exact Hd |].
  destruct Ha as (Ha1 & Ha2 & _). destruct Hb as (Hb1 & Hb2 & _).
  destruct Hc as (Hc1 & Hc2 & _). destruct Hd as (Hd1 & Hd2 & _).
  unfold entry, status in *.
  split; [| split; [| split]]; intros Hsync; specialize (Hsync "dev-1").
  - rewrite Ha1, Ha2 in Hsync.
    assert (H : Some "offline" = Some "online")
      by (apply Hsync; discriminate).
    discriminate.
  - rewrite Hb1, Hb2 in Hsync.
    apply (proj2 Hsync); reflexivity.
  - rewrite Hc1, Hc2 in Hsync.
    assert (H : @None string = Some "online")
      by (apply Hsync; discriminate).
    discriminate.
  - rewrite Hd1, Hd2 in Hsync.
    assert (H : @None string = Some "online")
      by (apply Hsync; discriminate).
    discriminate.
Qed.

(** C1, amended.  Take a state of the server in which the equivalence
    holds, the registry has one entry per key, device ids are unique in
    the store and every device connection between lookup and
    registration has a record, and take any run of steps from it: the
    steps of device connections, of dashboard connections and of pin and
    OTA commands, each from one await to the next, the creation and the
    deletion of a record, and the passing of time.  If every step of a
    device connection that changes the device partition has its status
    update accepted by the store, no record is deleted while its device
    has a registry entry or a connection between lookup and registration,
    and every created record gets an id that is not in the store, then
    in the state reached a device has a handle in the device partition
    if and only if its persisted status is [online]; and from that state
    every step of a device connection taken with the store accepting
    updates -- its registration, the handling of a frame, its cleanup --
    leaves the equivalence in place. *)
Theorem C1_status_tracks_registry (uuid_str : nat -> string)
  (steps : list (Env * action)) (s : System) :
  sound s ->
  permitted_run uuid_str steps s ->
  let s' := run uuid_str steps s in
  (forall device_id,
      Dict.get (device_connections (manager (world s'))) device_id <> None
      <-> device_status (db_devices (world s')) device_id = Some "online") /\
  (forall env ws,
      store_fault env OpUpdate = false ->
      synced (world (sys_step uuid_str env (DeviceResumes ws) s'))) /\
  (forall env ws r,
      store_fault env OpUpdate = false ->
      synced (world (sys_step uuid_str env (DeviceYields ws r) s'))).
Proof.
  intros Hs Hp s'.
  assert (Hs' : sound s') by now apply run_sound.
  split; [| split].
  - apply Hs'.
  - intros env ws Hup.
    apply (sys_step_sound uuid_str env (DeviceResumes ws) s');
      [left; exact Hup | exact Hs'].
  - intros env ws r Hup.
    apply (sys_step_sound uuid_str env (DeviceYields ws r) s');
      [left; exact Hup | exact Hs'].
Qed.

Ltac permit :=
  repeat
    match goal with
    | |- permitted_run _ [] _ => exact I
    | |- permitted_run _ (_ :: _) _ => split
    | |- permitted _ _ (DeviceResumes _) _ => left; reflexivity
    | |- permitted _ _ (DeviceYields _ _) _ => left; reflexivity
    | |- permitted _ _ _ _ => exact I
    end.

Lemma C1_witness :
  let steps :=
    [(calm, CreateDevice (mkDeviceCreate "lamp" "esp32") (mkUser "bob"));
     (calm, DeviceKnocks 1 "dev-1" "secret");
     (calm, DashboardYields 8 (Disconnected 1001));
     (calm, DeviceResumes 1);
     (calm, PinCommand 0 (mkPinControl "dev-1" "D4" (JInt 1))
              (mkUser "alice"));
     (calm, DeviceResumes 1);
     (calm, RequestResumes 0);
     (calm, DeviceResumes 1);
     (calm, DeviceYields 1 (Text (Json sample_reading)));
     (calm, DeviceKnocks 2 "dev-1" "secret");
     (flaky 7, DeviceResumes 1);
     (calm, DeviceResumes 2);
     (calm, DeviceResumes 2);
     (calm, DeviceResumes 2);
     (calm, ClockTick);
     (calm, DeviceYields 2 (Disconnected 1006));
     (calm, DeviceResumes 2);
     (calm, DeleteDevice "dev-1" (mkUser "alice"))] in
  let s' := run sample_uuid_str steps sample_system in
  sound sample_system /\
  permitted_run sample_uuid_str steps sample_system /\
  (forall device_id,
      Dict.get (device_connections (manager (world s'))) device_id <> None
      <-> device_status (db_devices (world s')) device_id = Some "online") /\
  (forall env ws,
      store_fault env OpUpdate = false ->
      synced (world (sys_step sample_uuid_str env (DeviceResumes ws) s'))) /\
  (forall env ws r,
      store_fault env OpUpdate = false ->
      synced (world (sys_step sample_uuid_str env (DeviceYields ws r) s'))).
Proof.
  intros steps s'.
  assert (Hp : permitted_run sample_uuid_str steps sample_system).
  { unfold steps. permit.
    - vm_compute. intros [H|[]]. discriminate.
    - vm_compute. split; [reflexivity |]. intros ws pc []. }
  split; [exact sample_system_sound |].
  split; [exact Hp |].
  exact (C1_status_tracks_registry sample_uuid_str steps sample_system
           sample_system_sound Hp).
Defined.



